(** * Session, presence and routing layer of the chat server

    A shallow embedding of [Nodeserver/socketHandlers.js], of the connection
    bootstrap and [broadcastPresenceUpdate] of [index.js], and of
    [Room.findOrCreateDirectMessage] of [models/Room.js], with the schemas
    of [models/Room.js], [models/User.js] and [models/Message.js] where a
    statement depends on what the store does.

    Modelling conventions.
    - The three process-wide [Map]s ([userSockets], [connectedSockets],
      [activeChats]) and the [Set]s they hold are insertion-ordered
      collections with in-place update, as in JavaScript: [forEach] visits
      the entries in the order of the lists below.
    - Identifiers (socket ids, user ids, room names, ObjectId strings) are
      [string]s, read as JavaScript strings whose code units are below 256;
      [null], [undefined] and the empty string are all falsy in the source
      and an absent string field is written [EmptyString].
    - Free text that is trimmed and measured (message text, status message)
      is a list of UTF-16 code units.
    - Mongoose/MongoDB is a collaborator reached through the [Persistence]
      interface; every call returns a [Result], [Err] standing for a
      rejected promise.  [new Date()] and fresh ObjectIds come from the same
      collaborator world.
    - [step] runs an event handler to completion.  Every handler but
      ['join chat'] changes the shared maps in one synchronous block, so
      that for the state this is the handler as it runs; ['join chat']
      leaves before its first [await] and joins after it, and [astep] runs
      its two halves as separate steps, with other steps in between.
    - [MESSAGE_HISTORY_LIMIT] is a natural number, what [parseInt] reads
      from a numeral without sign; the default is 50.
    - Outward calls ([emit], [socket.join], [socket.leave]) are recorded in
      an effect log, a broadcast that the source starts without awaiting it
      ([broadcastUserListUpdate], the summaries of a direct message) at the
      place where it is started: the log fixes what is emitted and to
      whom, not the order in which the emits of one step leave. *)

From Stdlib Require Import List String Ascii Bool Arith Lia NArith Permutation Sorted.
Import ListNotations.
Local Open Scope string_scope.
Local Open Scope list_scope.

(** ** JavaScript containers *)

Module JsSet.
Definition t := list string.

Definition has (x : string) (s : t) : bool := existsb (String.eqb x) s.

(** [Set.prototype.add]: a new element goes last, an old one stays put. *)
Definition add (x : string) (s : t) : t := if has x s then s else s ++ [x].

Definition delete (x : string) (s : t) : t :=
  filter (fun y => negb (String.eqb x y)) s.

Definition size (s : t) : nat := List.length s.

(** [new Set(array)] *)
Definition of_list (l : list string) : t := fold_left (fun s x => add x s) l [].
End JsSet.

Module JsMap.
Definition t (V : Type) := list (string * V).

Fixpoint get {V} (k : string) (m : t V) : option V :=
  match m with
  | [] => None
  | (k', v) :: r => if String.eqb k k' then Some v else get k r
  end.

Definition has {V} (k : string) (m : t V) : bool :=
  match get k m with Some _ => true | None => false end.

(** [Map.prototype.set]: an existing key keeps its position. *)
Fixpoint set {V} (k : string) (v : V) (m : t V) : t V :=
  match m with
  | [] => [(k, v)]
  | (k', v') :: r =>
      if String.eqb k k' then (k, v) :: r else (k', v') :: set k v r
  end.

Definition delete {V} (k : string) (m : t V) : t V :=
  filter (fun kv => negb (String.eqb k (fst kv))) m.

Definition values {V} (m : t V) : list V := map snd m.
Definition keys {V} (m : t V) : list string := map fst m.
End JsMap.

(** ** JavaScript strings *)

(** Truthiness of a string value: [null]/[undefined]/[""] are falsy. *)
Definition truthy (s : string) : bool := negb (String.eqb s "").

Definition truthy_opt (o : option string) : bool :=
  match o with Some s => truthy s | None => false end.

(** [a || b] on strings. *)
Definition or_else (a b : string) : string := if truthy a then a else b.

(** Text as UTF-16 code units. *)
Definition JsText := list N.

Definition utf16 (s : string) : JsText := map N_of_ascii (list_ascii_of_string s).

(** WhiteSpace and LineTerminator code points of ECMAScript, the ones
    [String.prototype.trim] strips. *)
Definition is_js_space (c : N) : bool :=
  existsb (N.eqb c)
    [9; 10; 11; 12; 13; 32; 160; 5760; 8232; 8233; 8239; 8287; 12288; 65279]%N
  || (8192 <=? c)%N && (c <=? 8202)%N.

Fixpoint trimStart (t : JsText) : JsText :=
  match t with
  | c :: r => if is_js_space c then trimStart r else t
  | [] => []
  end.

Definition trimEnd (t : JsText) : JsText := rev (trimStart (rev t)).

Definition trim (t : JsText) : JsText := trimEnd (trimStart t).

(** [text.slice(0, n)] *)
Definition slice0 (n : nat) (t : JsText) : JsText := firstn n t.

(** [trim] and [toLowerCase] on a [string]: below 256 the white space is
    9-13, 32 and 160, and the letters with a lower case are A-Z, 192-214 and
    216-222. *)
Definition isSpaceChar (c : ascii) : bool := is_js_space (N_of_ascii c).

Fixpoint dropSpaces (l : list ascii) : list ascii :=
  match l with
  | c :: r => if isSpaceChar c then dropSpaces r else l
  | [] => []
  end.

Definition trimString (s : string) : string :=
  string_of_list_ascii (rev (dropSpaces (rev (dropSpaces (list_ascii_of_string s))))).

Definition lowerChar (c : ascii) : ascii :=
  let n := nat_of_ascii c in
  if ((65 <=? n) && (n <=? 90) || (192 <=? n) && (n <=? 214)
      || (216 <=? n) && (n <=? 222))%nat
  then ascii_of_nat (n + 32) else c.

Definition toLowerString (s : string) : string :=
  string_of_list_ascii (map lowerChar (list_ascii_of_string s)).

(** ** Constants *)

Definition MAX_MESSAGE_LENGTH : nat := 1000.

(** ** Data model *)

Definition Time := nat.
Definition DbId := string.

(** A user document, also the plain object [socket.user]. *)
Record UserDoc := mkUser {
  user_id : string;
  user_username : string;
  user_avatarUrl : string;
  user_status : string;
  user_statusMessage : JsText;
  user_lastSeen : Time
}.

(** The object built by [formatUserForClient]. *)
Record ClientUser := mkClientUser {
  cu_id : option string;
  cu_username : string;
  cu_avatarUrl : string;
  cu_status : string
}.

Record RoomDoc := mkRoom {
  room_id : DbId;
  room_name : string;
  room_displayName : string;
  room_type : string;
  room_owner : string;
  room_participants : list string;
  room_lastActivity : Time
}.

(** The setters the Room schema declares on [name] ([trim: true],
    [lowercase: true]); mongoose applies them to the value given to
    [new Room] and to the value of a query filter on [name]. *)
Definition schemaName (s : string) : string := toLowerString (trimString s).

(** A message document ([models/Message.js]): [text] (a required string,
    trimmed, of at most 1000 code units), [sender] and [chat] (required
    ObjectIds, of a user and of a room) and the [createdAt] timestamp that
    [timestamps: true] adds; [msg_senderDoc] is the [sender] field once
    populated ([None]: the user is gone). *)
Record MessageDoc := mkMessage {
  msg_id : DbId;
  msg_text : JsText;
  msg_sender : string;
  msg_senderDoc : option UserDoc;
  msg_chat : DbId;
  msg_createdAt : Time
}.

(** Entry of [connectedSockets]. *)
Record SocketData := mkSocketData {
  sd_userId : string;
  sd_username : string;
  currentChatId : option string;
  currentChatType : option string
}.

(** Entry of [activeChats]. *)
Record ChatInfo := mkChatInfo {
  chat_name : string;
  chat_type : string;
  chat_dbId : DbId;
  members : JsSet.t
}.

(** Shared in-memory state of [index.js], with the [socket.user] object of
    every live transport session. *)
Record State := mkState {
  userSockets : JsMap.t JsSet.t;
  connectedSockets : JsMap.t SocketData;
  activeChats : JsMap.t ChatInfo;
  socketUser : JsMap.t UserDoc
}.

Definition set_userSockets (st : State) us :=
  mkState us (connectedSockets st) (activeChats st) (socketUser st).
Definition set_connectedSockets (st : State) cs :=
  mkState (userSockets st) cs (activeChats st) (socketUser st).
Definition set_activeChats (st : State) ac :=
  mkState (userSockets st) (connectedSockets st) ac (socketUser st).
Definition set_socketUser (st : State) su :=
  mkState (userSockets st) (connectedSockets st) (activeChats st) su.

(** ** Outward effects *)

Record ChatRef := mkChatRef { ref_type : string; ref_id : string }.

Record ClientMessage := mkClientMessage {
  cm_sender : ClientUser;
  cm_text : JsText;
  cm_timestamp : Time
}.

Record DmListEntry := mkDmListEntry {
  dm_roomId : string;
  dm_otherUser : option ClientUser;
  dm_lastMessageTimestamp : Time;
  dm_hasUnread : bool
}.

Inductive Payload :=
| PError (message : string)
| PUserList (room : string) (users : list ClientUser)
| PJoinPresence (userId username avatarUrl status : string)
| PPresence (userId status : string) (statusMessage : option JsText) (lastSeen : Time)
| PStopTyping (userId : string) (chat : ChatRef)
| PTyping (userId username : string) (chat : ChatRef)
| PJoined (chat : ChatRef) (name avatarUrl : string) (users : list ClientUser)
    (messages : list ClientMessage) (isNew : bool)
| PDmListUpdate (entries : list DmListEntry)
| PChatMessage (sender : ClientUser) (text : JsText) (timestamp : Time) (chat : ChatRef)
| PInitialData (rooms : list string) (dms : list DmListEntry).

Inductive Target :=
| SocketEmit (sid : string)          (* socket.emit *)
| IoTo (room : string)               (* io.to(room).emit; a socket id is a room *)
| SocketTo (sid room : string).      (* socket.to(room).emit: the room but [sid] *)

Inductive Effect :=
| Emit (to : Target) (event : string) (payload : Payload)
| Join (sid room : string)           (* socket.join *)
| Leave (sid room : string).         (* socket.leave *)

(** ** The persistence collaborator *)

Record DbError := mkDbError { err_code : option N; err_message : string }.

Inductive Result (A : Type) :=
| Ok (a : A)
| Err (e : DbError).
Arguments Ok {A} a.
Arguments Err {A} e.

Definition plainError (m : string) : DbError := mkDbError None m.

Class Persistence (W : Type) := {
  (* mongoose.Types.ObjectId.isValid *)
  isValidObjectId : string -> bool;
  (* new Date() *)
  now : W -> Time * W;
  (* the _id of a document made with [new Model(...)] *)
  newObjectId : W -> DbId * W;
  (* Room.findOne({ type: 'public', name }) *)
  findPublicRoom : string -> W -> Result (option RoomDoc) * W;
  (* Room.findOne({ type: 'direct', participants: { $all, $size: 2 } }) *)
  findDirectRoom : list string -> W -> Result (option RoomDoc) * W;
  (* Room.findById(id) *)
  findRoomById : string -> W -> Result (option RoomDoc) * W;
  (* Room.findById(id).populate(participants other than the given user) *)
  findRoomByIdPopulated :
    string -> string -> W -> Result (option (RoomDoc * list UserDoc)) * W;
  (* doc.save() of a room *)
  saveRoom : RoomDoc -> W -> Result unit * W;
  (* Room.findByIdAndUpdate(id, { lastActivity }, { new: true }) *)
  touchRoom : DbId -> Time -> W -> Result (option RoomDoc) * W;
  (* User.findById(id) *)
  findUserById : string -> W -> Result (option UserDoc) * W;
  (* User.find({ _id: { $in: ids } }) *)
  findUsers : list string -> W -> Result (list UserDoc) * W;
  (* User.findByIdAndUpdate(id, { $set: { status, statusMessage?, lastSeen } }, { new: true }) *)
  updateUserStatus :
    string -> string -> option JsText -> Time -> W -> Result (option UserDoc) * W;
  (* Message.find({ chat }).sort({ createdAt: -1 }).limit(n).populate('sender') *)
  findMessages : DbId -> nat -> W -> Result (list MessageDoc) * W;
  (* new Message({ text, sender, chat }).save() *)
  saveMessage : JsText -> string -> DbId -> W -> Result MessageDoc * W;
  (* Message.findById(id).populate('sender') *)
  findMessageById : DbId -> W -> Result (option MessageDoc) * W;
  (* Room.find({ type: 'public' }).select('name') *)
  findPublicRooms : W -> Result (list RoomDoc) * W;
  (* Room.find({ type: 'direct', participants: userId }).populate(other).sort({ lastActivity: -1 }) *)
  findUserDMs : string -> W -> Result (list (RoomDoc * list UserDoc)) * W
}.

(** ** Room.findOrCreateDirectMessage (models/Room.js) *)

(** [[a, b].sort()]: the default sort compares strings by code units. *)
Definition sortPair (a b : string) : list string :=
  if String.ltb b a then [b; a] else [a; b].

Definition selfDmError : DbError :=
  plainError "Cannot create a direct message with oneself.".

Definition inconsistentError : DbError :=
  plainError "Server error: Could not find or create DM room.".

(** The outer [catch] rethrows every error wrapped in a fresh [Error]. *)
Definition wrapDmError (e : DbError) : DbError :=
  plainError ("Failed to find or create direct message: " ++ err_message e).

Definition isDuplicateKey (e : DbError) : bool :=
  match err_code e with Some c => N.eqb c 11000 | None => false end.

Section Resolver.
Context {W : Type} `{Persistence W}.

Definition findOrCreateDirectMessage (userId1 userId2 : string) (w : W)
  : Result (RoomDoc * bool) * W :=
  if String.eqb userId1 userId2 then (Err selfDmError, w)
  else
    let participants := sortPair userId1 userId2 in
    match findDirectRoom participants w with
    | (Err e, w1) => (Err (wrapDmError e), w1)
    | (Ok (Some dmRoom), w1) => (Ok (dmRoom, false), w1)
    | (Ok None, w1) =>
        let '(oid, w2) := newObjectId w1 in
        let '(t, w3) := now w2 in
        let dmRoom := mkRoom oid "" "" "direct" "" participants t in
        match saveRoom dmRoom w3 with
        | (Ok _, w4) => (Ok (dmRoom, true), w4)
        | (Err e, w4) =>
            if isDuplicateKey e then
              match findDirectRoom participants w4 with
              | (Err e', w5) => (Err (wrapDmError e'), w5)
              | (Ok (Some found), w5) => (Ok (found, false), w5)
              | (Ok None, w5) => (Err (wrapDmError inconsistentError), w5)
              end
            else (Err (wrapDmError e), w4)
        end
    end.
End Resolver.

(** ** socketHandlers.js and the helpers of index.js *)

Definition defaultAvatar : string := "/uploads/avatars/default.png".

Definition formatUserForClient (targetUser : UserDoc) : ClientUser :=
  mkClientUser (Some (user_id targetUser)) (user_username targetUser)
    (or_else (user_avatarUrl targetUser) defaultAvatar)
    (or_else (user_status targetUser) "offline").

Definition deletedUser : ClientUser :=
  mkClientUser None "[Deleted User]" defaultAvatar "offline".

Definition sendError (sid : string) (message : string) : Effect :=
  Emit (SocketEmit sid) "error message" (PError message).

(** The contribution of one entry of [activeChats] to [usersToNotify]. *)
Definition notifyFrom (userId : string) (chatInfo : ChatInfo) (acc : JsSet.t) : JsSet.t :=
  if JsSet.has userId (members chatInfo) then
    fold_left
      (fun acc memberId =>
         if negb (String.eqb memberId userId) then JsSet.add memberId acc else acc)
      (members chatInfo) acc
  else acc.

Definition usersToNotify (st : State) (userId : string) : JsSet.t :=
  fold_left (fun acc chatInfo => notifyFrom userId chatInfo acc)
    (JsMap.values (activeChats st)) [].

(** The sockets reached for one notified user. *)
Definition targetSocketsOf (st : State) (notifyUserId : string) : list string :=
  match JsMap.get notifyUserId (userSockets st) with
  | Some targetSockets => targetSockets
  | None => []
  end.

Definition broadcastPresenceUpdate (st : State) (userId : string)
    (status : string) (statusMessage : option JsText) (lastSeen : Time) : list Effect :=
  flat_map
    (fun notifyUserId =>
       map (fun socketId =>
              Emit (IoTo socketId) "presence update"
                (PPresence userId status statusMessage lastSeen))
         (targetSocketsOf st notifyUserId))
    (usersToNotify st userId).

(** Room-name check of the join handler: [/^[a-z0-9-_]+$/]. *)
Definition isRoomNameChar (c : ascii) : bool :=
  let n := nat_of_ascii c in
  ((97 <=? n) && (n <=? 122) || (48 <=? n) && (n <=? 57) || (n =? 45) || (n =? 95))%nat.

Definition roomNameMatches (s : string) : bool :=
  match list_ascii_of_string s with
  | [] => false
  | cs => forallb isRoomNameChar cs
  end.

Definition invalidRoomName (requestedId : string) : bool :=
  (String.length requestedId <? 3)%nat || (20 <? String.length requestedId)%nat
  || negb (roomNameMatches requestedId).

Definition toUpperAscii (c : ascii) : ascii :=
  let n := nat_of_ascii c in
  if ((97 <=? n) && (n <=? 122))%nat then ascii_of_nat (n - 32) else c.

(** [s.charAt(0).toUpperCase() + s.slice(1)] on a checked room name. *)
Definition capitalize (s : string) : string :=
  match s with
  | String c r => String (toUpperAscii c) r
  | EmptyString => EmptyString
  end.

Record JoinData := mkJoinData { jd_type : string; jd_id : string }.
Record MsgData := mkMsgData { md_text : option JsText; md_chat : option ChatRef }.
Record StatusData := mkStatusData { sd_status : string; sd_statusMessage : option JsText }.

Definition validStatuses : list string := ["online"; "away"; "dnd"].

Definition includes (x : string) (l : list string) : bool := existsb (String.eqb x) l.

(** The closure of one registered socket: [socket.id] and [socket.user]. *)
Record Sock := mkSock { sock_id : string; sock_user : UserDoc }.

Definition sock_userId (s : Sock) : string := user_id (sock_user s).
Definition sock_username (s : Sock) : string := user_username (sock_user s).

(** [activeChats.get(chatId).members.add(userId)] *)
Definition addMember (chatId userId : string) (ac : JsMap.t ChatInfo) : JsMap.t ChatInfo :=
  match JsMap.get chatId ac with
  | Some ci =>
      JsMap.set chatId
        (mkChatInfo (chat_name ci) (chat_type ci) (chat_dbId ci)
           (JsSet.add userId (members ci))) ac
  | None => ac
  end.

(** [chatInfo.members.delete(userId)] *)
Definition removeMember (chatId userId : string) (ac : JsMap.t ChatInfo) : JsMap.t ChatInfo :=
  match JsMap.get chatId ac with
  | Some ci =>
      JsMap.set chatId
        (mkChatInfo (chat_name ci) (chat_type ci) (chat_dbId ci)
           (JsSet.delete userId (members ci))) ac
  | None => ac
  end.

Definition toClientMessage (msg : MessageDoc) : ClientMessage :=
  mkClientMessage
    (match msg_senderDoc msg with
     | Some u => formatUserForClient u
     | None => deletedUser
     end)
    (msg_text msg) (msg_createdAt msg).

Definition Out (W : Type) : Type := (State * list Effect) * W.

Section Handlers.
Context {W : Type} `{Persistence W}.
Variable MESSAGE_HISTORY_LIMIT : nat.

Definition getRecentMessages (socketId : string) (chatDbId : DbId) (w : W)
  : (list ClientMessage * list Effect) * W :=
  if negb (isValidObjectId chatDbId) then (([], []), w)
  else
    match findMessages chatDbId MESSAGE_HISTORY_LIMIT w with
    | (Ok messages, w1) => ((map toClientMessage (rev messages), []), w1)
    | (Err _, w1) => (([], [sendError socketId "Failed to load message history."]), w1)
    end.

Definition broadcastUserListUpdate (st : State) (roomId : string) (w : W)
  : list Effect * W :=
  match JsMap.get roomId (activeChats st) with
  | None => ([], w)
  | Some roomInfo =>
      if negb (String.eqb (chat_type roomInfo) "room") then ([], w)
      else if (0 <? JsSet.size (members roomInfo))%nat then
        let memberObjectIds := filter isValidObjectId (members roomInfo) in
        match findUsers memberObjectIds w with
        | (Ok users, w1) =>
            ([Emit (IoTo roomId) "user list update"
                (PUserList roomId (map formatUserForClient users))], w1)
        | (Err _, w1) =>
            ([Emit (IoTo roomId) "user list update" (PUserList roomId [])], w1)
        end
      else ([Emit (IoTo roomId) "user list update" (PUserList roomId [])], w)
  end.

Definition joinSocketToChat (sock : Sock) (chatId chatType chatName : string)
    (chatDbId : DbId) (st : State) (w : W) : Out W :=
  match JsMap.get (sock_id sock) (connectedSockets st) with
  | None => ((st, []), w)
  | Some socketData =>
      let cs :=
        JsMap.set (sock_id sock)
          (mkSocketData (sd_userId socketData) (sd_username socketData)
             (Some chatId) (Some chatType))
          (connectedSockets st) in
      let ac0 := activeChats st in
      let ac1 :=
        if JsMap.has chatId ac0 then ac0
        else JsMap.set chatId (mkChatInfo chatName chatType chatDbId []) ac0 in
      let ac2 := addMember chatId (sock_userId sock) ac1 in
      let st1 := set_activeChats (set_connectedSockets st cs) ac2 in
      if String.eqb chatType "room" then
        let '(e, w1) := broadcastUserListUpdate st1 chatId w in
        ((st1,
          Join (sock_id sock) chatId :: e ++
          [Emit (SocketTo (sock_id sock) chatId) "presence update"
             (PJoinPresence (sock_userId sock) (sock_username sock)
                (user_avatarUrl (sock_user sock))
                (or_else (user_status (sock_user sock)) "online"))]), w1)
      else ((st1, [Join (sock_id sock) chatId]), w)
  end.

Definition leaveCurrentChat (sock : Sock) (st : State) (w : W) : Out W :=
  match JsMap.get (sock_id sock) (connectedSockets st) with
  | None => ((st, []), w)
  | Some socketData =>
      match currentChatId socketData, currentChatType socketData with
      | Some chatId, Some chatType =>
          if truthy chatId && truthy chatType then
            let st1 := set_activeChats st
                         (removeMember chatId (sock_userId sock) (activeChats st)) in
            let '(e, w1) :=
              match JsMap.get chatId (activeChats st1) with
              | Some ci =>
                  if String.eqb chatType "room" && (0 <? JsSet.size (members ci))%nat
                  then broadcastUserListUpdate st1 chatId w
                  else ([], w)
              | None => ([], w)
              end in
            let st2 := set_connectedSockets st1
                         (JsMap.set (sock_id sock)
                            (mkSocketData (sd_userId socketData) (sd_username socketData)
                               None None)
                            (connectedSockets st1)) in
            ((st2,
              Leave (sock_id sock) chatId :: e ++
              [Emit (IoTo chatId) "stop typing"
                 (PStopTyping (sock_userId sock) (mkChatRef chatType chatId))]), w1)
          else ((st, []), w)
      | _, _ => ((st, []), w)
      end
  end.

Definition serverErrorMessage (e : DbError) : string :=
  or_else (err_message e) "Server error".

(** Tail of the join handler, from [joinSocketToChat] to the
    ['joined chat'] confirmation. *)
Definition completeJoin (sock : Sock) (requestedType chatIdForClient chatName
    chatAvatarUrl : string) (chatDbId : DbId) (isNew : bool)
    (st : State) (pre : list Effect) (w : W) : Out W :=
  let '((st1, e1), w1) :=
    joinSocketToChat sock chatIdForClient requestedType chatName chatDbId st w in
  let '((recentMessages, e2), w2) := getRecentMessages (sock_id sock) chatDbId w1 in
  let '(usersInRoomData, w3) :=
    if String.eqb requestedType "room" then
      match JsMap.get chatIdForClient (activeChats st1) with
      | Some roomInfo =>
          if (0 <? JsSet.size (members roomInfo))%nat then
            if forallb isValidObjectId (members roomInfo) then
              match findUsers (members roomInfo) w2 with
              | (Ok users, w') => (map formatUserForClient users, w')
              | (Err _, w') => ([], w')
              end
            else ([], w2)
          else ([], w2)
      | None => ([], w2)
      end
    else ([], w2) in
  ((st1,
    pre ++ e1 ++ e2 ++
    [Emit (SocketEmit (sock_id sock)) "joined chat"
       (PJoined (mkChatRef requestedType chatIdForClient) chatName chatAvatarUrl
          usersInRoomData recentMessages isNew)]), w3).

(** The ['join chat'] handler from its first [await] on (lines 254-362):
    the room is looked up or created, the socket joins it and the
    confirmation is sent.  [st1] is the state the handler finds when it
    goes on, [e1] what it has emitted so far. *)
Definition joinResume (sock : Sock) (requestedType requestedId : string)
    (st1 : State) (e1 : list Effect) (w1 : W) : Out W :=
  let sid := sock_id sock in
  let userId := sock_userId sock in
  let reject (message : string) (w' : W) : Out W :=
    ((st1, e1 ++ [sendError sid message]), w') in
  let failed (e : DbError) (w' : W) : Out W :=
    reject ("Failed to join chat: " ++ serverErrorMessage e)%string w' in
  if String.eqb requestedType "room" then
    match findPublicRoom requestedId w1 with
    | (Err e, w2) => failed e w2
    | (Ok (Some chatDoc), w2) =>
        completeJoin sock requestedType (room_name chatDoc)
          (room_displayName chatDoc) "" (room_id chatDoc) false st1 e1 w2
    | (Ok None, w2) =>
        if invalidRoomName requestedId then
          reject
            "Invalid room name format. Use lowercase letters, numbers, -, _ (3-20 chars)."
            w2
        else
          (* new Room({ name, displayName, type, owner }): the schema's
             lowercase and trim setters leave a checked name as it is,
             and lastActivity defaults to the current date *)
          let '(oid, w3) := newObjectId w2 in
          let '(t, w4) := now w3 in
          let chatDoc :=
            mkRoom oid requestedId (capitalize requestedId) "public" userId [] t in
          match saveRoom chatDoc w4 with
          | (Err e, w5) => failed e w5
          | (Ok _, w5) =>
              completeJoin sock requestedType (room_name chatDoc)
                (room_displayName chatDoc) "" (room_id chatDoc) true st1 e1 w5
          end
    end
  else if String.eqb requestedType "direct" then
    if negb (isValidObjectId requestedId) then
      reject "Invalid DM identifier format." w1
    else
      match findRoomByIdPopulated requestedId userId w1 with
      | (Err e, w2) => failed e w2
      | (Ok None, w2) => reject "Direct message chat not found." w2
      | (Ok (Some (chatDoc, others)), w2) =>
        if negb (String.eqb (room_type chatDoc) "direct") then
          reject "Direct message chat not found." w2
        else
          match findRoomById requestedId w2 with
          | (Err e, w3) => failed e w3
          | (Ok None, w3) =>
              failed (plainError "Cannot read properties of null") w3
          | (Ok (Some r), w3) =>
            let participantIds := room_participants r in
            if negb (includes userId participantIds) then
              reject "Not authorized for this direct message." w3
            else
              let proceed (other : ClientUser) (w' : W) : Out W :=
                completeJoin sock requestedType (room_id chatDoc)
                  (cu_username other) (cu_avatarUrl other) (room_id chatDoc)
                  false st1 e1 w' in
              match others with
              | o :: _ => proceed (formatUserForClient o) w3
              | [] =>
                  match find (fun id => negb (String.eqb id userId)) participantIds with
                  | Some otherParticipantId =>
                      match findUserById otherParticipantId w3 with
                      | (Err e, w4) => failed e w4
                      | (Ok (Some u), w4) => proceed (formatUserForClient u) w4
                      | (Ok None, w4) => reject "Error identifying DM partner." w4
                      end
                  | None => reject "Error identifying DM partner." w3
                  end
              end
          end
      end
  else reject "Invalid chat type specified." w1.

(** socket.on('join chat'), run to completion. *)
Definition onJoinChat (sock : Sock) (data : option JoinData) (st : State) (w : W)
  : Out W :=
  let sid := sock_id sock in
  match data with
  | None => ((st, [sendError sid "Invalid join request data."]), w)
  | Some d =>
    if negb (truthy (jd_type d)) || negb (truthy (jd_id d)) then
      ((st, [sendError sid "Invalid join request data."]), w)
    else
      let '((st1, e1), w1) := leaveCurrentChat sock st w in
      joinResume sock (jd_type d) (jd_id d) st1 e1 w1
  end.

(** The handler up to its first [await] (lines 233-254 and 279-282): the
    request is checked and the current chat is left.  The second component
    is the request the handler then waits on the store for, which it does
    for a room and for a direct chat with a well-formed id; otherwise the
    handler has ended, with an error. *)
Definition joinBegin (sock : Sock) (data : option JoinData) (st : State) (w : W)
  : Out W * option JoinData :=
  let sid := sock_id sock in
  match data with
  | None => (((st, [sendError sid "Invalid join request data."]), w), None)
  | Some d =>
    if negb (truthy (jd_type d)) || negb (truthy (jd_id d)) then
      (((st, [sendError sid "Invalid join request data."]), w), None)
    else
      let '((st1, e1), w1) := leaveCurrentChat sock st w in
      if String.eqb (jd_type d) "room"
         || String.eqb (jd_type d) "direct" && isValidObjectId (jd_id d)
      then (((st1, e1), w1), Some d)
      else (joinResume sock (jd_type d) (jd_id d) st1 e1 w1, None)
  end.

Definition dmListNotify (targetSockets : list string) (entry : DmListEntry)
  : list Effect :=
  map (fun targetSocketId =>
         Emit (IoTo targetSocketId) "dm list update" (PDmListUpdate [entry]))
    targetSockets.

(** socket.on('initiate dm') *)
Definition onInitiateDm (sock : Sock) (targetUserId : string) (st : State) (w : W)
  : Out W :=
  let sid := sock_id sock in
  let userId := sock_userId sock in
  if negb (truthy targetUserId) || String.eqb targetUserId userId then
    ((st, [sendError sid "Invalid target user for DM."]), w)
  else if negb (isValidObjectId targetUserId) then
    ((st, [sendError sid "Invalid target user ID format."]), w)
  else
    let failed (e : DbError) : Effect :=
      sendError sid ("Failed to start DM: " ++ serverErrorMessage e)%string in
    match findUserById targetUserId w with
    | (Err e, w1) => ((st, [failed e]), w1)
    | (Ok None, w1) =>
        ((st, [sendError sid "The user you tried to message does not exist."]), w1)
    | (Ok (Some targetUser), w1) =>
        let targetUserDetails := formatUserForClient targetUser in
        match findOrCreateDirectMessage userId targetUserId w1 with
        | (Err e, w2) => ((st, [failed e]), w2)
        | (Ok (dmRoom, isNew), w2) =>
            let dmRoomId := room_id dmRoom in
            let dmDbId := room_id dmRoom in
            let ac :=
              if JsMap.has dmRoomId (activeChats st) then
                addMember dmRoomId targetUserId
                  (addMember dmRoomId userId (activeChats st))
              else
                JsMap.set dmRoomId
                  (mkChatInfo (cu_username targetUserDetails) "direct" dmDbId
                     (JsSet.of_list [userId; targetUserId]))
                  (activeChats st) in
            let st0 := set_activeChats st ac in
            let '((st1, e1), w3) := leaveCurrentChat sock st0 w2 in
            let '((st2, e2), w4) :=
              joinSocketToChat sock dmRoomId "direct"
                (cu_username targetUserDetails) dmDbId st1 w3 in
            let '((recentMessages, e3), w5) := getRecentMessages sid dmDbId w4 in
            let joined :=
              Emit (SocketEmit sid) "joined chat"
                (PJoined (mkChatRef "direct" dmRoomId) (cu_username targetUserDetails)
                   (cu_avatarUrl targetUserDetails) [] recentMessages isNew) in
            let notify :=
              match JsMap.get targetUserId (userSockets st2) with
              | Some targetSockets =>
                  if (0 <? JsSet.size targetSockets)%nat then
                    dmListNotify targetSockets
                      (mkDmListEntry dmRoomId
                         (Some (formatUserForClient (sock_user sock)))
                         (room_lastActivity dmRoom) isNew)
                  else []
              | None => []
              end in
            ((st2, e1 ++ e2 ++ e3 ++ joined :: notify), w5)
        end
    end.

(** The per-participant summary push of the message handler. *)
Fixpoint dmSummaries (st : State) (userId chatId : string) (sender : ClientUser)
    (timestamp : Time) (participants : list string) (w : W) : list Effect * W :=
  match participants with
  | [] => ([], w)
  | participantId :: rest =>
      let entry (other : option ClientUser) :=
        mkDmListEntry chatId other timestamp (negb (String.eqb participantId userId)) in
      let '(e, w1) :=
        match JsMap.get participantId (userSockets st) with
        | Some targetSockets =>
            if (0 <? JsSet.size targetSockets)%nat then
              if String.eqb participantId userId then
                (dmListNotify targetSockets (entry (Some sender)), w)
              else
                match findUserById participantId w with
                | (Ok u, w') =>
                    (dmListNotify targetSockets
                       (entry (option_map formatUserForClient u)), w')
                | (Err _, w') => ([], w')
                end
            else ([], w)
        | None => ([], w)
        end in
      let '(es, w2) := dmSummaries st userId chatId sender timestamp rest w1 in
      (e ++ es, w2)
  end.

(** The [try] block of the message handler, once [chatDbId] is known. *)
Definition persistAndBroadcast (sock : Sock) (chatId chatType : string)
    (messageText : JsText) (chatDbId : DbId) (st : State) (w : W) : Out W :=
  let sid := sock_id sock in
  let userId := sock_userId sock in
  let serverError (w' : W) : Out W :=
    ((st, [sendError sid "Server error: Could not send your message."]), w') in
  match saveMessage messageText userId chatDbId w with
  | (Err _, w1) => serverError w1
  | (Ok savedMessage, w1) =>
      match touchRoom chatDbId (msg_createdAt savedMessage) w1 with
      | (Err _, w2) => serverError w2
      | (Ok updatedRoom, w2) =>
          match findMessageById (msg_id savedMessage) w2 with
          | (Err _, w3) => serverError w3
          | (Ok None, w3) => serverError w3
          | (Ok (Some populatedMessage), w3) =>
              let sender :=
                formatUserForClient
                  (match msg_senderDoc populatedMessage with
                   | Some u => u
                   | None => sock_user sock
                   end) in
              let broadcast :=
                Emit (IoTo chatId) "chat message"
                  (PChatMessage sender (msg_text populatedMessage)
                     (msg_createdAt populatedMessage) (mkChatRef chatType chatId)) in
              let '(e, w4) :=
                if String.eqb chatType "direct" then
                  match updatedRoom with
                  | Some r =>
                      dmSummaries st userId chatId sender
                        (msg_createdAt populatedMessage) (room_participants r) w3
                  | None => ([], w3)
                  end
                else ([], w3) in
              ((st, broadcast :: e), w4)
          end
      end
  end.

(** socket.on('chat message') *)
Definition onChatMessage (sock : Sock) (msgData : option MsgData) (st : State) (w : W)
  : Out W :=
  let sid := sock_id sock in
  let reject (message : string) : Out W := ((st, [sendError sid message]), w) in
  let notInChat := reject "Cannot send message: You are not currently in a chat." in
  match JsMap.get sid (connectedSockets st) with
  | None => notInChat
  | Some socketData =>
    match currentChatId socketData, currentChatType socketData with
    | Some chatId, Some chatType =>
      if truthy chatId && truthy chatType then
        match msgData with
        | Some (mkMsgData (Some text) (Some chat)) =>
          if negb (String.eqb (ref_type chat) chatType)
             || negb (String.eqb (ref_id chat) chatId) then
            reject "Message target mismatch. Please rejoin the chat."
          else
            let messageText := trim text in
            if (List.length messageText =? 0)%nat
               || (MAX_MESSAGE_LENGTH <? List.length messageText)%nat then
              reject "Message is empty or too long (max 1000 chars)."
            else
              let chatInfo := JsMap.get chatId (activeChats st) in
              match chatInfo with
              | Some ci =>
                  if truthy (chat_dbId ci) then
                    persistAndBroadcast sock chatId chatType messageText (chat_dbId ci) st w
                  else
                    let '(r, w1) :=
                      if String.eqb chatType "room" then findPublicRoom chatId w
                      else findRoomById chatId w in
                    match r with
                    | Ok (Some refetchedRoom) =>
                        let st1 :=
                          set_activeChats st
                            (JsMap.set chatId
                               (mkChatInfo (chat_name ci) (chat_type ci)
                                  (room_id refetchedRoom) (members ci))
                               (activeChats st)) in
                        persistAndBroadcast sock chatId chatType messageText
                          (room_id refetchedRoom) st1 w1
                    | _ =>
                        ((st, [sendError sid "Server error: Could not send your message."]), w1)
                    end
              | None =>
                  let '(r, w1) :=
                    if String.eqb chatType "room" then findPublicRoom chatId w
                    else findRoomById chatId w in
                  match r with
                  | Ok (Some refetchedRoom) =>
                      persistAndBroadcast sock chatId chatType messageText
                        (room_id refetchedRoom) st w1
                  | _ =>
                      ((st, [sendError sid "Server error: Could not send your message."]), w1)
                  end
              end
        | _ => reject "Invalid message format received."
        end
      else notInChat
    | _, _ => notInChat
    end
  end.

(** socket.on('typing') and socket.on('stop typing'): relay only. *)
Definition onTyping (stop : bool) (sock : Sock) (claimedChatId : option string)
    (st : State) : list Effect :=
  match JsMap.get (sock_id sock) (connectedSockets st) with
  | Some socketData =>
      match currentChatId socketData, claimedChatId with
      | Some chatId, Some claimed =>
          if truthy chatId && String.eqb claimed chatId then
            let chat :=
              mkChatRef
                (match currentChatType socketData with Some t => t | None => "" end)
                chatId in
            [Emit (SocketTo (sock_id sock) chatId)
               (if stop then "stop typing" else "typing")
               (if stop then PStopTyping (sock_userId sock) chat
                else PTyping (sock_userId sock) (sock_username sock) chat)]
          else []
      | _, _ => []
      end
  | None => []
  end.

(** socket.on('set status') *)
Definition onSetStatus (sock : Sock) (data : option StatusData) (st : State) (w : W)
  : Out W :=
  let sid := sock_id sock in
  let userId := sock_userId sock in
  match data with
  | None => ((st, [sendError sid "Invalid status update data."]), w)
  | Some d =>
    if negb (truthy (sd_status d)) then
      ((st, [sendError sid "Invalid status update data."]), w)
    else
      let newStatus :=
        if includes (sd_status d) validStatuses then sd_status d else "online" in
      let newStatusMessage :=
        slice0 60
          (trim (match sd_statusMessage d with Some m => m | None => [] end)) in
      let '(t, w1) := now w in
      match updateUserStatus userId newStatus (Some newStatusMessage) t w1 with
      | (Err _, w2) => ((st, [sendError sid "Failed to update status on server."]), w2)
      | (Ok None, w2) =>
          ((st, [sendError sid "Failed to update status: User not found."]), w2)
      | (Ok (Some updatedUser), w2) =>
          let u := sock_user sock in
          let u' :=
            mkUser (user_id u) (user_username u) (user_avatarUrl u) newStatus
              newStatusMessage (user_lastSeen updatedUser) in
          let st1 := set_socketUser st (JsMap.set sid u' (socketUser st)) in
          ((st1,
            broadcastPresenceUpdate st1 userId newStatus (Some newStatusMessage)
              (user_lastSeen updatedUser)), w2)
      end
  end.

(** socket.on('disconnect') *)
Definition onDisconnect (sock : Sock) (st : State) (w : W) : Out W :=
  let sid := sock_id sock in
  let userId := sock_userId sock in
  let '((st1, e1), w1) := leaveCurrentChat sock st w in
  let '(us, wasLastConnection) :=
    match JsMap.get userId (userSockets st1) with
    | Some userSocketSet =>
        let remaining := JsSet.delete sid userSocketSet in
        if (JsSet.size remaining =? 0)%nat then
          (JsMap.delete userId (userSockets st1), true)
        else (JsMap.set userId remaining (userSockets st1), false)
    | None => (userSockets st1, false)
    end in
  let st2 :=
    set_socketUser
      (set_connectedSockets (set_userSockets st1 us)
         (JsMap.delete sid (connectedSockets st1)))
      (JsMap.delete sid (socketUser st1)) in
  if wasLastConnection then
    let '(t, w2) := now w1 in
    match updateUserStatus userId "offline" None t w2 with
    | (Ok (Some updatedUser), w3) =>
        ((st2,
          e1 ++ broadcastPresenceUpdate st2 userId "offline" None
                  (user_lastSeen updatedUser)), w3)
    | (_, w3) => ((st2, e1), w3)
    end
  else ((st2, e1), w1).

(** sendInitialData of index.js *)
Definition sendInitialData (sock : Sock) (w : W) : list Effect * W :=
  let failure :=
    [sendError (sock_id sock) "Failed to load initial chat data. Please refresh."] in
  match findPublicRooms w with
  | (Err _, w1) => (failure, w1)
  | (Ok publicRooms, w1) =>
      match findUserDMs (sock_userId sock) w1 with
      | (Err _, w2) => (failure, w2)
      | (Ok userDMs, w2) =>
          let dmListData :=
            flat_map
              (fun dm : RoomDoc * list UserDoc =>
                 match snd dm with
                 | otherUser :: _ =>
                     [mkDmListEntry (room_id (fst dm))
                        (Some (formatUserForClient otherUser))
                        (room_lastActivity (fst dm)) false]
                 | [] => []
                 end)
              userDMs in
          ([Emit (SocketEmit (sock_id sock)) "initial data"
              (PInitialData (map room_name publicRooms) dmListData)], w2)
      end
  end.

(** io.on('connection') followed by handleUserConnect *)
Definition onConnection (sock : Sock) (st : State) (w : W) : Out W :=
  let sid := sock_id sock in
  let userId := sock_userId sock in
  let us0 :=
    if JsMap.has userId (userSockets st) then userSockets st
    else JsMap.set userId [] (userSockets st) in
  let us1 :=
    match JsMap.get userId us0 with
    | Some sockets => JsMap.set userId (JsSet.add sid sockets) us0
    | None => us0
    end in
  let st1 :=
    mkState us1
      (JsMap.set sid (mkSocketData userId (sock_username sock) None None)
         (connectedSockets st))
      (activeChats st)
      (JsMap.set sid (sock_user sock) (socketUser st)) in
  let isFirstConnection :=
    match JsMap.get userId (userSockets st1) with
    | Some userSocketSet => (JsSet.size userSocketSet =? 1)%nat
    | None => false
    end in
  if isFirstConnection then
    let '(t, w1) := now w in
    match updateUserStatus userId "online" None t w1 with
    | (Ok None, w2) => ((st1, []), w2)
    | (Ok (Some updatedUser), w2) =>
        let '(e, w3) := sendInitialData sock w2 in
        ((st1,
          broadcastPresenceUpdate st1 userId "online" None (user_lastSeen updatedUser)
          ++ e), w3)
    | (Err _, w2) =>
        let '(e, w3) := sendInitialData sock w2 in ((st1, e), w3)
    end
  else
    let '(e, w1) := sendInitialData sock w in ((st1, e), w1).
End Handlers.

(** ** Events and runs *)

Inductive Event :=
| Connection (sid : string) (user : UserDoc)
| JoinChat (sid : string) (data : option JoinData)
| InitiateDm (sid : string) (targetUserId : string)
| ChatMessage (sid : string) (msgData : option MsgData)
| Typing (sid : string) (chatId : option string)
| StopTyping (sid : string) (chatId : option string)
| SetStatus (sid : string) (data : option StatusData)
| Disconnect (sid : string).

(** State after [ensureDefaultRoom]: the default room is loaded with an
    empty member set and nobody is connected. *)
Definition bootState (defaultRoom : RoomDoc) : State :=
  mkState [] []
    [(room_name defaultRoom,
      mkChatInfo (room_displayName defaultRoom) "room" (room_id defaultRoom) [])]
    [].

Section Runs.
Context {W : Type} `{Persistence W}.
Variable MESSAGE_HISTORY_LIMIT : nat.

(** An event of a socket is delivered to the handlers registered for it,
    which close over its [socket.user]; a socket id is connected once and
    receives no event after its disconnection.  A connection whose user has
    no id is disconnected at once and nothing is registered for it. *)
Definition withSock (sid : string) (st : State) (k : Sock -> Out W) : option (Out W) :=
  match JsMap.get sid (socketUser st) with
  | Some u => Some (k (mkSock sid u))
  | None => None
  end.

Definition step (ev : Event) (st : State) (w : W) : option (Out W) :=
  match ev with
  | Connection sid user =>
      if JsMap.has sid (socketUser st) then None
      else if negb (truthy (user_id user)) then Some ((st, []), w)
      else Some (onConnection (mkSock sid user) st w)
  | JoinChat sid data =>
      withSock sid st (fun sock => onJoinChat MESSAGE_HISTORY_LIMIT sock data st w)
  | InitiateDm sid target =>
      withSock sid st (fun sock => onInitiateDm MESSAGE_HISTORY_LIMIT sock target st w)
  | ChatMessage sid msgData =>
      withSock sid st (fun sock => onChatMessage sock msgData st w)
  | Typing sid chatId =>
      withSock sid st (fun sock => ((st, onTyping false sock chatId st), w))
  | StopTyping sid chatId =>
      withSock sid st (fun sock => ((st, onTyping true sock chatId st), w))
  | SetStatus sid data =>
      withSock sid st (fun sock => onSetStatus sock data st w)
  | Disconnect sid =>
      withSock sid st (fun sock => onDisconnect sock st w)
  end.

(** States reached from [st0] by events that pass [guard]; the
    collaborator world is arbitrary at every step. *)
Inductive Run (guard : State -> Event -> Prop) (st0 : State) : State -> Prop :=
| Run_start : Run guard st0 st0
| Run_step st ev w st' e w' :
    Run guard st0 st ->
    guard st ev ->
    step ev st w = Some ((st', e), w') ->
    Run guard st0 st'.

(** Running a list of events against one collaborator world. *)
Fixpoint runTrace (evs : list Event) (st : State) (w : W)
  : option ((State * list Effect) * W) :=
  match evs with
  | [] => Some ((st, []), w)
  | ev :: rest =>
      match step ev st w with
      | Some ((st1, e1), w1) =>
          match runTrace rest st1 w1 with
          | Some ((st2, e2), w2) => Some ((st2, e1 ++ e2), w2)
          | None => None
          end
      | None => None
      end
  end.
End Runs.

(** ** Views of the state used by the statements *)

(** [activeChats.get(X).members], empty when there is no record. *)
Definition membersOf (st : State) (X : string) : JsSet.t :=
  match JsMap.get X (activeChats st) with
  | Some ci => members ci
  | None => []
  end.

(** The live connection [sid] is owned by [u] and attached to [X]. *)
Definition attachedConnection (st : State) (u sid X : string) : Prop :=
  exists sd, JsMap.get sid (connectedSockets st) = Some sd
             /\ sd_userId sd = u /\ currentChatId sd = Some X.

(** [u] owns at least one live connection attached to [X]. *)
Definition hasAttached (st : State) (u X : string) : Prop :=
  exists sid, attachedConnection st u sid X.

(** The attachment the handlers recognise: both fields set and truthy. *)
Definition attachment (st : State) (sid : string) : option ChatRef :=
  match JsMap.get sid (connectedSockets st) with
  | Some sd =>
      match currentChatId sd, currentChatType sd with
      | Some c, Some t => if truthy c && truthy t then Some (mkChatRef t c) else None
      | _, _ => None
      end
  | None => None
  end.

(** Socket ids addressed by the emits of one event name. *)
Definition recipients (event : string) (es : list Effect) : list string :=
  flat_map
    (fun e =>
       match e with
       | Emit (IoTo sid) ev _ => if String.eqb ev event then [sid] else []
       | Emit (SocketEmit sid) ev _ => if String.eqb ev event then [sid] else []
       | _ => []
       end) es.

(** The ['joined chat'] confirmations in an effect log. *)
Definition joinedOf (es : list Effect) : list (string * ChatRef * bool) :=
  flat_map
    (fun e =>
       match e with
       | Emit (SocketEmit sid) "joined chat" (PJoined chat _ _ _ _ isNew) =>
           [(sid, chat, isNew)]
       | _ => []
       end) es.

(** ** Overlapping join requests

    The ['join chat'] handler is the one handler that changes the shared
    maps at two points with an [await] in between: it leaves the current
    chat before its first query and joins the requested chat after its
    last.  Every other handler changes the maps in one synchronous block.
    A configuration is the state together with the join requests that have
    left and not yet joined. *)

Record Pending := mkPending {
  pend_sid : string;
  pend_user : UserDoc;
  pend_type : string;
  pend_id : string
}.

Record Config := mkConfig {
  cfg_state : State;
  cfg_pending : list Pending
}.

Definition bootConfig (defaultRoom : RoomDoc) : Config :=
  mkConfig (bootState defaultRoom) [].

(** An event handled at once, the first half of a join request, or the
    second half of the pending request number [i]. *)
Inductive AEvent :=
| Whole (ev : Event)
| Begin (sid : string) (data : option JoinData)
| Resume (i : nat).

Fixpoint removeAt {A : Type} (i : nat) (l : list A) : list A :=
  match i, l with
  | _, [] => []
  | O, _ :: r => r
  | S j, x :: r => x :: removeAt j r
  end.

Section AsyncRuns.
Context {W : Type} `{Persistence W}.
Variable MESSAGE_HISTORY_LIMIT : nat.

(** The second half runs for the socket of the request, with the
    [socket.user] object as it is by then; what it emits is what the
    handler emits when nothing else runs between its join and its
    confirmation.  After a disconnection the waiting request still goes on
    and finds no entry for its socket.  In the source a socket id is never
    used again; here a later connection may take the id, and the waiting
    request then runs for it, which adds runs and removes none. *)
Definition astep (aev : AEvent) (c : Config) (w : W)
  : option ((Config * list Effect) * W) :=
  match aev with
  | Whole ev =>
      match step MESSAGE_HISTORY_LIMIT ev (cfg_state c) w with
      | Some ((st', e), w') => Some ((mkConfig st' (cfg_pending c), e), w')
      | None => None
      end
  | Begin sid data =>
      match JsMap.get sid (socketUser (cfg_state c)) with
      | None => None
      | Some u =>
          match joinBegin MESSAGE_HISTORY_LIMIT (mkSock sid u) data (cfg_state c) w with
          | (((st1, e1), w1), Some d) =>
              Some ((mkConfig st1
                       (cfg_pending c ++ [mkPending sid u (jd_type d) (jd_id d)]), e1), w1)
          | (((st1, e1), w1), None) => Some ((mkConfig st1 (cfg_pending c), e1), w1)
          end
      end
  | Resume i =>
      match nth_error (cfg_pending c) i with
      | None => None
      | Some p =>
          let user :=
            match JsMap.get (pend_sid p) (socketUser (cfg_state c)) with
            | Some u => u
            | None => pend_user p
            end in
          let '((st', e), w') :=
            joinResume MESSAGE_HISTORY_LIMIT (mkSock (pend_sid p) user)
              (pend_type p) (pend_id p) (cfg_state c) [] w in
          Some ((mkConfig st' (removeAt i (cfg_pending c)), e), w')
      end
  end.

(** Configurations reached from [c0] by events that pass [guard]; the
    collaborator world is arbitrary at every step. *)
Inductive ARun (guard : Config -> AEvent -> bool) (c0 : Config) : Config -> Prop :=
| ARun_start : ARun guard c0 c0
| ARun_step c aev w c' e w' :
    ARun guard c0 c ->
    guard c aev = true ->
    astep aev c w = Some ((c', e), w') ->
    ARun guard c0 c'.

Fixpoint arunTrace (evs : list AEvent) (c : Config) (w : W)
  : option ((Config * list Effect) * W) :=
  match evs with
  | [] => Some ((c, []), w)
  | aev :: rest =>
      match astep aev c w with
      | Some ((c1, e1), w1) =>
          match arunTrace rest c1 w1 with
          | Some ((c2, e2), w2) => Some ((c2, e1 ++ e2), w2)
          | None => None
          end
      | None => None
      end
  end.

(** Every event of the trace passes the guard where it is handled. *)
Fixpoint atraceOk (guard : Config -> AEvent -> bool) (evs : list AEvent)
    (c : Config) (w : W) : bool :=
  match evs with
  | [] => true
  | aev :: rest =>
      guard c aev
      && match astep aev c w with
         | Some ((c1, _), w1) => atraceOk guard rest c1 w1
         | None => false
         end
  end.
End AsyncRuns.

(** A join request that passes the handler's first check. *)
Definition wellFormedJoin (data : option JoinData) : bool :=
  match data with
  | Some d => truthy (jd_type d) && truthy (jd_id d)
  | None => false
  end.

Definition pendingOn (c : Config) (sid : string) : bool :=
  existsb (fun p => String.eqb (pend_sid p) sid) (cfg_pending c).

(** No ['initiate dm'] is handled, and no join request of a socket is
    handled while an earlier join request of that socket is waiting. *)
Definition oneJoinNoDm (c : Config) (aev : AEvent) : bool :=
  match aev with
  | Whole (InitiateDm _ _) => false
  | Whole (JoinChat sid data) | Begin sid data =>
      negb (wellFormedJoin data && pendingOn c sid)
  | _ => true
  end.

(** Another live connection of the owner of [sid] is attached to the chat
    [sid] is attached to. *)
Definition sharedAttachment (st : State) (sid : string) : bool :=
  match JsMap.get sid (connectedSockets st), attachment st sid with
  | Some sd, Some r =>
      existsb
        (fun kv : string * SocketData =>
           negb (String.eqb (fst kv) sid)
           && String.eqb (sd_userId (snd kv)) (sd_userId sd)
           && match currentChatId (snd kv) with
              | Some c => String.eqb c (ref_id r)
              | None => false
              end)
        (connectedSockets st)
  | _, _ => false
  end.




(** ** A reference collaborator: an in-memory document store

    The database engine is not part of the repository; this instance gives
    the queries the meaning they have under the schemas of [models/Room.js],
    [models/User.js] and [models/Message.js]: the setters on [name],
    [statusMessage] and [text], the unique indexes of the rooms, and the
    validation of a message on save.  A room is saved as [new Room] built
    it: the handlers' definitions apply the setters where the source
    constructs the document.  The instance is used where a statement
    depends on what the store answers (find after save, sort and limit) and
    to run the handlers on concrete inputs. *)

Module RefDb.
Record Db := mkDb {
  db_rooms : list RoomDoc;
  db_users : list UserDoc;
  db_messages : list MessageDoc;
  db_clock : Time;
  db_nextId : nat
}.

Definition hexChars : list ascii := list_ascii_of_string "0123456789abcdef".

Definition hexDigit (n : nat) : ascii := nth (n mod 16) hexChars "0"%char.

Fixpoint hexDigits (k n : nat) (acc : string) : string :=
  match k with
  | 0 => acc
  | S k' => hexDigits k' (n / 16) (String (hexDigit n) acc)
  end.

(** The 24 hexadecimal digits of an ObjectId, as [toString()] prints
    them. *)
Definition objectIdOf (n : nat) : DbId := hexDigits 24 n "".

Definition isHex (c : ascii) : bool := existsb (Ascii.eqb c) hexChars.

(** An id in the form in which the server holds it: the reference store
    keeps every id as its 24 lower-case hexadecimal digits and takes no
    other string for an id.  [ObjectId.isValid] also accepts the upper-case
    digits, which a cast brings to this form; a request that carries such an
    id is outside this store. *)
Definition validObjectId (s : string) : bool :=
  (String.length s =? 24)%nat && forallb isHex (list_ascii_of_string s).

Definition tick (w : Db) : Time * Db :=
  (db_clock w,
   mkDb (db_rooms w) (db_users w) (db_messages w) (S (db_clock w)) (db_nextId w)).

Definition freshId (w : Db) : DbId * Db :=
  (objectIdOf (db_nextId w),
   mkDb (db_rooms w) (db_users w) (db_messages w) (db_clock w) (S (db_nextId w))).

Definition userById (w : Db) (id : string) : option UserDoc :=
  find (fun u => String.eqb (user_id u) id) (db_users w).

Definition isPublicNamed (name : string) (r : RoomDoc) : bool :=
  String.eqb (room_type r) "public" && String.eqb (room_name r) name.

(** [{ $all: participants, $size: 2 }] *)
Definition isDirectBetween (participants : list string) (r : RoomDoc) : bool :=
  String.eqb (room_type r) "direct"
  && (List.length (room_participants r) =? 2)%nat
  && forallb (fun p => includes p (room_participants r)) participants.

(** [populate] of the participants other than [userId]. *)
Definition otherParticipants (w : Db) (userId : string) (r : RoomDoc) : list UserDoc :=
  flat_map
    (fun p =>
       if String.eqb p userId then []
       else match userById w p with Some u => [u] | None => [] end)
    (room_participants r).

(** The unique indexes of the room schema.  [name] is unique among the
    documents that have one (sparse).  [{ type: 1, participants: 1 }] is
    unique among the direct rooms; [participants] being an array, the index
    is multikey: it holds one key per participant and a key may not occur in
    two documents, so that a direct room is refused when one of its
    participants is already in a stored direct room. *)
Definition sharesParticipant (d r : RoomDoc) : bool :=
  existsb (fun p => includes p (room_participants r)) (room_participants d).

Definition violatesUnique (w : Db) (d : RoomDoc) : bool :=
  existsb
    (fun r =>
       truthy (room_name d) && String.eqb (room_name r) (room_name d)
       || String.eqb (room_type d) "direct" && String.eqb (room_type r) "direct"
          && sharesParticipant d r)
    (db_rooms w).

Definition duplicateKey : DbError :=
  mkDbError (Some 11000%N) "E11000 duplicate key error".

Definition insertRoom (d : RoomDoc) (w : Db) : Result unit * Db :=
  if violatesUnique w d then (Err duplicateKey, w)
  else (Ok tt,
        mkDb (db_rooms w ++ [d]) (db_users w) (db_messages w) (db_clock w) (db_nextId w)).

Definition setLastActivity (t : Time) (r : RoomDoc) : RoomDoc :=
  mkRoom (room_id r) (room_name r) (room_displayName r) (room_type r) (room_owner r)
    (room_participants r) t.

Definition touch (id : DbId) (t : Time) (w : Db) : Result (option RoomDoc) * Db :=
  let rooms :=
    map (fun r => if String.eqb (room_id r) id then setLastActivity t r else r)
      (db_rooms w) in
  (Ok (find (fun r => String.eqb (room_id r) id) rooms),
   mkDb rooms (db_users w) (db_messages w) (db_clock w) (db_nextId w)).

(** [$set] of [status], [lastSeen] and, when given, [statusMessage], which
    the User schema declares with [trim: true]: the setter runs when the
    update is cast.  Update validators are off, so [maxlength] is not
    checked here. *)
Definition setStatus (status : string) (statusMessage : option JsText) (t : Time)
    (u : UserDoc) : UserDoc :=
  mkUser (user_id u) (user_username u) (user_avatarUrl u) status
    (match statusMessage with Some m => trim m | None => user_statusMessage u end) t.

Definition updateStatus (id status : string) (statusMessage : option JsText) (t : Time)
    (w : Db) : Result (option UserDoc) * Db :=
  let users :=
    map (fun u => if String.eqb (user_id u) id then setStatus status statusMessage t u
                  else u)
      (db_users w) in
  (Ok (find (fun u => String.eqb (user_id u) id) users),
   mkDb (db_rooms w) users (db_messages w) (db_clock w) (db_nextId w)).

Definition populateSender (w : Db) (m : MessageDoc) : MessageDoc :=
  mkMessage (msg_id m) (msg_text m) (msg_sender m) (userById w (msg_sender m))
    (msg_chat m) (msg_createdAt m).

(** [sort({ createdAt: -1 })] *)
Fixpoint insertNewest (m : MessageDoc) (l : list MessageDoc) : list MessageDoc :=
  match l with
  | [] => [m]
  | x :: r =>
      if (msg_createdAt x <=? msg_createdAt m)%nat then m :: l
      else x :: insertNewest m r
  end.

Definition newestFirst (l : list MessageDoc) : list MessageDoc :=
  fold_right insertNewest [] l.

(** [limit(n)]: MongoDB reads a limit of 0 as no limit. *)
Definition limit {A} (n : nat) (l : list A) : list A :=
  if (n =? 0)%nat then l else firstn n l.

Definition messagesOf (w : Db) (chat : DbId) : list MessageDoc :=
  filter (fun m => String.eqb (msg_chat m) chat) (db_messages w).

Definition recent (chat : DbId) (n : nat) (w : Db) : list MessageDoc :=
  map (populateSender w) (limit n (newestFirst (messagesOf w chat))).

Definition validationError : DbError := plainError "Message validation failed".

(** [new Message({ text, sender, chat }).save()] under the Message schema:
    [text] is trimmed by its setter and must then be non-empty ([required])
    and of at most 1000 code units ([maxlength]); [sender] and [chat] must
    cast to ObjectIds; [createdAt] is the time of the save. *)
Definition insertMessage (text : JsText) (sender : string) (chat : DbId) (w : Db)
  : Result MessageDoc * Db :=
  let stored := trim text in
  if (List.length stored =? 0)%nat || (1000 <? List.length stored)%nat
     || negb (validObjectId sender) || negb (validObjectId chat)
  then (Err validationError, w)
  else
    let m := mkMessage (objectIdOf (db_nextId w)) stored sender None chat (db_clock w) in
    (Ok m,
     mkDb (db_rooms w) (db_users w) (db_messages w ++ [m]) (S (db_clock w))
       (S (db_nextId w))).

Fixpoint insertActive (r : RoomDoc) (l : list RoomDoc) : list RoomDoc :=
  match l with
  | [] => [r]
  | x :: rest =>
      if (room_lastActivity x <=? room_lastActivity r)%nat then r :: l
      else x :: insertActive r rest
  end.

#[global] Instance persistence : Persistence Db := {
  isValidObjectId := validObjectId;
  now := tick;
  newObjectId := freshId;
  findPublicRoom name w := (Ok (find (isPublicNamed (schemaName name)) (db_rooms w)), w);
  findDirectRoom participants w :=
    (Ok (find (isDirectBetween participants) (db_rooms w)), w);
  findRoomById id w := (Ok (find (fun r => String.eqb (room_id r) id) (db_rooms w)), w);
  findRoomByIdPopulated id userId w :=
    (Ok (option_map (fun r => (r, otherParticipants w userId r))
           (find (fun r => String.eqb (room_id r) id) (db_rooms w))), w);
  saveRoom := insertRoom;
  touchRoom := touch;
  findUserById id w := (Ok (userById w id), w);
  findUsers ids w := (Ok (filter (fun u => includes (user_id u) ids) (db_users w)), w);
  updateUserStatus := updateStatus;
  findMessages chat n w := (Ok (recent chat n w), w);
  saveMessage := insertMessage;
  findMessageById id w :=
    (Ok (option_map (populateSender w)
           (find (fun m => String.eqb (msg_id m) id) (db_messages w))), w);
  findPublicRooms w :=
    (Ok (filter (fun r => String.eqb (room_type r) "public") (db_rooms w)), w);
  findUserDMs userId w :=
    (Ok (map (fun r => (r, otherParticipants w userId r))
           (fold_right insertActive []
              (filter (fun r => String.eqb (room_type r) "direct"
                                && includes userId (room_participants r))
                 (db_rooms w)))), w)
}.
End RefDb.

(** ** Concrete scenario data *)

Module Scenario.
Import RefDb.

Definition u1 : string := "aaaaaaaaaaaaaaaaaaaaaaa1".
Definition u2 : string := "aaaaaaaaaaaaaaaaaaaaaaa2".

Definition alice : UserDoc := mkUser u1 "alice" "" "offline" [] 0.
Definition bob : UserDoc := mkUser u2 "bob" "" "offline" [] 0.

Definition general : RoomDoc :=
  mkRoom "bbbbbbbbbbbbbbbbbbbbbbb0" "general" "General" "public" "" [] 0.

Definition db0 : Db := mkDb [general] [alice; bob] [] 1 1.

Definition boot : State := bootState general.

Definition joinRoom (sid name : string) : Event :=
  JoinChat sid (Some (mkJoinData "room" name)).
End Scenario.

(** ** A scripted collaborator for the room queries

    The replies of the store to the successive room queries are given in
    advance and every query is logged, so that a statement over all scripts
    covers every behaviour of the store, races included. *)

Module Script.
Inductive Call :=
| CFindDirect (participants : list string)
| CSaveRoom (d : RoomDoc).

Inductive Reply :=
| RFind (r : Result (option RoomDoc))
| RSave (r : Result unit).

Record World := mkWorld { replies : list Reply; calls : list Call }.

Definition start (rs : list Reply) : World := mkWorld rs [].

Definition unscripted : DbError := plainError "unscripted call".

Definition find (participants : list string) (w : World)
  : Result (option RoomDoc) * World :=
  let log := calls w ++ [CFindDirect participants] in
  match replies w with
  | RFind r :: rest => (r, mkWorld rest log)
  | _ :: rest => (Err unscripted, mkWorld rest log)
  | [] => (Err unscripted, mkWorld [] log)
  end.

Definition save (d : RoomDoc) (w : World) : Result unit * World :=
  let log := calls w ++ [CSaveRoom d] in
  match replies w with
  | RSave r :: rest => (r, mkWorld rest log)
  | _ :: rest => (Err unscripted, mkWorld rest log)
  | [] => (Err unscripted, mkWorld [] log)
  end.

Definition scriptedId : DbId := "cccccccccccccccccccccccc".

#[global] Instance persistence : Persistence World := {
  isValidObjectId := RefDb.validObjectId;
  now w := (0, w);
  newObjectId w := (scriptedId, w);
  findPublicRoom _ w := (Err unscripted, w);
  findDirectRoom := find;
  findRoomById _ w := (Err unscripted, w);
  findRoomByIdPopulated _ _ w := (Err unscripted, w);
  saveRoom := save;
  touchRoom _ _ w := (Err unscripted, w);
  findUserById _ w := (Err unscripted, w);
  findUsers _ w := (Err unscripted, w);
  updateUserStatus _ _ _ _ w := (Err unscripted, w);
  findMessages _ _ w := (Err unscripted, w);
  saveMessage _ _ _ w := (Err unscripted, w);
  findMessageById _ w := (Err unscripted, w);
  findPublicRooms w := (Err unscripted, w);
  findUserDMs _ w := (Err unscripted, w)
}.

(** The document the resolver builds for a pair. *)
Definition newDirect (a b : string) : RoomDoc :=
  mkRoom scriptedId "" "" "direct" "" (sortPair a b) 0.

Definition findCalls (w : World) : nat :=
  List.length
    (filter (fun c => match c with CFindDirect _ => true | _ => false end) (calls w)).
End Script.

(** * Properties *)

(** ** Container facts *)

Lemma JsSet_has_In x s : JsSet.has x s = true <-> In x s.
Proof.
  unfold JsSet.has. rewrite existsb_exists. split.
  - intros [y [Hy He]]. apply String.eqb_eq in He. now subst.
  - intros Hx. exists x. split; [assumption | apply String.eqb_refl].
Qed.

Lemma JsSet_In_add x y s : In y (JsSet.add x s) <-> y = x \/ In y s.
Proof.
  unfold JsSet.add. destruct (JsSet.has x s) eqn:Hh.
  - apply JsSet_has_In in Hh. split; [auto | intros [-> | ?]; assumption].
  - rewrite in_app_iff. simpl. intuition congruence.
Qed.

Lemma JsSet_In_delete x y s : In y (JsSet.delete x s) <-> y <> x /\ In y s.
Proof.
  unfold JsSet.delete. rewrite filter_In, negb_true_iff, String.eqb_neq.
  intuition congruence.
Qed.

Lemma JsMap_get_set_same {V} k (v : V) m : JsMap.get k (JsMap.set k v m) = Some v.
Proof.
  induction m as [|[k' v'] r IH]; simpl.
  - now rewrite String.eqb_refl.
  - destruct (String.eqb k k') eqn:E; simpl; rewrite ?String.eqb_refl, ?E; auto.
Qed.

Lemma JsMap_get_set_other {V} k k' (v : V) m :
  k <> k' -> JsMap.get k' (JsMap.set k v m) = JsMap.get k' m.
Proof.
  intros Hne. induction m as [|[k0 v0] r IH]; simpl.
  - apply String.eqb_neq in Hne. rewrite String.eqb_sym in Hne. now rewrite Hne.
  - destruct (String.eqb k k0) eqn:E; simpl.
    + apply String.eqb_eq in E. subst k0.
      assert (String.eqb k' k = false) as -> by (apply String.eqb_neq; congruence).
      reflexivity.
    + destruct (String.eqb k' k0); auto.
Qed.

Lemma JsMap_get_set {V} k k' (v : V) m :
  JsMap.get k' (JsMap.set k v m) = if String.eqb k k' then Some v else JsMap.get k' m.
Proof.
  destruct (String.eqb k k') eqn:E.
  - apply String.eqb_eq in E. subst. apply JsMap_get_set_same.
  - apply String.eqb_neq in E. now apply JsMap_get_set_other.
Qed.

Lemma JsMap_get_delete {V} k k' (m : JsMap.t V) :
  JsMap.get k' (JsMap.delete k m) = if String.eqb k k' then None else JsMap.get k' m.
Proof.
  induction m as [|[k0 v0] r IH]; simpl.
  - now destruct (String.eqb k k').
  - destruct (String.eqb k k0) eqn:E; simpl.
    + apply String.eqb_eq in E. subst k0. rewrite IH.
      rewrite (String.eqb_sym k' k). now destruct (String.eqb k k').
    + rewrite IH. destruct (String.eqb k' k0) eqn:E'; auto.
      apply String.eqb_eq in E'. subst k0. now rewrite E.
Qed.

Lemma JsMap_get_In {V} k (v : V) m : JsMap.get k m = Some v -> In (k, v) m.
Proof.
  induction m as [|[k' v'] r IH]; simpl; [discriminate|].
  destruct (String.eqb k k') eqn:E.
  - apply String.eqb_eq in E. intros [= ->]. subst. now left.
  - auto.
Qed.

Lemma JsMap_In_get {V} k (v : V) m :
  NoDup (JsMap.keys m) -> In (k, v) m -> JsMap.get k m = Some v.
Proof.
  induction m as [|[k' v'] r IH]; simpl; [contradiction|].
  intros Hnd [Heq | Hin].
  - injection Heq as -> ->. now rewrite String.eqb_refl.
  - inversion Hnd as [|? ? Hnot Hnd']; subst.
    destruct (String.eqb k k') eqn:E.
    + apply String.eqb_eq in E. subst k'. exfalso. apply Hnot.
      change (In (fst (k, v)) (map fst r)). now apply in_map.
    + now apply IH.
Qed.

Lemma JsMap_keys_set {V} k (v : V) m :
  JsMap.keys (JsMap.set k v m)
  = if JsMap.has k m then JsMap.keys m else JsMap.keys m ++ [k].
Proof.
  unfold JsMap.has, JsMap.keys. induction m as [|[k' v'] r IH]; simpl; [reflexivity|].
  destruct (String.eqb k k') eqn:E; simpl.
  - apply String.eqb_eq in E. now subst.
  - rewrite IH. now destruct (JsMap.get k r).
Qed.

Lemma JsMap_has_keys {V} k (m : JsMap.t V) : JsMap.has k m = true <-> In k (JsMap.keys m).
Proof.
  unfold JsMap.has. induction m as [|[k' v'] r IH]; simpl.
  - split; [discriminate | contradiction].
  - destruct (String.eqb k k') eqn:E.
    + apply String.eqb_eq in E. subst. tauto.
    + apply String.eqb_neq in E. rewrite IH. intuition congruence.
Qed.

(** ** The presence fan-out (index.js, broadcastPresenceUpdate) *)

Lemma notify_members_In u v l : forall acc,
  In v (fold_left
          (fun acc memberId =>
             if negb (String.eqb memberId u) then JsSet.add memberId acc else acc)
          l acc)
  <-> In v acc \/ (In v l /\ v <> u).
Proof.
  induction l as [|m l IH]; intros acc; simpl.
  - tauto.
  - rewrite IH. destruct (String.eqb m u) eqn:E; simpl.
    + apply String.eqb_eq in E. subst m. intuition congruence.
    + apply String.eqb_neq in E. rewrite JsSet_In_add. intuition congruence.
Qed.

Lemma notifyFrom_In u ci acc v :
  In v (notifyFrom u ci acc)
  <-> In v acc \/ (In u (members ci) /\ In v (members ci) /\ v <> u).
Proof.
  unfold notifyFrom. destruct (JsSet.has u (members ci)) eqn:Hh.
  - apply JsSet_has_In in Hh. rewrite notify_members_In. tauto.
  - assert (~ In u (members ci)) by (rewrite <- JsSet_has_In; congruence). tauto.
Qed.

Lemma notify_chats_In u v cis : forall acc,
  In v (fold_left (fun acc chatInfo => notifyFrom u chatInfo acc) cis acc)
  <-> In v acc
      \/ exists ci, In ci cis /\ In u (members ci) /\ In v (members ci) /\ v <> u.
Proof.
  induction cis as [|ci cis IH]; intros acc; simpl.
  - split; [auto | intros [?|[? [[] _]]]; assumption].
  - rewrite IH, notifyFrom_In. split.
    + intros [[?|?]|[ci' [? ?]]]; eauto 6.
    + intros [?|[ci' [[<-|?] ?]]]; eauto 6.
Qed.

Lemma usersToNotify_In st u v :
  NoDup (JsMap.keys (activeChats st)) ->
  In v (usersToNotify st u)
  <-> v <> u /\ exists X, In u (membersOf st X) /\ In v (membersOf st X).
Proof.
  intros Hnd. unfold usersToNotify. rewrite notify_chats_In. simpl. split.
  - intros [[]|[ci [Hin [Hu [Hv Hne]]]]]. split; [assumption|].
    unfold JsMap.values in Hin. apply in_map_iff in Hin as [[X ci'] [Heq Hin]].
    simpl in Heq. subst ci'. exists X. unfold membersOf.
    now rewrite (JsMap_In_get _ _ _ Hnd Hin).
  - intros [Hne [X [Hu Hv]]]. right. unfold membersOf in Hu, Hv.
    destruct (JsMap.get X (activeChats st)) as [ci|] eqn:Hg; [|contradiction].
    exists ci. repeat split; try assumption.
    unfold JsMap.values. apply in_map_iff. exists (X, ci). split; [reflexivity|].
    now apply JsMap_get_In.
Qed.

(** C6. The presence broadcast for [u] emits the status payload to a socket
    exactly when that socket is a live connection of some identity [v], other
    than [u], that sits with [u] in the member set of an active conversation;
    it emits nothing else. *)
Theorem presence_broadcast_targets st u status statusMessage lastSeen
    (Hmap : NoDup (JsMap.keys (activeChats st))) :
  (forall s,
     In (Emit (IoTo s) "presence update" (PPresence u status statusMessage lastSeen))
        (broadcastPresenceUpdate st u status statusMessage lastSeen)
     <-> exists v, v <> u
                   /\ (exists X, In u (membersOf st X) /\ In v (membersOf st X))
                   /\ In s (targetSocketsOf st v))
  /\ (forall e, In e (broadcastPresenceUpdate st u status statusMessage lastSeen) ->
        exists s, e = Emit (IoTo s) "presence update"
                        (PPresence u status statusMessage lastSeen)).
Proof.
  unfold broadcastPresenceUpdate. split.
  - intros s. rewrite in_flat_map. split.
    + intros [v [Hv Hin]]. apply in_map_iff in Hin as [s' [Heq Hs']].
      injection Heq as ->. exists v.
      apply (usersToNotify_In st u v Hmap) in Hv. tauto.
    + intros [v [Hne [Hx Hs]]]. exists v. split.
      * apply (usersToNotify_In st u v Hmap). tauto.
      * apply in_map_iff. now exists s.
  - intros e He. apply in_flat_map in He as [v [_ Hin]].
    apply in_map_iff in Hin as [s [<- _]]. now exists s.
Qed.

(** ** The direct-conversation resolver (models/Room.js) *)

Lemma sortPair_comm a b : a <> b -> sortPair a b = sortPair b a.
Proof.
  intros Hne. unfold sortPair, String.ltb. rewrite (String.compare_antisym a b).
  destruct (String.compare b a) eqn:E; cbn [CompOpp]; try reflexivity.
  apply String.compare_eq_iff in E. now contradiction Hne.
Qed.

Lemma sortPair_cases a b : sortPair a b = [a; b] \/ sortPair a b = [b; a].
Proof. unfold sortPair. destruct (String.ltb b a); auto. Qed.

Lemma sortPair_sorted a b :
  exists x y, sortPair a b = [x; y] /\ String.ltb y x = false.
Proof.
  unfold sortPair. destruct (String.ltb b a) eqn:E.
  - exists b, a. split; [reflexivity|]. unfold String.ltb in *.
    rewrite (String.compare_antisym a b).
    destruct (String.compare b a); cbn [CompOpp]; try discriminate; reflexivity.
  - exists a, b. now split.
Qed.

Section ResolverContract.
Import Script.
Variables a b : string.
Variable rs : list Reply.

Let out := findOrCreateDirectMessage a b (start rs).
Let pair := sortPair a b.

Lemma resolver_self : a = b -> fst out = Err selfDmError /\ calls (snd out) = [].
Proof.
  intros ->. subst out. unfold findOrCreateDirectMessage.
  rewrite String.eqb_refl. now split.
Qed.

Lemma resolver_unfold :
  a <> b ->
  out =
  match find pair (start rs) with
  | (Err e, w1) => (Err (wrapDmError e), w1)
  | (Ok (Some dmRoom), w1) => (Ok (dmRoom, false), w1)
  | (Ok None, w1) =>
      match save (newDirect a b) w1 with
      | (Ok _, w4) => (Ok (newDirect a b, true), w4)
      | (Err e, w4) =>
          if isDuplicateKey e then
            match find pair w4 with
            | (Err e', w5) => (Err (wrapDmError e'), w5)
            | (Ok (Some found), w5) => (Ok (found, false), w5)
            | (Ok None, w5) => (Err (wrapDmError inconsistentError), w5)
            end
          else (Err (wrapDmError e), w4)
      end
  end.
Proof.
  intros Hne. subst out pair. unfold findOrCreateDirectMessage.
  apply String.eqb_neq in Hne. rewrite Hne. reflexivity.
Qed.
End ResolverContract.

(** C2. [findOrCreateDirectMessage] fails on a pair of equal identities
    without asking the store anything.  Otherwise the pair is sorted: it
    holds the two identities and no other, the smaller one first in the
    order of their code units, whatever the order of the arguments; the
    first query is for a direct room with that pair; a room found is returned with
    [isNew = false]; with none found it saves a new direct room for the
    sorted pair and returns it with [isNew = true]; when that save is
    refused with the duplicate-key code it queries the same pair once more,
    two queries in all, returns the room then found with [isNew = false],
    and fails exactly when this second query yields no room, with the
    could-not-find-or-create error when the store answers that there is
    none. *)
Theorem findOrCreateDirectMessage_contract (a b : string) (rs : list Script.Reply) :
  let out := findOrCreateDirectMessage a b (Script.start rs) in
  let pair := sortPair a b in
  let doc := Script.newDirect a b in
  (a = b -> fst out = Err selfDmError /\ Script.calls (snd out) = [])
  /\ (a <> b ->
      (sortPair a b = sortPair b a
       /\ (pair = [a; b] \/ pair = [b; a])
       /\ (exists x y, pair = [x; y] /\ String.ltb y x = false))
      /\ (exists more, Script.calls (snd out) = Script.CFindDirect pair :: more)
      /\ (forall r rest, rs = Script.RFind (Ok (Some r)) :: rest ->
            fst out = Ok (r, false)
            /\ Script.calls (snd out) = [Script.CFindDirect pair])
      /\ (forall u rest, rs = Script.RFind (Ok None) :: Script.RSave (Ok u) :: rest ->
            fst out = Ok (doc, true)
            /\ room_type doc = "direct" /\ room_participants doc = pair
            /\ Script.calls (snd out) = [Script.CFindDirect pair; Script.CSaveRoom doc])
      /\ (forall e rest,
            rs = Script.RFind (Ok None) :: Script.RSave (Err e) :: rest ->
            isDuplicateKey e = true ->
            Script.calls (snd out)
            = [Script.CFindDirect pair; Script.CSaveRoom doc; Script.CFindDirect pair]
            /\ Script.findCalls (snd out) = 2
            /\ (forall r rest', rest = Script.RFind (Ok (Some r)) :: rest' ->
                  fst out = Ok (r, false))
            /\ (forall rest', rest = Script.RFind (Ok None) :: rest' ->
                  fst out = Err (wrapDmError inconsistentError))
            /\ ((exists err, fst out = Err err)
                <-> ~ exists r rest', rest = Script.RFind (Ok (Some r)) :: rest'))
      /\ (forall e rest,
            rs = Script.RFind (Ok None) :: Script.RSave (Err e) :: rest ->
            isDuplicateKey e = false ->
            fst out = Err (wrapDmError e)
            /\ Script.calls (snd out) = [Script.CFindDirect pair; Script.CSaveRoom doc])).
Proof.
  intros out pair doc. split; [apply resolver_self|].
  intros Hne. subst out. rewrite (resolver_unfold a b rs Hne).
  fold pair. fold doc.
  split; [split; [now apply sortPair_comm|];
          split; [apply sortPair_cases | apply sortPair_sorted]|].
  split; [|split; [|split; [|split]]].
  - unfold Script.find, Script.start; simpl.
    destruct rs as [|[[[r|]|e]|s] rest]; simpl; eauto.
    unfold Script.save; simpl.
    destruct rest as [|[f|[u|e]] rest]; simpl; eauto.
    destruct (isDuplicateKey e); simpl; eauto.
    unfold Script.find; simpl.
    destruct rest as [|[[[r|]|e']|s] rest]; simpl; eauto.
  - intros r rest ->. split; reflexivity.
  - intros u rest ->. repeat split.
  - intros e rest -> Hdup. simpl. rewrite Hdup. unfold Script.find; simpl.
    destruct rest as [|[[[r|]|e']|s] rest]; simpl;
      (split; [reflexivity|]); (split; [reflexivity|]);
      (split; [intros ? ? [= <-]; reflexivity || discriminate
                 || (intros; discriminate)|]);
      (split; [intros ? [=]; reflexivity || (intros; discriminate)|]);
      (split;
       [intros [err Herr] [r0 [rest0 Hr]]; discriminate
       |intros Hno; try (eexists; reflexivity); exfalso; apply Hno; eauto]).
  - intros e rest -> Hnd. simpl. rewrite Hnd. split; reflexivity.
Qed.

(** ** State transformers of the handlers *)

(** What [leaveCurrentChat] does to the shared state. *)
Definition leaveState (sock : Sock) (st : State) : State :=
  match JsMap.get (sock_id sock) (connectedSockets st) with
  | None => st
  | Some socketData =>
      match currentChatId socketData, currentChatType socketData with
      | Some chatId, Some chatType =>
          if truthy chatId && truthy chatType then
            mkState (userSockets st)
              (JsMap.set (sock_id sock)
                 (mkSocketData (sd_userId socketData) (sd_username socketData) None None)
                 (connectedSockets st))
              (removeMember chatId (sock_userId sock) (activeChats st))
              (socketUser st)
          else st
      | _, _ => st
      end
  end.

(** What [joinSocketToChat] does to the shared state. *)
Definition joinState (sock : Sock) (chatId chatType chatName : string) (chatDbId : DbId)
    (st : State) : State :=
  match JsMap.get (sock_id sock) (connectedSockets st) with
  | None => st
  | Some socketData =>
      mkState (userSockets st)
        (JsMap.set (sock_id sock)
           (mkSocketData (sd_userId socketData) (sd_username socketData)
              (Some chatId) (Some chatType))
           (connectedSockets st))
        (addMember chatId (sock_userId sock)
           (if JsMap.has chatId (activeChats st) then activeChats st
            else JsMap.set chatId (mkChatInfo chatName chatType chatDbId [])
                   (activeChats st)))
        (socketUser st)
  end.

Ltac break_match :=
  match goal with
  | |- context [match ?x with _ => _ end] => destruct x eqn:?
  end.

Section TransformerFacts.
Context {W : Type} `{Persistence W}.

Lemma leaveCurrentChat_state sock st w :
  fst (fst (leaveCurrentChat sock st w)) = leaveState sock st.
Proof.
  unfold leaveCurrentChat, leaveState.
  repeat (break_match; simpl; try reflexivity).
Qed.

Lemma joinSocketToChat_state sock c t n d st w :
  fst (fst (joinSocketToChat sock c t n d st w)) = joinState sock c t n d st.
Proof.
  unfold joinSocketToChat, joinState.
  repeat (break_match; simpl; try reflexivity).
Qed.

Lemma completeJoin_state L sock t c n a d isNew st pre w :
  fst (fst (completeJoin L sock t c n a d isNew st pre w)) = joinState sock c t n d st.
Proof.
  unfold completeJoin.
  rewrite <- (joinSocketToChat_state sock c t n d st w).
  destruct (joinSocketToChat sock c t n d st w) as [[st1 e1] w1].
  destruct (getRecentMessages L (sock_id sock) d w1) as [[ms e2] w2].
  repeat (break_match; simpl; try reflexivity).
Qed.
End TransformerFacts.

Lemma removeMember_get c u ac X :
  JsMap.get X (removeMember c u ac)
  = match JsMap.get X ac with
    | Some ci =>
        Some (if String.eqb c X
              then mkChatInfo (chat_name ci) (chat_type ci) (chat_dbId ci)
                     (JsSet.delete u (members ci))
              else ci)
    | None => None
    end.
Proof.
  unfold removeMember. destruct (JsMap.get c ac) as [ci0|] eqn:Hc.
  - rewrite JsMap_get_set. destruct (String.eqb c X) eqn:E.
    + apply String.eqb_eq in E. subst X. now rewrite Hc.
    + now destruct (JsMap.get X ac).
  - destruct (String.eqb c X) eqn:E.
    + apply String.eqb_eq in E. subst X. now rewrite Hc.
    + now destruct (JsMap.get X ac).
Qed.

Lemma addMember_get c u ac X :
  JsMap.get X (addMember c u ac)
  = match JsMap.get X ac with
    | Some ci =>
        Some (if String.eqb c X
              then mkChatInfo (chat_name ci) (chat_type ci) (chat_dbId ci)
                     (JsSet.add u (members ci))
              else ci)
    | None => None
    end.
Proof.
  unfold addMember. destruct (JsMap.get c ac) as [ci0|] eqn:Hc.
  - rewrite JsMap_get_set. destruct (String.eqb c X) eqn:E.
    + apply String.eqb_eq in E. subst X. now rewrite Hc.
    + now destruct (JsMap.get X ac).
  - destruct (String.eqb c X) eqn:E.
    + apply String.eqb_eq in E. subst X. now rewrite Hc.
    + now destruct (JsMap.get X ac).
Qed.

Lemma JsMap_keys_set_present {V} k (v v0 : V) m :
  JsMap.get k m = Some v0 -> JsMap.keys (JsMap.set k v m) = JsMap.keys m.
Proof. intros Hg. rewrite JsMap_keys_set. unfold JsMap.has. now rewrite Hg. Qed.

Lemma removeMember_keys c u ac : JsMap.keys (removeMember c u ac) = JsMap.keys ac.
Proof.
  unfold removeMember. destruct (JsMap.get c ac) eqn:Hc; [|reflexivity].
  eapply JsMap_keys_set_present; eassumption.
Qed.

Lemma addMember_keys c u ac : JsMap.keys (addMember c u ac) = JsMap.keys ac.
Proof.
  unfold addMember. destruct (JsMap.get c ac) eqn:Hc; [|reflexivity].
  eapply JsMap_keys_set_present; eassumption.
Qed.

(** The chat a socket leaves, as [leaveCurrentChat] reads it. *)
Lemma leaveState_activeChats sock st :
  activeChats (leaveState sock st)
  = match attachment st (sock_id sock) with
    | Some r => removeMember (ref_id r) (sock_userId sock) (activeChats st)
    | None => activeChats st
    end.
Proof.
  unfold leaveState, attachment.
  repeat (break_match; simpl; try reflexivity); congruence.
Qed.

Lemma leaveState_keys sock st :
  JsMap.keys (activeChats (leaveState sock st)) = JsMap.keys (activeChats st).
Proof.
  rewrite leaveState_activeChats. destruct (attachment st (sock_id sock)); [|reflexivity].
  apply removeMember_keys.
Qed.

Lemma leaveState_record sock st X ci :
  JsMap.get X (activeChats st) = Some ci ->
  exists ci',
    JsMap.get X (activeChats (leaveState sock st)) = Some ci'
    /\ chat_name ci' = chat_name ci /\ chat_type ci' = chat_type ci
    /\ chat_dbId ci' = chat_dbId ci
    /\ members ci'
       = match attachment st (sock_id sock) with
         | Some r => if String.eqb (ref_id r) X
                     then JsSet.delete (sock_userId sock) (members ci)
                     else members ci
         | None => members ci
         end.
Proof.
  intros Hg. rewrite leaveState_activeChats.
  destruct (attachment st (sock_id sock)) as [r|].
  - rewrite removeMember_get, Hg. eexists. split; [reflexivity|].
    destruct (String.eqb (ref_id r) X); simpl; auto.
  - exists ci. auto.
Qed.

Lemma leaveState_attachment sock st : attachment (leaveState sock st) (sock_id sock) = None.
Proof.
  unfold leaveState, attachment.
  destruct (JsMap.get (sock_id sock) (connectedSockets st)) as [sd|] eqn:Hg;
    [|now rewrite Hg].
  destruct (currentChatId sd) as [c|] eqn:Hc; [|now rewrite Hg, Hc].
  destruct (currentChatType sd) as [t|] eqn:Ht; [|now rewrite Hg, Hc, Ht].
  destruct (truthy c && truthy t) eqn:Htr.
  - simpl. now rewrite JsMap_get_set_same.
  - now rewrite Hg, Hc, Ht, Htr.
Qed.

Lemma leaveState_other_sockets sock st sid' :
  sid' <> sock_id sock ->
  JsMap.get sid' (connectedSockets (leaveState sock st))
  = JsMap.get sid' (connectedSockets st).
Proof.
  intros Hne. unfold leaveState.
  repeat (break_match; simpl; try reflexivity).
  apply JsMap_get_set_other. congruence.
Qed.

Section LeaveEffects.
Context {W : Type} `{Persistence W}.

Lemma broadcastUserListUpdate_no_event ev st room w :
  ev <> "user list update" ->
  recipients ev (fst (broadcastUserListUpdate st room w)) = [].
Proof.
  intros Hne.
  assert (String.eqb "user list update" ev = false) as Hf
    by (apply String.eqb_neq; congruence).
  unfold broadcastUserListUpdate.
  destruct (JsMap.get room (activeChats st)) as [ri|]; [|reflexivity].
  destruct (negb (String.eqb (chat_type ri) "room")); [reflexivity|].
  destruct (0 <? JsSet.size (members ri))%nat.
  - destruct (findUsers (filter isValidObjectId (members ri)) w) as [[us|e] w1];
      unfold recipients; cbn [fst flat_map app]; now rewrite Hf.
  - unfold recipients; cbn [fst flat_map app]; now rewrite Hf.
Qed.

Lemma leaveCurrentChat_effects sock st w :
  exists c t bs,
    snd (fst (leaveCurrentChat sock st w)) = []
    \/ snd (fst (leaveCurrentChat sock st w))
       = Leave (sock_id sock) c :: bs ++
         [Emit (IoTo c) "stop typing"
            (PStopTyping (sock_userId sock) (mkChatRef t c))]
       /\ recipients "error message" bs = [].
Proof.
  unfold leaveCurrentChat.
  destruct (JsMap.get (sock_id sock) (connectedSockets st)) as [sd|];
    [|exists "", "", []; now left].
  destruct (currentChatId sd) as [c|]; [|exists "", "", []; now left].
  destruct (currentChatType sd) as [t|]; [|exists "", "", []; now left].
  destruct (truthy c && truthy t); [|exists "", "", []; now left].
  match goal with
  | |- context [let '(e, w1) := ?x in _] =>
      assert (recipients "error message" (fst x) = []) as Hn;
      [|destruct x as [bs w1]; exists c, t, bs; right; simpl; split;
        [reflexivity | exact Hn]]
  end.
  match goal with
  | |- context [JsMap.get c ?m] => destruct (JsMap.get c m) as [ci|]
  end; [|reflexivity].
  match goal with |- context [if ?b then _ else _] => destruct b end;
    [|reflexivity].
  apply broadcastUserListUpdate_no_event. discriminate.
Qed.

Lemma leaveCurrentChat_no_error sock st w :
  recipients "error message" (snd (fst (leaveCurrentChat sock st w))) = [].
Proof.
  destruct (leaveCurrentChat_effects sock st w) as [c [t [bs [-> | [-> Hn]]]]];
    [reflexivity|].
  unfold recipients in *. simpl. rewrite flat_map_app, Hn. reflexivity.
Qed.
End LeaveEffects.

(** ** Joining with a malformed room name (socket.on('join chat')) *)

Definition invalidRoomNameMessage : string :=
  "Invalid room name format. Use lowercase letters, numbers, -, _ (3-20 chars).".

(** C5, as the code has it.  A join request for a public room whose name is
    malformed and matches no existing room is answered by an error sent to
    the requesting socket only.  An empty name is refused before anything
    else happens and the state is unchanged.  For any other malformed name
    the handler has already run [leaveCurrentChat]: the resulting state is
    the state after that leave (the socket ends unattached and its user is
    removed from the member set of the chat it was in), the effects are those
    of the leave followed by the error, no membership record is added and no
    other socket's entry changes. *)
Theorem malformed_join_runs_leave_only {W : Type} `{Persistence W}
    (L : nat) (sock : Sock) (name : string) (st : State) (w w2 : W) :
  invalidRoomName name = true ->
  findPublicRoom name (snd (leaveCurrentChat sock st w)) = (Ok None, w2) ->
  let out := onJoinChat L sock (Some (mkJoinData "room" name)) st w in
  if truthy name then
    fst (fst out) = leaveState sock st
    /\ snd (fst out)
       = snd (fst (leaveCurrentChat sock st w))
         ++ [sendError (sock_id sock) invalidRoomNameMessage]
    /\ snd out = w2
    /\ recipients "error message" (snd (fst out)) = [sock_id sock]
    /\ JsMap.keys (activeChats (fst (fst out))) = JsMap.keys (activeChats st)
    /\ attachment (fst (fst out)) (sock_id sock) = None
    /\ (forall sid', sid' <> sock_id sock ->
          JsMap.get sid' (connectedSockets (fst (fst out)))
          = JsMap.get sid' (connectedSockets st))
  else out = ((st, [sendError (sock_id sock) "Invalid join request data."]), w).
Proof.
  intros Hbad Hfind out. subst out. unfold onJoinChat, joinResume. cbn [jd_type jd_id].
  change (truthy "room") with true. cbn [negb orb].
  destruct (truthy name) eqn:Hname; cbn [negb]; [|reflexivity].
  pose proof (leaveCurrentChat_state sock st w) as Hst.
  pose proof (leaveCurrentChat_no_error sock st w) as Hne.
  destruct (leaveCurrentChat sock st w) as [[st1 e1] w1].
  cbn [fst snd] in *. change (String.eqb "room" "room") with true. cbv iota.
  rewrite Hfind, Hbad. cbn [fst snd]. subst st1.
  repeat split.
  - unfold recipients in *. rewrite flat_map_app, Hne. reflexivity.
  - apply leaveState_keys.
  - apply leaveState_attachment.
  - intros sid' Hsid. now apply leaveState_other_sockets.
Qed.

(** ** Sending a message (socket.on('chat message')) *)

Lemma ChatRef_eq_dec (x y : ChatRef) : {x = y} + {x <> y}.
Proof. decide equality; apply string_dec. Qed.

Lemma attachment_eq_dec (x y : option ChatRef) : {x = y} + {x <> y}.
Proof. decide equality; apply ChatRef_eq_dec. Qed.

Section SendContract.
Context {W : Type} `{Persistence W}.
Variables (sock : Sock) (text : JsText) (chat : ChatRef) (st : State) (w : W).

Let out := onChatMessage sock (Some (mkMsgData (Some text) (Some chat))) st w.

Definition sendBlocked : Prop :=
  attachment st (sock_id sock) <> Some chat
  \/ trim text = []
  \/ MAX_MESSAGE_LENGTH < List.length (trim text).

Lemma send_rejected :
  sendBlocked -> exists m, out = ((st, [sendError (sock_id sock) m]), w).
Proof.
  unfold sendBlocked, attachment. subst out. unfold onChatMessage. cbv zeta.
  destruct (JsMap.get (sock_id sock) (connectedSockets st)) as [sd|];
    [|intros _; eexists; reflexivity].
  destruct (currentChatId sd) as [c|]; [|intros _; eexists; reflexivity].
  destruct (currentChatType sd) as [t|]; [|intros _; eexists; reflexivity].
  destruct (truthy c && truthy t); [|intros _; eexists; reflexivity].
  destruct chat as [ct ci]. cbn [ref_type ref_id].
  destruct (String.eqb ct t) eqn:Et; [|intros _; eexists; reflexivity].
  destruct (String.eqb ci c) eqn:Ec;
    [|intros _; rewrite orb_true_r; eexists; reflexivity].
  apply String.eqb_eq in Et, Ec. subst. cbn [negb orb].
  intros [Hatt | [Hempty | Hlong]].
  - now contradiction Hatt.
  - rewrite Hempty. simpl. eexists; reflexivity.
  - apply Nat.ltb_lt in Hlong. rewrite Hlong, orb_true_r. eexists; reflexivity.
Qed.

Lemma sendBlocked_dec : sendBlocked \/ ~ sendBlocked.
Proof.
  unfold sendBlocked.
  destruct (attachment_eq_dec (attachment st (sock_id sock)) (Some chat));
    [|tauto].
  destruct (trim text) as [|c r]; [tauto|].
  destruct (Nat.ltb_spec MAX_MESSAGE_LENGTH (List.length (c :: r))); [tauto|].
  right. intros [?|[?|?]]; [contradiction | discriminate | lia].
Qed.

Lemma send_accepted ci :
  ~ sendBlocked ->
  JsMap.get (ref_id chat) (activeChats st) = Some ci ->
  truthy (chat_dbId ci) = true ->
  out = persistAndBroadcast sock (ref_id chat) (ref_type chat) (trim text)
          (chat_dbId ci) st w.
Proof.
  unfold sendBlocked, attachment. subst out. unfold onChatMessage. cbv zeta.
  intros Hok Hci Hdb.
  destruct (JsMap.get (sock_id sock) (connectedSockets st)) as [sd|];
    [|exfalso; apply Hok; left; discriminate].
  destruct (currentChatId sd) as [c|];
    [|exfalso; apply Hok; left; discriminate].
  destruct (currentChatType sd) as [t|];
    [|exfalso; apply Hok; left; discriminate].
  destruct (truthy c && truthy t);
    [|exfalso; apply Hok; left; discriminate].
  destruct chat as [ct cid]. cbn [ref_type ref_id] in *.
  destruct (string_dec ct t) as [->|Hn];
    [|exfalso; apply Hok; left; congruence].
  destruct (string_dec cid c) as [->|Hn];
    [|exfalso; apply Hok; left; congruence].
  rewrite !String.eqb_refl. cbn [negb orb].
  destruct (trim text) as [|x r] eqn:Ht;
    [exfalso; apply Hok; right; left; reflexivity|].
  assert ((MAX_MESSAGE_LENGTH <? List.length (x :: r))%nat = false) as Hlen.
  { apply Nat.ltb_ge.
    destruct (Nat.le_gt_cases (List.length (x :: r)) MAX_MESSAGE_LENGTH) as [Hle|Hgt];
      [assumption | exfalso; apply Hok; right; right; exact Hgt]. }
  rewrite Hlen. cbn [List.length Nat.eqb orb]. rewrite Hci, Hdb. reflexivity.
Qed.
End SendContract.

(** The requests the handler takes to be messages: a string [text] and a
    [chat] reference. *)
Definition wellFormedMessage (msgData : option MsgData) : Prop :=
  exists text chat, msgData = Some (mkMsgData (Some text) (Some chat)).

Lemma send_malformed {W : Type} `{Persistence W}
    (sock : Sock) (msgData : option MsgData) (st : State) (w : W) :
  ~ wellFormedMessage msgData ->
  exists m, onChatMessage sock msgData st w = ((st, [sendError (sock_id sock) m]), w).
Proof.
  intros Hbad. unfold onChatMessage. cbv zeta.
  destruct (JsMap.get (sock_id sock) (connectedSockets st)) as [sd|];
    [|eexists; reflexivity].
  destruct (currentChatId sd) as [c|]; [|eexists; reflexivity].
  destruct (currentChatType sd) as [t|]; [|eexists; reflexivity].
  destruct (truthy c && truthy t); [|eexists; reflexivity].
  destruct msgData as [[[text|] [chat|]]|]; try (eexists; reflexivity).
  exfalso. apply Hbad. now exists text, chat.
Qed.

(** C4. A send whose target differs from the sender's current attachment, or
    whose text is empty once trimmed, or whose trimmed text is longer than
    [MAX_MESSAGE_LENGTH], only produces an error sent to the sending socket:
    the shared state and the store are returned untouched and nothing is
    emitted to anybody else.  Conversely a run of the handler that touches
    the store, changes the state or emits a ['chat message'] was given a
    well-formed message with all three preconditions satisfied, and with
    them satisfied the handler goes on to persist and broadcast. *)
Theorem send_preconditions {W : Type} `{Persistence W}
    (sock : Sock) (msgData : option MsgData) (st : State) (w : W) :
  let out := onChatMessage sock msgData st w in
  (forall text chat,
     msgData = Some (mkMsgData (Some text) (Some chat)) ->
     sendBlocked sock text chat st ->
     exists m, out = ((st, [sendError (sock_id sock) m]), w))
  /\ (snd out <> w \/ fst (fst out) <> st
      \/ (exists room p, In (Emit (IoTo room) "chat message" p) (snd (fst out))) ->
      exists text chat,
        msgData = Some (mkMsgData (Some text) (Some chat))
        /\ attachment st (sock_id sock) = Some chat
        /\ trim text <> []
        /\ List.length (trim text) <= MAX_MESSAGE_LENGTH)
  /\ (forall text chat ci,
        msgData = Some (mkMsgData (Some text) (Some chat)) ->
        ~ sendBlocked sock text chat st ->
        JsMap.get (ref_id chat) (activeChats st) = Some ci ->
        truthy (chat_dbId ci) = true ->
        out = persistAndBroadcast sock (ref_id chat) (ref_type chat) (trim text)
                (chat_dbId ci) st w).
Proof.
  intros out.
  assert (forall o m, o = ((st, [sendError (sock_id sock) m]), w) ->
          ~ (snd o <> w \/ fst (fst o) <> st
             \/ (exists room p, In (Emit (IoTo room) "chat message" p) (snd (fst o)))))
    as Hquiet.
  { intros o m -> Hreach. cbn [fst snd] in Hreach.
    destruct Hreach as [Hw | [Hs | [room [p [Hin | []]]]]];
      [now contradiction Hw | now contradiction Hs | discriminate Hin]. }
  subst out. split; [|split].
  - intros text chat ->. apply send_rejected.
  - intros Hreach.
    assert (wellFormedMessage msgData) as [text [chat ->]].
    { destruct msgData as [[[text|] [chat|]]|];
        try (now exists text, chat);
        exfalso;
        match goal with
        | _ : context [onChatMessage sock ?md st w] |- _ =>
            destruct (send_malformed sock md st w) as [m Hm];
            [intros [text' [chat' Heq]]; discriminate Heq
            |exact (Hquiet _ m Hm Hreach)]
        end. }
    exists text, chat. split; [reflexivity|].
    destruct (sendBlocked_dec sock text chat st) as [Hb|Hn].
    + destruct (send_rejected sock text chat st w Hb) as [m Hm].
      exfalso. exact (Hquiet _ m Hm Hreach).
    + unfold sendBlocked in Hn.
      destruct (attachment_eq_dec (attachment st (sock_id sock)) (Some chat));
        [|tauto].
      repeat split; [assumption | tauto | lia].
  - intros text chat ci ->. apply send_accepted.
Qed.

(** ** Setting the status (socket.on('set status')) *)

(** C10, as the code has it.  A set-status request whose status is a
    non-empty value outside [validStatuses] (["offline"] included) is not
    refused: the store is asked to record ["online"] with the status message
    trimmed and cut to at most 60 code units, and when that update succeeds
    the socket's cached user takes the same values and ["online"] is what the
    presence broadcast carries. *)
Theorem set_status_coerces_to_online {W : Type} `{Persistence W}
    (sock : Sock) (d : StatusData) (st : State) (w : W) :
  truthy (sd_status d) = true ->
  includes (sd_status d) validStatuses = false ->
  let m := slice0 60 (trim (match sd_statusMessage d with Some t => t | None => [] end)) in
  let t := fst (now w) in
  List.length m <= 60
  /\ forall u w2,
       updateUserStatus (sock_userId sock) "online" (Some m) t (snd (now w))
       = (Ok (Some u), w2) ->
       exists st1,
         onSetStatus sock (Some d) st w
         = ((st1,
             broadcastPresenceUpdate st1 (sock_userId sock) "online" (Some m)
               (user_lastSeen u)), w2)
         /\ userSockets st1 = userSockets st
         /\ connectedSockets st1 = connectedSockets st
         /\ activeChats st1 = activeChats st
         /\ option_map user_status (JsMap.get (sock_id sock) (socketUser st1))
            = Some "online".
Proof.
  intros Htruthy Hinvalid m t. split.
  - subst m. unfold slice0. rewrite length_firstn. lia.
  - intros u w2 Hupd. unfold onSetStatus. rewrite Htruthy, Hinvalid. cbn [negb].
    subst t. fold m. destruct (now w) as [t w1]. cbn [fst snd] in Hupd.
    rewrite Hupd. eexists. split; [reflexivity|].
    cbn [set_socketUser userSockets connectedSockets activeChats socketUser].
    rewrite JsMap_get_set_same. simpl. auto.
Qed.

(** ** One step, seen from the shared state *)

(** What the connection bootstrap does to the shared state. *)
Definition connectState (sock : Sock) (st : State) : State :=
  let userId := sock_userId sock in
  let us0 :=
    if JsMap.has userId (userSockets st) then userSockets st
    else JsMap.set userId [] (userSockets st) in
  let us1 :=
    match JsMap.get userId us0 with
    | Some sockets => JsMap.set userId (JsSet.add (sock_id sock) sockets) us0
    | None => us0
    end in
  mkState us1
    (JsMap.set (sock_id sock) (mkSocketData userId (sock_username sock) None None)
       (connectedSockets st))
    (activeChats st)
    (JsMap.set (sock_id sock) (sock_user sock) (socketUser st)).

(** What the disconnect handler does to the registry, after the leave. *)
Definition dropState (sock : Sock) (st : State) : State :=
  let userId := sock_userId sock in
  mkState
    (match JsMap.get userId (userSockets st) with
     | Some userSocketSet =>
         if (JsSet.size (JsSet.delete (sock_id sock) userSocketSet) =? 0)%nat
         then JsMap.delete userId (userSockets st)
         else JsMap.set userId (JsSet.delete (sock_id sock) userSocketSet) (userSockets st)
     | None => userSockets st
     end)
    (JsMap.delete (sock_id sock) (connectedSockets st))
    (activeChats st)
    (JsMap.delete (sock_id sock) (socketUser st)).

(** What ['initiate dm'] does to [activeChats] before the initiator joins. *)
Definition dmState (userId targetUserId dmRoomId name : string) (dmDbId : DbId)
    (st : State) : State :=
  set_activeChats st
    (if JsMap.has dmRoomId (activeChats st) then
       addMember dmRoomId targetUserId (addMember dmRoomId userId (activeChats st))
     else
       JsMap.set dmRoomId
         (mkChatInfo name "direct" dmDbId (JsSet.of_list [userId; targetUserId]))
         (activeChats st)).

(** The recovery of a missing [dbId] by the message handler. *)
Definition dbIdState (chatId : string) (ci : ChatInfo) (dbId : DbId) (st : State) : State :=
  set_activeChats st
    (JsMap.set chatId (mkChatInfo (chat_name ci) (chat_type ci) dbId (members ci))
       (activeChats st)).

(** The store answers a lookup by name with a room whose name is the name
    asked for once the schema's setters have run on it, as mongoose does by
    casting the filter. *)
Definition CastsNames {W : Type} (P : Persistence W) : Prop :=
  forall n w d w', findPublicRoom n w = (Ok (Some d), w') -> room_name d = schemaName n.

Section StepShape.
Context {W : Type} {P : Persistence W}.
Variable L : nat.

Lemma onConnection_state sock st w :
  fst (fst (onConnection sock st w)) = connectState sock st.
Proof.
  unfold onConnection, connectState. cbv zeta.
  repeat (break_match; cbn [fst snd]; try reflexivity).
Qed.

Lemma onDisconnect_state sock st w :
  fst (fst (onDisconnect sock st w)) = dropState sock (leaveState sock st).
Proof.
  unfold onDisconnect. cbv zeta.
  rewrite <- (leaveCurrentChat_state sock st w).
  destruct (leaveCurrentChat sock st w) as [[st1 e1] w1]. cbn [fst snd].
  unfold dropState, set_socketUser, set_connectedSockets, set_userSockets.
  cbn [userSockets connectedSockets activeChats socketUser].
  repeat (break_match; cbn [fst snd]; try reflexivity); congruence.
Qed.

Lemma persistAndBroadcast_state sock c t m d st w :
  fst (fst (persistAndBroadcast sock c t m d st w)) = st.
Proof.
  unfold persistAndBroadcast. cbv zeta.
  repeat (break_match; cbn [fst snd]; try reflexivity).
Qed.

Lemma onChatMessage_state sock msgData st w :
  let st' := fst (fst (onChatMessage sock msgData st w)) in
  st' = st
  \/ exists c ci d,
       JsMap.get c (activeChats st) = Some ci
       /\ truthy (chat_dbId ci) = false
       /\ st' = dbIdState c ci d st.
Proof.
  unfold onChatMessage. cbv zeta.
  repeat (break_match; cbn [fst snd]; try (left; reflexivity));
    rewrite ?persistAndBroadcast_state; try (left; reflexivity);
    right; do 3 eexists; (split; [eassumption|]); (split; [eassumption|]);
    reflexivity.
Qed.

Lemma onSetStatus_state sock data st w :
  let st' := fst (fst (onSetStatus sock data st w)) in
  st' = st
  \/ exists u', user_id u' = sock_userId sock
                /\ st' = set_socketUser st (JsMap.set (sock_id sock) u' (socketUser st)).
Proof.
  unfold onSetStatus. cbv zeta.
  repeat (break_match; cbn [fst snd]; try (left; reflexivity));
    right; eexists; (split; [|reflexivity]); reflexivity.
Qed.

Lemma joinResume_state sock t i st1 e1 w1 :
  let st' := fst (fst (joinResume L sock t i st1 e1 w1)) in
  st' = st1 \/ exists c n d, st' = joinState sock c t n d st1.
Proof.
  unfold joinResume. cbv zeta.
  repeat (break_match; cbn [fst snd]; try (left; reflexivity));
    rewrite completeJoin_state; right; do 3 eexists; reflexivity.
Qed.

Lemma onJoinChat_state sock data st w :
  let st' := fst (fst (onJoinChat L sock data st w)) in
  st' = st
  \/ st' = leaveState sock st
  \/ exists c t n d,
       truthy t = true
       /\ st' = joinState sock c t n d (leaveState sock st).
Proof.
  unfold onJoinChat. cbv zeta.
  destruct data as [d|]; [|now left].
  destruct (negb (truthy (jd_type d)) || negb (truthy (jd_id d))) eqn:Hchk;
    [now left|].
  apply orb_false_elim in Hchk as [Ht Hi]. apply negb_false_iff in Ht, Hi.
  rewrite <- (leaveCurrentChat_state sock st w).
  destruct (leaveCurrentChat sock st w) as [[st1 e1] w1]. cbn [fst snd].
  destruct (joinResume_state sock (jd_type d) (jd_id d) st1 e1 w1)
    as [-> | [c [n [d0 ->]]]]; [now right; left|].
  right. right. now exists c, (jd_type d), n, d0.
Qed.

Lemma onInitiateDm_state sock target st w :
  let st' := fst (fst (onInitiateDm L sock target st w)) in
  st' = st
  \/ exists c n d,
       st' = joinState sock c "direct" n d
               (leaveState sock (dmState (sock_userId sock) target c n d st)).
Proof.
  unfold onInitiateDm. cbv zeta.
  repeat (break_match; cbn [fst snd]; try (left; reflexivity)).
  right.
  match goal with
  | Hl : leaveCurrentChat sock ?s ?w0 = _,
    Hj : joinSocketToChat sock ?c ?t ?n ?d ?s1 ?w1 = _ |- _ =>
      pose proof (leaveCurrentChat_state sock s w0) as Hls; rewrite Hl in Hls;
      pose proof (joinSocketToChat_state sock c t n d s1 w1) as Hjs; rewrite Hj in Hjs;
      cbn [fst snd] in Hls, Hjs; subst
  end.
  do 3 eexists. reflexivity.
Qed.
End StepShape.

Section Shapes.
Context {W : Type} {P : Persistence W}.
Variable L : nat.

(** The state changes one event can cause. *)
Inductive Shape (st : State) : Event -> State -> Prop :=
| Sh_same ev : Shape st ev st
| Sh_connect sid user :
    JsMap.get sid (socketUser st) = None ->
    Shape st (Connection sid user) (connectState (mkSock sid user) st)
| Sh_leave sid data u :
    JsMap.get sid (socketUser st) = Some u ->
    Shape st (JoinChat sid data) (leaveState (mkSock sid u) st)
| Sh_join sid data u c t n d :
    JsMap.get sid (socketUser st) = Some u ->
    truthy t = true ->
    Shape st (JoinChat sid data)
      (joinState (mkSock sid u) c t n d (leaveState (mkSock sid u) st))
| Sh_dm sid target u c n d :
    JsMap.get sid (socketUser st) = Some u ->
    Shape st (InitiateDm sid target)
      (joinState (mkSock sid u) c "direct" n d
         (leaveState (mkSock sid u) (dmState (user_id u) target c n d st)))
| Sh_dbid sid m c ci d :
    JsMap.get c (activeChats st) = Some ci ->
    truthy (chat_dbId ci) = false ->
    Shape st (ChatMessage sid m) (dbIdState c ci d st)
| Sh_status sid data u u' :
    JsMap.get sid (socketUser st) = Some u ->
    user_id u' = user_id u ->
    Shape st (SetStatus sid data)
      (set_socketUser st (JsMap.set sid u' (socketUser st)))
| Sh_drop sid u :
    JsMap.get sid (socketUser st) = Some u ->
    Shape st (Disconnect sid)
      (dropState (mkSock sid u) (leaveState (mkSock sid u) st)).

Lemma step_shape ev st w st' e w' :
  step L ev st w = Some ((st', e), w') -> Shape st ev st'.
Proof.
  destruct ev as [sid user|sid data|sid target|sid m|sid c|sid c|sid data|sid];
    cbn [step]; unfold withSock, JsMap.has.
  - destruct (JsMap.get sid (socketUser st)) eqn:Hs; [discriminate|].
    destruct (negb (truthy (user_id user))).
    + intros [= <- _ _]. apply Sh_same.
    + intros Hstep. pose proof (onConnection_state (mkSock sid user) st w) as Hc.
      injection Hstep as Hstep. rewrite Hstep in Hc. cbn [fst] in Hc. subst st'.
      now apply Sh_connect.
  - destruct (JsMap.get sid (socketUser st)) as [u|] eqn:Hs; [|discriminate].
    intros Hstep. injection Hstep as Hstep.
    pose proof (onJoinChat_state L (mkSock sid u) data st w) as Hj.
    rewrite Hstep in Hj. cbn [fst] in Hj.
    destruct Hj as [-> | [-> | [c [t [n [d [Ht ->]]]]]]];
      [apply Sh_same | now apply Sh_leave | now apply Sh_join].
  - destruct (JsMap.get sid (socketUser st)) as [u|] eqn:Hs; [|discriminate].
    intros Hstep. injection Hstep as Hstep.
    pose proof (onInitiateDm_state L (mkSock sid u) target st w) as Hj.
    rewrite Hstep in Hj. cbn [fst] in Hj.
    destruct Hj as [-> | [c [n [d ->]]]]; [apply Sh_same | now apply Sh_dm].
  - destruct (JsMap.get sid (socketUser st)) as [u|] eqn:Hs; [|discriminate].
    intros Hstep. injection Hstep as Hstep.
    pose proof (onChatMessage_state (mkSock sid u) m st w) as Hj.
    rewrite Hstep in Hj. cbn [fst] in Hj.
    destruct Hj as [-> | [c [ci [d [Hg [Hd ->]]]]]];
      [apply Sh_same | now apply Sh_dbid].
  - destruct (JsMap.get sid (socketUser st)); [|discriminate].
    intros [= <- _ _]. apply Sh_same.
  - destruct (JsMap.get sid (socketUser st)); [|discriminate].
    intros [= <- _ _]. apply Sh_same.
  - destruct (JsMap.get sid (socketUser st)) as [u|] eqn:Hs; [|discriminate].
    intros Hstep. injection Hstep as Hstep.
    pose proof (onSetStatus_state (mkSock sid u) data st w) as Hj.
    rewrite Hstep in Hj. cbn [fst] in Hj.
    destruct Hj as [-> | [u' [Hid ->]]];
      [apply Sh_same | now apply (Sh_status st sid data u u')].
  - destruct (JsMap.get sid (socketUser st)) as [u|] eqn:Hs; [|discriminate].
    intros Hstep. injection Hstep as Hstep.
    pose proof (onDisconnect_state (mkSock sid u) st w) as Hj.
    rewrite Hstep in Hj. cbn [fst] in Hj. subst st'. now apply Sh_drop.
Qed.
End Shapes.

(** ** The leave and join transformers, case by case *)

Lemma leaveState_cases sock st :
  (leaveState sock st = st /\ attachment st (sock_id sock) = None)
  \/ exists sd c t,
       JsMap.get (sock_id sock) (connectedSockets st) = Some sd
       /\ currentChatId sd = Some c /\ currentChatType sd = Some t
       /\ truthy c = true /\ truthy t = true
       /\ leaveState sock st
          = mkState (userSockets st)
              (JsMap.set (sock_id sock)
                 (mkSocketData (sd_userId sd) (sd_username sd) None None)
                 (connectedSockets st))
              (removeMember c (sock_userId sock) (activeChats st))
              (socketUser st).
Proof.
  unfold leaveState, attachment.
  destruct (JsMap.get (sock_id sock) (connectedSockets st)) as [sd|] eqn:Hg;
    [|now left].
  destruct (currentChatId sd) as [c|] eqn:Hc; [|now left].
  destruct (currentChatType sd) as [t|] eqn:Ht; [|now left].
  destruct (truthy c && truthy t) eqn:Htr; [|now left].
  apply andb_true_iff in Htr as [Htc Htt]. right. exists sd, c, t.
  repeat split; auto.
Qed.

Lemma joinState_cases sock c t n d st :
  (JsMap.get (sock_id sock) (connectedSockets st) = None /\ joinState sock c t n d st = st)
  \/ exists sd,
       JsMap.get (sock_id sock) (connectedSockets st) = Some sd
       /\ joinState sock c t n d st
          = mkState (userSockets st)
              (JsMap.set (sock_id sock)
                 (mkSocketData (sd_userId sd) (sd_username sd) (Some c) (Some t))
                 (connectedSockets st))
              (addMember c (sock_userId sock)
                 (if JsMap.has c (activeChats st) then activeChats st
                  else JsMap.set c (mkChatInfo n t d []) (activeChats st)))
              (socketUser st).
Proof.
  unfold joinState.
  destruct (JsMap.get (sock_id sock) (connectedSockets st)) as [sd|] eqn:Hg;
    [|now left].
  right. now exists sd.
Qed.

Lemma membersOf_removeMember st c u X us cs su :
  membersOf (mkState us cs (removeMember c u (activeChats st)) su) X
  = if String.eqb c X then JsSet.delete u (membersOf st X) else membersOf st X.
Proof.
  unfold membersOf. cbn [activeChats]. rewrite removeMember_get.
  destruct (JsMap.get X (activeChats st)); destruct (String.eqb c X); reflexivity.
Qed.

Lemma membersOf_join_target st c u t n d X us cs su :
  membersOf
    (mkState us cs
       (addMember c u
          (if JsMap.has c (activeChats st) then activeChats st
           else JsMap.set c (mkChatInfo n t d []) (activeChats st))) su) X
  = if String.eqb c X then JsSet.add u (membersOf st X) else membersOf st X.
Proof.
  unfold membersOf, JsMap.has. cbn [activeChats]. rewrite addMember_get.
  destruct (JsMap.get c (activeChats st)) as [ci|] eqn:Hc.
  - destruct (String.eqb c X) eqn:E.
    + apply String.eqb_eq in E. subst X. now rewrite Hc.
    + now destruct (JsMap.get X (activeChats st)).
  - rewrite JsMap_get_set. destruct (String.eqb c X) eqn:E.
    + apply String.eqb_eq in E. subst X. now rewrite Hc.
    + now destruct (JsMap.get X (activeChats st)).
Qed.


(** ** The connection registry *)

(** [connectedSockets], [userSockets] and the live [socket.user] objects
    describe the same connections. *)
Record Registry (st : State) : Prop := {
  reg_user : forall sid sd,
    JsMap.get sid (connectedSockets st) = Some sd ->
    exists u, JsMap.get sid (socketUser st) = Some u /\ user_id u = sd_userId sd;
  reg_data : forall sid u,
    JsMap.get sid (socketUser st) = Some u ->
    exists sd, JsMap.get sid (connectedSockets st) = Some sd;
  reg_owner : forall sid sd,
    JsMap.get sid (connectedSockets st) = Some sd ->
    exists s, JsMap.get (sd_userId sd) (userSockets st) = Some s /\ In sid s
}.

Lemma Registry_sock st sid u sd :
  Registry st ->
  JsMap.get sid (socketUser st) = Some u ->
  JsMap.get sid (connectedSockets st) = Some sd ->
  sd_userId sd = user_id u.
Proof.
  intros R Hu Hsd. destruct (reg_user st R sid sd Hsd) as [u' [Hu' Hid]].
  congruence.
Qed.

Lemma Registry_boot room : Registry (bootState room).
Proof. split; cbn; intros; discriminate. Qed.

Lemma Registry_update_socket st sid sd sd' ac :
  Registry st ->
  JsMap.get sid (connectedSockets st) = Some sd ->
  sd_userId sd' = sd_userId sd ->
  Registry (mkState (userSockets st) (JsMap.set sid sd' (connectedSockets st)) ac
              (socketUser st)).
Proof.
  intros R Hsd Hid. split; cbn [userSockets connectedSockets socketUser].
  - intros sid0 sd0. rewrite JsMap_get_set. destruct (String.eqb sid sid0) eqn:E.
    + apply String.eqb_eq in E. subst sid0. intros [= <-]. rewrite Hid.
      now apply (reg_user st R).
    + apply (reg_user st R).
  - intros sid0 u Hu. rewrite JsMap_get_set. destruct (String.eqb sid sid0); eauto.
    now apply (reg_data st R sid0 u).
  - intros sid0 sd0. rewrite JsMap_get_set. destruct (String.eqb sid sid0) eqn:E.
    + apply String.eqb_eq in E. subst sid0. intros [= <-]. rewrite Hid.
      now apply (reg_owner st R).
    + apply (reg_owner st R).
Qed.

Lemma Registry_activeChats st ac : Registry st -> Registry (set_activeChats st ac).
Proof. intros [R1 R2 R3]. split; assumption. Qed.

Lemma Registry_leave sock st : Registry st -> Registry (leaveState sock st).
Proof.
  intros R. destruct (leaveState_cases sock st)
    as [[-> _] | [sd [c [t [Hg [_ [_ [_ [_ ->]]]]]]]]]; [assumption|].
  now apply Registry_update_socket with (sd := sd).
Qed.

Lemma Registry_join sock c t n d st : Registry st -> Registry (joinState sock c t n d st).
Proof.
  intros R. destruct (joinState_cases sock c t n d st) as [[_ ->] | [sd [Hg ->]]];
    [assumption|].
  now apply Registry_update_socket with (sd := sd).
Qed.

Lemma Registry_status st sid u u' :
  Registry st ->
  JsMap.get sid (socketUser st) = Some u ->
  user_id u' = user_id u ->
  Registry (set_socketUser st (JsMap.set sid u' (socketUser st))).
Proof.
  intros R Hu Hid. split; cbn [set_socketUser userSockets connectedSockets socketUser].
  - intros sid0 sd0 Hsd. rewrite JsMap_get_set. destruct (String.eqb sid sid0) eqn:E.
    + apply String.eqb_eq in E. subst sid0. exists u'. split; [reflexivity|].
      rewrite Hid. symmetry. now apply (Registry_sock st sid u sd0).
    + now apply (reg_user st R).
  - intros sid0 u0. rewrite JsMap_get_set. destruct (String.eqb sid sid0) eqn:E.
    + apply String.eqb_eq in E. subst sid0. intros _. now apply (reg_data st R sid u).
    + apply (reg_data st R).
  - apply (reg_owner st R).
Qed.

Lemma connectState_userSockets sock st uid :
  JsMap.get uid (userSockets (connectState sock st))
  = if String.eqb (sock_userId sock) uid
    then Some (JsSet.add (sock_id sock)
                 (match JsMap.get uid (userSockets st) with Some s => s | None => [] end))
    else JsMap.get uid (userSockets st).
Proof.
  unfold connectState, JsMap.has. cbn [userSockets].
  destruct (JsMap.get (sock_userId sock) (userSockets st)) as [s|] eqn:Hg.
  - rewrite Hg, JsMap_get_set. destruct (String.eqb (sock_userId sock) uid) eqn:E;
      [|reflexivity].
    apply String.eqb_eq in E. subst uid. now rewrite Hg.
  - rewrite JsMap_get_set_same, !JsMap_get_set.
    destruct (String.eqb (sock_userId sock) uid) eqn:E; [|reflexivity].
    apply String.eqb_eq in E. subst uid. now rewrite Hg.
Qed.

Lemma Registry_fresh st sid :
  Registry st ->
  JsMap.get sid (socketUser st) = None ->
  JsMap.get sid (connectedSockets st) = None.
Proof.
  intros R Hn. destruct (JsMap.get sid (connectedSockets st)) as [sd|] eqn:Hg;
    [|reflexivity].
  destruct (reg_user st R sid sd Hg) as [u [Hu _]]. congruence.
Qed.

Lemma Registry_connect sock st :
  Registry st ->
  JsMap.get (sock_id sock) (socketUser st) = None ->
  Registry (connectState sock st).
Proof.
  intros R Hfresh. split.
  - intros sid sd. unfold connectState at 1 2. cbn [connectedSockets socketUser].
    rewrite !JsMap_get_set. destruct (String.eqb (sock_id sock) sid).
    + intros [= <-]. eexists. split; reflexivity.
    + apply (reg_user st R).
  - intros sid u. unfold connectState at 1 2. cbn [connectedSockets socketUser].
    rewrite !JsMap_get_set. destruct (String.eqb (sock_id sock) sid); eauto.
    apply (reg_data st R).
  - intros sid sd. rewrite connectState_userSockets.
    unfold connectState. cbn [connectedSockets].
    rewrite JsMap_get_set. destruct (String.eqb (sock_id sock) sid) eqn:E.
    + apply String.eqb_eq in E. subst sid. intros [= <-]. cbn [sd_userId].
      rewrite String.eqb_refl. eexists. split; [reflexivity|].
      apply JsSet_In_add. now left.
    + intros Hsd. destruct (reg_owner st R sid sd Hsd) as [s [Hs Hin]].
      rewrite Hs. destruct (String.eqb (sock_userId sock) (sd_userId sd)); eauto.
      eexists. split; [reflexivity|]. apply JsSet_In_add. now right.
Qed.

Lemma Registry_drop sock st :
  Registry st ->
  JsMap.get (sock_id sock) (socketUser st) = Some (sock_user sock) ->
  Registry (dropState sock st).
Proof.
  intros R Hsock. split; unfold dropState; cbn [userSockets connectedSockets socketUser].
  - intros sid sd. rewrite !JsMap_get_delete.
    destruct (String.eqb (sock_id sock) sid); [discriminate|]. apply (reg_user st R).
  - intros sid u. rewrite !JsMap_get_delete.
    destruct (String.eqb (sock_id sock) sid); [discriminate|]. apply (reg_data st R).
  - intros sid sd. rewrite JsMap_get_delete.
    destruct (String.eqb (sock_id sock) sid) eqn:E; [discriminate|].
    apply String.eqb_neq in E. intros Hsd.
    destruct (reg_owner st R sid sd Hsd) as [s [Hs Hin]].
    destruct (string_dec (sock_userId sock) (sd_userId sd)) as [Heq|Hne].
    + rewrite Heq, Hs.
      assert (In sid (JsSet.delete (sock_id sock) s)) as Hin'
        by (apply JsSet_In_delete; split; [congruence | assumption]).
      destruct (JsSet.delete (sock_id sock) s) as [|x r] eqn:Hd; [contradiction|].
      cbn [JsSet.size List.length Nat.eqb]. rewrite JsMap_get_set_same. eauto.
    + destruct (JsMap.get (sock_userId sock) (userSockets st)) as [s0|].
      * destruct (JsSet.size (JsSet.delete (sock_id sock) s0) =? 0)%nat.
        -- rewrite JsMap_get_delete.
           apply String.eqb_neq in Hne. rewrite Hne. eauto.
        -- rewrite JsMap_get_set_other by assumption. eauto.
      * eauto.
Qed.

Section RegistryRuns.
Context {W : Type} {P : Persistence W}.

Lemma Registry_shape st ev st' :
  Registry st -> Shape st ev st' -> Registry st'.
Proof.
  intros R Hs. destruct Hs.
  - assumption.
  - now apply Registry_connect.
  - now apply Registry_leave.
  - now apply Registry_join, Registry_leave.
  - apply Registry_join, Registry_leave. unfold dmState. now apply Registry_activeChats.
  - unfold dbIdState. now apply Registry_activeChats.
  - now apply Registry_status with (u := u).
  - apply Registry_drop; [now apply Registry_leave|].
    cbn [sock_id sock_user].
    destruct (leaveState_cases (mkSock sid u) st)
      as [[-> _] | [sd [c [t [_ [_ [_ [_ [_ ->]]]]]]]]]; assumption.
Qed.

Lemma Registry_run (L : nat) guard room st :
  Run L guard (bootState room) st -> Registry st.
Proof.
  induction 1 as [|st ev w st' e w' _ IH _ Hstep].
  - apply Registry_boot.
  - eapply Registry_shape; [exact IH|]. eapply step_shape. exact Hstep.
Qed.
End RegistryRuns.

(** ** Membership records are never evicted *)

(** [ci'] is the record [ci] up to its member set; a backing id that was
    set is kept. *)
Definition sameRecord (ci ci' : ChatInfo) : Prop :=
  chat_name ci' = chat_name ci
  /\ chat_type ci' = chat_type ci
  /\ (truthy (chat_dbId ci) = true -> chat_dbId ci' = chat_dbId ci).

Definition keepsRecords (st st' : State) : Prop :=
  forall X ci,
    JsMap.get X (activeChats st) = Some ci ->
    exists ci', JsMap.get X (activeChats st') = Some ci' /\ sameRecord ci ci'.

Lemma sameRecord_refl ci : sameRecord ci ci.
Proof. repeat split. Qed.

Lemma keepsRecords_refl st : keepsRecords st st.
Proof. intros X ci Hg. exists ci. split; [assumption | apply sameRecord_refl]. Qed.

Lemma keepsRecords_trans st1 st2 st3 :
  keepsRecords st1 st2 -> keepsRecords st2 st3 -> keepsRecords st1 st3.
Proof.
  intros H12 H23 X ci Hg.
  destruct (H12 X ci Hg) as [ci2 [Hg2 [Hn2 [Ht2 Hd2]]]].
  destruct (H23 X ci2 Hg2) as [ci3 [Hg3 [Hn3 [Ht3 Hd3]]]].
  exists ci3. split; [assumption|]. repeat split; try congruence.
  intros Htr. rewrite <- (Hd2 Htr). apply Hd3. now rewrite (Hd2 Htr).
Qed.

Lemma keepsRecords_same_chats st st' :
  activeChats st' = activeChats st -> keepsRecords st st'.
Proof. intros Heq X ci Hg. rewrite Heq. exists ci. split; [assumption | apply sameRecord_refl]. Qed.

Lemma keepsRecords_leave sock st : keepsRecords st (leaveState sock st).
Proof.
  intros X ci Hg. destruct (leaveState_record sock st X ci Hg)
    as [ci' [Hg' [Hn [Ht [Hd _]]]]].
  exists ci'. split; [assumption|]. repeat split; congruence.
Qed.

Lemma keepsRecords_join sock c t n d st : keepsRecords st (joinState sock c t n d st).
Proof.
  destruct (joinState_cases sock c t n d st) as [[_ ->] | [sd [_ ->]]];
    [apply keepsRecords_refl|].
  intros X ci Hg. cbn [activeChats]. rewrite addMember_get. unfold JsMap.has.
  destruct (JsMap.get c (activeChats st)) as [cc|] eqn:Hc.
  - rewrite Hg. eexists. split; [reflexivity|].
    destruct (String.eqb c X); repeat split.
  - rewrite JsMap_get_set. destruct (String.eqb c X) eqn:E.
    + apply String.eqb_eq in E. subst X. congruence.
    + rewrite Hg. eexists. split; [reflexivity | apply sameRecord_refl].
Qed.

Lemma keepsRecords_dm u target c n d st : keepsRecords st (dmState u target c n d st).
Proof.
  intros X ci Hg. unfold dmState, set_activeChats, JsMap.has. cbn [activeChats].
  destruct (JsMap.get c (activeChats st)) as [cc|] eqn:Hc.
  - rewrite !addMember_get, Hg. eexists. split; [reflexivity|].
    destruct (String.eqb c X); repeat split.
  - rewrite JsMap_get_set. destruct (String.eqb c X) eqn:E.
    + apply String.eqb_eq in E. subst X. congruence.
    + rewrite Hg. eexists. split; [reflexivity | apply sameRecord_refl].
Qed.

Lemma keepsRecords_dbId c ci0 d st :
  JsMap.get c (activeChats st) = Some ci0 ->
  truthy (chat_dbId ci0) = false ->
  keepsRecords st (dbIdState c ci0 d st).
Proof.
  intros Hc Hd X ci Hg. unfold dbIdState, set_activeChats. cbn [activeChats].
  rewrite JsMap_get_set. destruct (String.eqb c X) eqn:E.
  - apply String.eqb_eq in E. subst X. eexists. split; [reflexivity|].
    assert (ci0 = ci) as -> by congruence. repeat split. cbn [chat_dbId]. congruence.
  - rewrite Hg. eexists. split; [reflexivity | apply sameRecord_refl].
Qed.

Section RecordRuns.
Context {W : Type} {P : Persistence W}.

Lemma keepsRecords_shape st ev st' : Shape st ev st' -> keepsRecords st st'.
Proof.
  intros Hs. destruct Hs.
  - apply keepsRecords_refl.
  - now apply keepsRecords_same_chats.
  - apply keepsRecords_leave.
  - eapply keepsRecords_trans; [apply keepsRecords_leave | apply keepsRecords_join].
  - eapply keepsRecords_trans; [apply keepsRecords_dm|].
    eapply keepsRecords_trans; [apply keepsRecords_leave | apply keepsRecords_join].
  - now apply keepsRecords_dbId.
  - now apply keepsRecords_same_chats.
  - eapply keepsRecords_trans; [apply keepsRecords_leave|].
    now apply keepsRecords_same_chats.
Qed.

Lemma keepsRecords_run (L : nat) guard st0 st :
  Run L guard st0 st -> keepsRecords st0 st.
Proof.
  induction 1 as [|st ev w st' e w' _ IH _ Hstep].
  - apply keepsRecords_refl.
  - eapply keepsRecords_trans; [exact IH|].
    eapply keepsRecords_shape, step_shape. exact Hstep.
Qed.
End RecordRuns.

(** C9. Leaving removes the user from the member set of the chat the socket
    was in, so that the user is no longer in it and every other member still
    is, and keeps every record of [activeChats] in place: same keys in
    the same order, same name, type and backing id, other member sets
    untouched, also when the set becomes empty.  The disconnect handler
    changes [activeChats] by that leave only.  Along any run of any events,
    a record once present stays present under its key with its name and
    type, and with its backing id once that id is set. *)
Theorem leave_never_evicts_record {W : Type} `{Persistence W}
    (L : nat) (sock : Sock) (st : State) (w : W) (X : string) (ci : ChatInfo) :
  JsMap.get X (activeChats st) = Some ci ->
  let left := fst (fst (leaveCurrentChat sock st w)) in
  (exists ci',
     JsMap.get X (activeChats left) = Some ci'
     /\ chat_name ci' = chat_name ci /\ chat_type ci' = chat_type ci
     /\ chat_dbId ci' = chat_dbId ci
     /\ members ci'
        = match attachment st (sock_id sock) with
          | Some r => if String.eqb (ref_id r) X
                      then JsSet.delete (sock_userId sock) (members ci)
                      else members ci
          | None => members ci
          end
     /\ (forall r, attachment st (sock_id sock) = Some r -> ref_id r = X ->
           ~ In (sock_userId sock) (members ci')
           /\ forall v, v <> sock_userId sock ->
                        (In v (members ci') <-> In v (members ci))))
  /\ JsMap.keys (activeChats left) = JsMap.keys (activeChats st)
  /\ activeChats (fst (fst (onDisconnect sock st w))) = activeChats left
  /\ (forall guard st',
        Run L guard st st' ->
        exists ci', JsMap.get X (activeChats st') = Some ci' /\ sameRecord ci ci').
Proof.
  intros Hg left. subst left. rewrite leaveCurrentChat_state. repeat split.
  - destruct (leaveState_record sock st X ci Hg) as [ci' [Hg' [Hn [Ht [Hd Hm]]]]].
    exists ci'. do 5 (split; [assumption|]).
    intros r Hr HX. rewrite Hm, Hr, HX, String.eqb_refl. split.
    + intros Hin. apply JsSet_In_delete in Hin as [Hne _]. now apply Hne.
    + intros v Hv. rewrite JsSet_In_delete. tauto.
  - apply leaveState_keys.
  - now rewrite onDisconnect_state.
  - intros guard st' Hrun. now apply (keepsRecords_run L guard st st' Hrun).
Qed.

(** ** Member sets against attachments *)

(** Every stored attachment has a type the handlers recognise. *)
Definition TypesOK (st : State) : Prop :=
  forall sid sd c,
    JsMap.get sid (connectedSockets st) = Some sd ->
    currentChatId sd = Some c ->
    exists t, currentChatType sd = Some t /\ truthy t = true.

(** Every member of a chat whose id is not empty owns a connection attached
    to the chat. *)
Definition MembersAttached (st : State) : Prop :=
  forall X u, truthy X = true -> In u (membersOf st X) -> hasAttached st u X.


(** [sid] is attached to no chat that a leave would take it out of. *)
Definition Detached (st : State) (sid : string) : Prop :=
  forall sd c,
    JsMap.get sid (connectedSockets st) = Some sd ->
    currentChatId sd = Some c -> truthy c = false.

(** The waiting join requests: at most one per socket, each of a socket
    that is detached, each with a type that is not empty. *)
Record PendingOK (c : Config) : Prop := {
  pend_nodup : NoDup (map pend_sid (cfg_pending c));
  pend_free : forall p, In p (cfg_pending c) -> Detached (cfg_state c) (pend_sid p);
  pend_typed : forall p, In p (cfg_pending c) -> truthy (pend_type p) = true
}.

Lemma membersOf_dbIdState c ci d st X :
  JsMap.get c (activeChats st) = Some ci ->
  membersOf (dbIdState c ci d st) X = membersOf st X.
Proof.
  intros Hc. unfold membersOf, dbIdState, set_activeChats. cbn [activeChats].
  rewrite JsMap_get_set. destruct (String.eqb c X) eqn:E; [|reflexivity].
  apply String.eqb_eq in E. subst X. now rewrite Hc.
Qed.

Lemma joinState_other_sockets sock c t n d st sid' :
  sid' <> sock_id sock ->
  JsMap.get sid' (connectedSockets (joinState sock c t n d st))
  = JsMap.get sid' (connectedSockets st).
Proof.
  intros Hne. destruct (joinState_cases sock c t n d st) as [[_ ->] | [sd [_ ->]]];
    [reflexivity|].
  cbn [connectedSockets]. apply JsMap_get_set_other. congruence.
Qed.

Lemma leaveState_socketUser sock st : socketUser (leaveState sock st) = socketUser st.
Proof.
  destruct (leaveState_cases sock st)
    as [[-> _] | [sd [c [t [_ [_ [_ [_ [_ ->]]]]]]]]]; reflexivity.
Qed.

Lemma leave_detached sock st :
  TypesOK st -> Detached (leaveState sock st) (sock_id sock).
Proof.
  intros T sd c. destruct (leaveState_cases sock st)
    as [[-> Hatt] | [sd0 [c0 [t0 [Hg [_ [_ [_ [_ ->]]]]]]]]].
  - intros Hg Hc. destruct (T _ _ _ Hg Hc) as [t [Ht Htt]].
    unfold attachment in Hatt. rewrite Hg, Hc, Ht, Htt, andb_true_r in Hatt.
    now destruct (truthy c).
  - cbn [connectedSockets]. rewrite JsMap_get_set_same. intros [= <-]. discriminate.
Qed.

Lemma Detached_frame st st' sid :
  JsMap.get sid (connectedSockets st') = JsMap.get sid (connectedSockets st) ->
  Detached st sid -> Detached st' sid.
Proof. intros Heq D sd c. rewrite Heq. apply D. Qed.

Lemma pendingOn_In c sid :
  pendingOn c sid = true <-> In sid (map pend_sid (cfg_pending c)).
Proof.
  unfold pendingOn. rewrite existsb_exists, in_map_iff. split.
  - intros [p [Hp E]]. apply String.eqb_eq in E. now exists p.
  - intros [p [E Hp]]. exists p. split; [assumption|]. now apply String.eqb_eq.
Qed.

(** An event that touches the entry of one socket at most keeps the waiting
    requests in order. *)
Lemma PendingOK_frame c st' sid0 :
  PendingOK c ->
  (forall sid, sid <> sid0 ->
     JsMap.get sid (connectedSockets st') = JsMap.get sid (connectedSockets (cfg_state c))) ->
  (pendingOn c sid0 = true -> Detached st' sid0) ->
  PendingOK (mkConfig st' (cfg_pending c)).
Proof.
  intros [Hnd Hfree Htyp] Hframe Hown. split; cbn [cfg_state cfg_pending]; auto.
  intros p Hp. destruct (string_dec (pend_sid p) sid0) as [E|E].
  - rewrite E. apply Hown. apply pendingOn_In. rewrite <- E. now apply in_map.
  - apply (Detached_frame (cfg_state c)); [now apply Hframe | now apply Hfree].
Qed.

Lemma PendingOK_sockets c st' :
  PendingOK c -> connectedSockets st' = connectedSockets (cfg_state c) ->
  PendingOK (mkConfig st' (cfg_pending c)).
Proof.
  intros Hp Heq. apply (PendingOK_frame c st' ""); auto.
  - intros sid _. now rewrite Heq.
  - intros Hon. apply pendingOn_In, in_map_iff in Hon as [p [E Hin]].
    apply (Detached_frame (cfg_state c)); [now rewrite Heq|].
    rewrite <- E. now apply (pend_free c Hp).
Qed.

Lemma NoDup_snoc {A} (l : list A) x : NoDup l -> ~ In x l -> NoDup (l ++ [x]).
Proof.
  induction l as [|y r IH]; intros Hnd Hx; cbn.
  - constructor; [intros [] | constructor].
  - inversion Hnd; subst. constructor.
    + rewrite in_app_iff. intros [?|[->|[]]]; [contradiction|]. apply Hx. now left.
    + apply IH; [assumption|]. intros ?. apply Hx. now right.
Qed.

Lemma removeAt_In {A} i (l : list A) x : In x (removeAt i l) -> In x l.
Proof.
  revert i. induction l as [|y r IH]; intros [|j]; cbn; auto.
  intros [->|Hin]; eauto.
Qed.

Lemma removeAt_NoDup {A B} (f : A -> B) i (l : list A) p :
  NoDup (map f l) -> nth_error l i = Some p ->
  NoDup (map f (removeAt i l))
  /\ forall q, In q (removeAt i l) -> f q <> f p.
Proof.
  revert i. induction l as [|y r IH]; intros [|j] Hnd Hn; cbn in *; try discriminate.
  - injection Hn as ->. inversion Hnd as [|? ? Hnot Hrest]; subst. split; [assumption|].
    intros q Hq E. apply Hnot. rewrite <- E. now apply in_map.
  - inversion Hnd as [|? ? Hnot Hrest]; subst.
    destruct (IH j Hrest Hn) as [Hnd' Hne]. split.
    + constructor; [|assumption]. intros Hin. apply in_map_iff in Hin as [q [E Hq]].
      apply Hnot. rewrite <- E. apply in_map. now apply removeAt_In in Hq.
    + intros q [<-|Hq]; [|now apply Hne].
      intros E. apply Hnot. rewrite E. apply in_map. now apply nth_error_In in Hn.
Qed.

Section PartA.
(** Members without an attached connection never appear as long as no
    ['initiate dm'] is handled and the join requests of a socket do not
    overlap. *)

Lemma InvA_leave sid u st :
  Registry st -> JsMap.get sid (socketUser st) = Some u ->
  TypesOK st -> MembersAttached st ->
  TypesOK (leaveState (mkSock sid u) st)
  /\ MembersAttached (leaveState (mkSock sid u) st).
Proof.
  intros R Hu T M.
  destruct (leaveState_cases (mkSock sid u) st)
    as [[-> _] | [sd [c [t [Hg [Hc [Ht [_ [_ ->]]]]]]]]]; [now split|].
  cbn [sock_id sock_userId sock_user] in *.
  pose proof (Registry_sock st sid u sd R Hu Hg) as Hown. split.
  - intros sid' sd' c'. cbn [connectedSockets]. rewrite JsMap_get_set.
    destruct (String.eqb sid sid'); [intros [= <-]; discriminate | apply T].
  - intros X v HX. rewrite membersOf_removeMember. intros Hv.
    assert (In v (membersOf st X) /\ (c = X -> v <> user_id u)) as [Hin Hne].
    { destruct (String.eqb c X) eqn:E.
      - apply JsSet_In_delete in Hv as [? ?]. split; auto.
      - apply String.eqb_neq in E. split; [assumption | contradiction]. }
    destruct (M X v HX Hin) as [sid' [sd' [Hg' [Ho' Hc']]]].
    assert (sid' <> sid) as Hsid.
    { intros ->. assert (sd' = sd) as -> by congruence.
      apply Hne; congruence. }
    exists sid', sd'. cbn [connectedSockets].
    rewrite JsMap_get_set_other by congruence. auto.
Qed.

Lemma InvA_join sock c t n d st :
  (forall sd, JsMap.get (sock_id sock) (connectedSockets st) = Some sd ->
              sd_userId sd = sock_userId sock) ->
  truthy t = true ->
  Detached st (sock_id sock) ->
  TypesOK st -> MembersAttached st ->
  TypesOK (joinState sock c t n d st)
  /\ MembersAttached (joinState sock c t n d st).
Proof.
  intros Hown Htt Hfree T M.
  destruct (joinState_cases sock c t n d st) as [[_ ->] | [sd [Hg ->]]];
    [now split|].
  specialize (Hown sd Hg). split.
  - intros sid' sd' c'. cbn [connectedSockets]. rewrite JsMap_get_set.
    destruct (String.eqb (sock_id sock) sid'); [|apply T].
    intros [= <-]. cbn [currentChatId currentChatType]. intros _. eauto.
  - intros X v HX. rewrite membersOf_join_target. intros Hv.
    assert ((c = X /\ v = sock_userId sock) \/ In v (membersOf st X)) as [[-> ->]|Hin].
    { destruct (String.eqb c X) eqn:E; [|now right].
      apply String.eqb_eq in E. apply JsSet_In_add in Hv as [->|?]; auto. }
    + exists (sock_id sock). eexists. cbn [connectedSockets]. rewrite JsMap_get_set_same.
      split; [reflexivity|]. cbn. auto.
    + destruct (M X v HX Hin) as [sid' [sd' [Hg' [Ho' Hc']]]].
      assert (sid' <> sock_id sock) as Hsid.
      { intros ->. rewrite (Hfree sd' X Hg' Hc') in HX. discriminate. }
      exists sid', sd'. cbn [connectedSockets].
      rewrite JsMap_get_set_other by congruence. auto.
Qed.

Lemma InvA_same st st' :
  connectedSockets st' = connectedSockets st ->
  (forall X, membersOf st' X = membersOf st X) ->
  TypesOK st -> MembersAttached st ->
  TypesOK st' /\ MembersAttached st'.
Proof.
  intros Hcs Hm T M. split.
  - intros sid sd c. rewrite Hcs. apply T.
  - intros X v HX. rewrite Hm. intros Hv.
    destruct (M X v HX Hv) as [sid [sd Hw]]. exists sid, sd. now rewrite Hcs.
Qed.

Lemma InvA_connect sid user st :
  Registry st -> JsMap.get sid (socketUser st) = None ->
  TypesOK st -> MembersAttached st ->
  TypesOK (connectState (mkSock sid user) st)
  /\ MembersAttached (connectState (mkSock sid user) st).
Proof.
  intros R Hfresh T M. pose proof (Registry_fresh st sid R Hfresh) as Hnone.
  unfold connectState. cbn [sock_id]. split.
  - intros sid' sd' c'. cbn [connectedSockets]. rewrite JsMap_get_set.
    destruct (String.eqb sid sid'); [intros [= <-]; discriminate | apply T].
  - intros X v HX Hv. destruct (M X v HX Hv) as [sid' [sd' [Hg' Hw]]].
    exists sid', sd'. cbn [connectedSockets].
    rewrite JsMap_get_set_other by congruence. auto.
Qed.

Lemma InvA_drop sid u st :
  Detached st sid ->
  TypesOK st -> MembersAttached st ->
  TypesOK (dropState (mkSock sid u) st)
  /\ MembersAttached (dropState (mkSock sid u) st).
Proof.
  intros Hfree T M. unfold dropState. cbn [sock_id]. split.
  - intros sid' sd' c'. cbn [connectedSockets]. rewrite JsMap_get_delete.
    destruct (String.eqb sid sid'); [discriminate | apply T].
  - intros X v HX Hv. destruct (M X v HX Hv) as [sid' [sd' [Hg' [Ho' Hc']]]].
    exists sid', sd'. cbn [connectedSockets]. rewrite JsMap_get_delete.
    destruct (String.eqb sid sid') eqn:E; [|auto].
    apply String.eqb_eq in E. subst sid'.
    rewrite (Hfree sd' X Hg' Hc') in HX. discriminate.
Qed.
End PartA.

Section PartB.
(** Attached owners stay members as long as no connection leaves a chat
    that another connection of its owner is attached to. *)






End PartB.

Lemma Registry_owner st sock :
  Registry st ->
  (exists u, JsMap.get (sock_id sock) (socketUser st) = Some u
             /\ user_id u = sock_userId sock)
  \/ JsMap.get (sock_id sock) (socketUser st) = None ->
  forall sd, JsMap.get (sock_id sock) (connectedSockets st) = Some sd ->
             sd_userId sd = sock_userId sock.
Proof.
  intros R [[u [Hu Hid]] | Hnone] sd Hsd.
  - rewrite <- Hid. now apply (Registry_sock st (sock_id sock)).
  - rewrite (Registry_fresh st _ R Hnone) in Hsd. discriminate.
Qed.

Section MembershipRuns.
Context {W : Type} {P : Persistence W}.
Variable L : nat.

Lemma joinBegin_state sock data st w :
  let r := joinBegin L sock data st w in
  (wellFormedJoin data = false /\ fst (fst (fst r)) = st /\ snd r = None)
  \/ (wellFormedJoin data = true
      /\ fst (fst (fst r)) = leaveState sock st
      /\ forall d, snd r = Some d -> truthy (jd_type d) = true).
Proof.
  unfold joinBegin, wellFormedJoin. cbv zeta.
  destruct data as [d|]; [|now left].
  destruct (truthy (jd_type d)) eqn:Ht; [|now left].
  destruct (truthy (jd_id d)) eqn:Hi; [|now left].
  cbn [negb orb andb]. right. split; [reflexivity|].
  rewrite <- (leaveCurrentChat_state sock st w).
  destruct (leaveCurrentChat sock st w) as [[st1 e1] w1]. cbn [fst snd].
  destruct (String.eqb (jd_type d) "room"
            || String.eqb (jd_type d) "direct" && isValidObjectId (jd_id d)) eqn:Hw.
  - cbn [fst snd]. split; [reflexivity|]. now intros d0 [= <-].
  - cbn [snd]. split; [|discriminate].
    unfold joinResume. cbv zeta. apply orb_false_elim in Hw as [Hr Hd]. rewrite Hr.
    destruct (String.eqb (jd_type d) "direct"); [|reflexivity].
    cbn [andb] in Hd. rewrite Hd. reflexivity.
Qed.

(** The handler run to completion is its first half followed by its second
    half. *)
Lemma joinBegin_resume sock data st w :
  onJoinChat L sock data st w
  = match joinBegin L sock data st w with
    | (out, None) => out
    | (((st1, e1), w1), Some d) => joinResume L sock (jd_type d) (jd_id d) st1 e1 w1
    end.
Proof.
  unfold onJoinChat, joinBegin. cbv zeta.
  destruct data as [d|]; [|reflexivity].
  destruct (negb (truthy (jd_type d)) || negb (truthy (jd_id d))); [reflexivity|].
  destruct (leaveCurrentChat sock st w) as [[st1 e1] w1].
  destruct (String.eqb (jd_type d) "room"
            || String.eqb (jd_type d) "direct" && isValidObjectId (jd_id d));
    [reflexivity|].
  now destruct (joinResume L sock (jd_type d) (jd_id d) st1 e1 w1) as [[s2 e2] w2].
Qed.

Lemma onJoinChat_malformed sock data st w :
  wellFormedJoin data = false -> fst (fst (onJoinChat L sock data st w)) = st.
Proof.
  unfold onJoinChat, wellFormedJoin. cbv zeta. destruct data as [d|]; [|reflexivity].
  intros Hw. apply andb_false_iff in Hw.
  destruct (truthy (jd_type d)); destruct (truthy (jd_id d)); cbn [negb orb];
    try reflexivity.
  destruct Hw; discriminate.
Qed.

Lemma Registry_astep aev c w c' e w' :
  Registry (cfg_state c) ->
  astep L aev c w = Some ((c', e), w') -> Registry (cfg_state c').
Proof.
  intros R. destruct aev as [ev|sid data|i]; cbn [astep].
  - destruct (step L ev (cfg_state c) w) as [[[st1 e1] w1]|] eqn:Hstep; [|discriminate].
    intros [= <- _ _]. cbn [cfg_state].
    eapply Registry_shape; [exact R|]. eapply step_shape. exact Hstep.
  - destruct (JsMap.get sid (socketUser (cfg_state c))) as [u|]; [|discriminate].
    pose proof (joinBegin_state (mkSock sid u) data (cfg_state c) w) as Hb.
    destruct (joinBegin L (mkSock sid u) data (cfg_state c) w) as [[[st1 e1] w1] o].
    cbn [fst snd] in Hb.
    assert (Registry st1) as R1.
    { destruct Hb as [[_ [-> _]] | [_ [-> _]]]; [assumption | now apply Registry_leave]. }
    destruct o; intros [= <- _ _]; exact R1.
  - destruct (nth_error (cfg_pending c) i) as [p|]; [|discriminate].
    cbv zeta.
    match goal with
    | |- context [joinResume L ?s ?t ?r ?st0 ?pre w] =>
        pose proof (joinResume_state L s t r st0 pre w) as Hr;
        destruct (joinResume L s t r st0 pre w) as [[st1 e1] w1]
    end.
    cbn [fst] in Hr. intros [= <- _ _]. cbn [cfg_state].
    destruct Hr as [-> | [x [n [d ->]]]]; [assumption | now apply Registry_join].
Qed.

(** What every whole event and every join keeps true stays true along the
    runs with overlapping joins. *)
Lemma astep_preserves (Q : State -> Prop) aev c w c' e w' :
  (forall st ev st', Q st -> Shape st ev st' -> Q st') ->
  (forall sock x t n d st, Q st -> Q (joinState sock x t n d st)) ->
  Q (cfg_state c) ->
  astep L aev c w = Some ((c', e), w') -> Q (cfg_state c').
Proof.
  intros Hshape Hjoin HQ. destruct aev as [ev|sid data|i]; cbn [astep].
  - destruct (step L ev (cfg_state c) w) as [[[st1 e1] w1]|] eqn:Hstep; [|discriminate].
    intros [= <- _ _]. cbn [cfg_state].
    eapply Hshape; [exact HQ|]. eapply step_shape. exact Hstep.
  - destruct (JsMap.get sid (socketUser (cfg_state c))) as [u|] eqn:Hu; [|discriminate].
    pose proof (joinBegin_state (mkSock sid u) data (cfg_state c) w) as Hb.
    destruct (joinBegin L (mkSock sid u) data (cfg_state c) w) as [[[st1 e1] w1] o].
    cbn [fst snd] in Hb.
    assert (Q st1) as H1.
    { destruct Hb as [[_ [-> _]] | [_ [-> _]]]; [assumption|].
      apply (Hshape (cfg_state c) (JoinChat sid data)); [assumption | now apply Sh_leave]. }
    destruct o; intros [= <- _ _]; exact H1.
  - destruct (nth_error (cfg_pending c) i) as [p|]; [|discriminate].
    cbv zeta.
    match goal with
    | |- context [joinResume L ?s ?t ?r ?st0 ?pre w] =>
        pose proof (joinResume_state L s t r st0 pre w) as Hr;
        destruct (joinResume L s t r st0 pre w) as [[st1 e1] w1]
    end.
    cbn [fst] in Hr. intros [= <- _ _]. cbn [cfg_state].
    destruct Hr as [-> | [x [n [d ->]]]]; [assumption | now apply Hjoin].
Qed.

Lemma arun_preserves (Q : State -> Prop) guard room c :
  (forall st ev st', Q st -> Shape st ev st' -> Q st') ->
  (forall sock x t n d st, Q st -> Q (joinState sock x t n d st)) ->
  Q (bootState room) ->
  ARun L guard (bootConfig room) c -> Q (cfg_state c).
Proof.
  intros Hshape Hjoin Hboot.
  induction 1 as [|c aev w c' e w' _ IH _ Hstep]; [exact Hboot|].
  eapply astep_preserves; eassumption.
Qed.

Lemma Registry_arun guard room c :
  ARun L guard (bootConfig room) c -> Registry (cfg_state c).
Proof.
  induction 1 as [|c aev w c' e w' _ IH _ Hstep].
  - apply Registry_boot.
  - eapply Registry_astep; eassumption.
Qed.

(** The socket the second half of a waiting request runs for. *)
Definition resumeSock (st : State) (p : Pending) : Sock :=
  mkSock (pend_sid p)
    (match JsMap.get (pend_sid p) (socketUser st) with
     | Some u => u
     | None => pend_user p
     end).

Lemma resumeSock_owner st p :
  Registry st ->
  forall sd, JsMap.get (pend_sid p) (connectedSockets st) = Some sd ->
             sd_userId sd = sock_userId (resumeSock st p).
Proof.
  intros R. apply (Registry_owner st (resumeSock st p) R).
  unfold resumeSock. cbn [sock_id sock_userId sock_user].
  destruct (JsMap.get (pend_sid p) (socketUser st)) as [u|] eqn:Hu; [left|now right].
  now exists u.
Qed.

Record InvA (c : Config) : Prop := {
  invA_types : TypesOK (cfg_state c);
  invA_members : MembersAttached (cfg_state c);
  invA_pending : PendingOK c
}.

Lemma InvA_boot room : InvA (bootConfig room).
Proof.
  split.
  - intros sid sd c Hg. discriminate Hg.
  - intros X u _. unfold membersOf, bootConfig, bootState. cbn [cfg_state activeChats JsMap.get].
    destruct (String.eqb X (room_name room)); contradiction.
  - split; cbn; [constructor | contradiction | contradiction].
Qed.

Lemma InvA_whole ev c w st' e w' :
  Registry (cfg_state c) -> InvA c ->
  oneJoinNoDm c (Whole ev) = true ->
  step L ev (cfg_state c) w = Some ((st', e), w') ->
  InvA (mkConfig st' (cfg_pending c)).
Proof.
  intros R [T M Pn] Hguard Hstep.
  assert (forall s, TypesOK s /\ MembersAttached s ->
                    PendingOK (mkConfig s (cfg_pending c)) ->
                    InvA (mkConfig s (cfg_pending c))) as Hmk
      by (intros s [? ?] ?; now split).
  destruct (match ev with JoinChat _ data => wellFormedJoin data | _ => true end) eqn:Hwf.
  2:{ destruct ev as [| sid data | | | | | |]; try discriminate.
      cbn [step] in Hstep. unfold withSock in Hstep.
      destruct (JsMap.get sid (socketUser (cfg_state c))) as [u|]; [|discriminate].
      injection Hstep as Hstep.
      pose proof (onJoinChat_malformed (mkSock sid u) data (cfg_state c) w Hwf) as Hs.
      rewrite Hstep in Hs. cbn [fst] in Hs. subst st'. destruct c; now split. }
  pose proof (step_shape L _ _ _ _ _ _ Hstep) as Hsh.
  destruct Hsh as [ev | sid user Hfresh | sid data u Hu | sid data u x t n d Hu Ht
                   | sid target u x n d Hu | sid m x ci d Hx Hd
                   | sid data u u' Hu Hid | sid u Hu].
  - destruct c; now split.
  - apply Hmk; [now apply InvA_connect|].
    apply (PendingOK_frame c _ sid Pn).
    + intros sid' Hne. unfold connectState. cbn [connectedSockets sock_id].
      apply JsMap_get_set_other. congruence.
    + intros _ sd x. unfold connectState. cbn [connectedSockets sock_id].
      rewrite JsMap_get_set_same. intros [= <-]. discriminate.
  - cbn [oneJoinNoDm] in Hguard. rewrite Hwf in Hguard. cbn [andb] in Hguard.
    apply negb_true_iff in Hguard.
    apply Hmk; [now apply InvA_leave|].
    apply (PendingOK_frame c _ sid Pn); [|congruence].
    intros sid' Hne. now apply (leaveState_other_sockets (mkSock sid u)).
  - cbn [oneJoinNoDm] in Hguard. rewrite Hwf in Hguard. cbn [andb] in Hguard.
    apply negb_true_iff in Hguard.
    destruct (InvA_leave sid u _ R Hu T M) as [T1 M1].
    apply Hmk.
    + apply InvA_join; auto.
      * apply Registry_owner; [now apply Registry_leave|].
        left. exists u. now rewrite leaveState_socketUser.
      * now apply (leave_detached (mkSock sid u)).
    + apply (PendingOK_frame c _ sid Pn); [|congruence].
      intros sid' Hne.
      rewrite (joinState_other_sockets (mkSock sid u)) by assumption.
      now apply (leaveState_other_sockets (mkSock sid u)).
  - discriminate Hguard.
  - apply Hmk; [|now apply PendingOK_sockets].
    apply (InvA_same (cfg_state c)); auto.
    intros X. now apply membersOf_dbIdState.
  - apply Hmk; [|now apply PendingOK_sockets].
    now apply (InvA_same (cfg_state c)).
  - destruct (InvA_leave sid u _ R Hu T M) as [T1 M1].
    apply Hmk.
    + apply InvA_drop; auto. now apply (leave_detached (mkSock sid u)).
    + apply (PendingOK_frame c _ sid Pn).
      * intros sid' Hne. unfold dropState. cbn [connectedSockets sock_id].
        rewrite JsMap_get_delete.
        assert (String.eqb sid sid' = false) as -> by (apply String.eqb_neq; congruence).
        now apply (leaveState_other_sockets (mkSock sid u)).
      * intros _ sd x. unfold dropState. cbn [connectedSockets sock_id].
        rewrite JsMap_get_delete, String.eqb_refl. discriminate.
Qed.

Lemma InvA_astep aev c w c' e w' :
  Registry (cfg_state c) -> InvA c ->
  oneJoinNoDm c aev = true ->
  astep L aev c w = Some ((c', e), w') -> InvA c'.
Proof.
  intros R I Hguard. destruct aev as [ev|sid data|i]; cbn [astep].
  - destruct (step L ev (cfg_state c) w) as [[[st1 e1] w1]|] eqn:Hstep; [|discriminate].
    intros [= <- _ _]. eapply InvA_whole; eassumption.
  - destruct I as [T M Pn].
    destruct (JsMap.get sid (socketUser (cfg_state c))) as [u|] eqn:Hu; [|discriminate].
    pose proof (joinBegin_state (mkSock sid u) data (cfg_state c) w) as Hb.
    destruct (joinBegin L (mkSock sid u) data (cfg_state c) w) as [[[st1 e1] w1] o].
    cbn [fst snd] in Hb.
    destruct Hb as [[_ [-> ->]] | [Hwf [-> Hd]]].
    + intros [= <- _ _]. destruct c; now split.
    + cbn [oneJoinNoDm] in Hguard. rewrite Hwf in Hguard. cbn [andb] in Hguard.
      apply negb_true_iff in Hguard.
      destruct (InvA_leave sid u _ R Hu T M) as [T1 M1].
      assert (PendingOK (mkConfig (leaveState (mkSock sid u) (cfg_state c))
                           (cfg_pending c))) as P1.
      { apply (PendingOK_frame c _ sid Pn); [|congruence].
        intros sid' Hne. now apply (leaveState_other_sockets (mkSock sid u)). }
      destruct o as [d|]; intros [= <- _ _]; [|now split].
      split; cbn [cfg_state cfg_pending]; auto.
      destruct P1 as [Hnd Hfree Htyp]. cbn [cfg_state cfg_pending] in *.
      split; cbn [cfg_state cfg_pending].
      * rewrite map_app. cbn [map pend_sid].
        apply NoDup_snoc; [assumption|].
        intros Hin. apply pendingOn_In in Hin. congruence.
      * intros p Hp. apply in_app_or in Hp as [Hp | [<- | []]]; [now apply Hfree|].
        cbn [pend_sid]. now apply (leave_detached (mkSock sid u)).
      * intros p Hp. apply in_app_or in Hp as [Hp | [<- | []]]; [now apply Htyp|].
        cbn [pend_type]. now apply Hd.
  - destruct I as [T M [Hnd Hfree Htyp]].
    destruct (nth_error (cfg_pending c) i) as [p|] eqn:Hp; [|discriminate].
    cbv zeta. fold (resumeSock (cfg_state c) p).
    pose proof (joinResume_state L (resumeSock (cfg_state c) p) (pend_type p) (pend_id p)
                  (cfg_state c) [] w) as Hr.
    destruct (joinResume L (resumeSock (cfg_state c) p) (pend_type p) (pend_id p)
                (cfg_state c) [] w) as [[st1 e1] w1].
    cbn [fst] in Hr. intros [= <- _ _].
    destruct (removeAt_NoDup pend_sid i _ p Hnd Hp) as [Hnd' Hother].
    pose proof (nth_error_In _ _ Hp) as Hin.
    destruct Hr as [-> | [x [n [d ->]]]].
    + split; cbn [cfg_state cfg_pending]; auto. split; cbn [cfg_state cfg_pending]; auto.
      * intros q Hq. apply Hfree. now apply removeAt_In in Hq.
      * intros q Hq. apply Htyp. now apply removeAt_In in Hq.
    + assert (TypesOK (joinState (resumeSock (cfg_state c) p) x (pend_type p) n d
                         (cfg_state c))
              /\ MembersAttached (joinState (resumeSock (cfg_state c) p) x (pend_type p) n d
                                    (cfg_state c))) as [T1 M1].
      { apply InvA_join; auto.
        - now apply resumeSock_owner.
        - now apply Hfree. }
      split; cbn [cfg_state cfg_pending]; auto. split; cbn [cfg_state cfg_pending]; auto.
      * intros q Hq. apply (Detached_frame (cfg_state c)).
        -- apply joinState_other_sockets. cbn [resumeSock sock_id]. now apply Hother.
        -- apply Hfree. now apply removeAt_In in Hq.
      * intros q Hq. apply Htyp. now apply removeAt_In in Hq.
Qed.


Lemma members_attached_run room c :
  ARun L oneJoinNoDm (bootConfig room) c -> InvA c.
Proof.
  induction 1 as [|c aev w c' e w' Hrun IH Hguard Hstep].
  - apply InvA_boot.
  - eapply InvA_astep; try eassumption. eapply Registry_arun. exact Hrun.
Qed.

Lemma sharedAttachment_activeChats st ac sid :
  sharedAttachment (set_activeChats st ac) sid = sharedAttachment st sid.
Proof. reflexivity. Qed.




(** A run of whole events is a run of the configurations with no request
    waiting. *)
Lemma Run_ARun (g : State -> Event -> Prop) (ag : Config -> AEvent -> bool) st0 st :
  (forall s ev, g s ev -> ag (mkConfig s []) (Whole ev) = true) ->
  Run L g st0 st -> ARun L ag (mkConfig st0 []) (mkConfig st []).
Proof.
  intros Hg. induction 1 as [|st ev w st' e w' _ IH Hguard Hstep].
  - apply ARun_start.
  - eapply (ARun_step L ag _ _ (Whole ev) w _ e w'); [exact IH | now apply Hg|].
    cbn [astep cfg_state cfg_pending]. now rewrite Hstep.
Qed.

(** Running a concrete trace whose events pass the guard. *)
Fixpoint traceOk (guard : State -> Event -> Prop) (evs : list Event)
    (st : State) (w : W) : Prop :=
  match evs with
  | [] => True
  | ev :: rest =>
      guard st ev
      /\ match step L ev st w with
         | Some ((st1, _), w1) => traceOk guard rest st1 w1
         | None => False
         end
  end.

Lemma Run_of_trace guard st0 evs : forall st w,
  traceOk guard evs st w ->
  Run L guard st0 st ->
  exists st' e w', runTrace L evs st w = Some ((st', e), w') /\ Run L guard st0 st'.
Proof.
  induction evs as [|ev rest IH]; intros st w Hok Hrun; cbn [runTrace].
  - eauto.
  - destruct Hok as [Hg Hrest].
    destruct (step L ev st w) as [[[st1 e1] w1]|] eqn:Hstep; [|contradiction].
    destruct (IH st1 w1 Hrest) as [st' [e [w' [Hr Hrun']]]].
    + eapply Run_step; eauto.
    + rewrite Hr. eauto.
Qed.

Lemma ARun_of_trace guard c0 evs : forall c w,
  atraceOk L guard evs c w = true ->
  ARun L guard c0 c ->
  exists c' e w', arunTrace L evs c w = Some ((c', e), w') /\ ARun L guard c0 c'.
Proof.
  induction evs as [|aev rest IH]; intros c w Hok Hrun; cbn [arunTrace].
  - eauto.
  - cbn [atraceOk] in Hok. apply andb_true_iff in Hok as [Hg Hrest].
    destruct (astep L aev c w) as [[[c1 e1] w1]|] eqn:Hstep; [|discriminate].
    destruct (IH c1 w1 Hrest) as [c' [e [w' [Hr Hrun']]]].
    + eapply ARun_step; eauto.
    + rewrite Hr. eauto.
Qed.
End MembershipRuns.


(** ** The effects of leaving and joining, case by case *)

Lemma joinedOf_app a b : joinedOf (a ++ b) = joinedOf a ++ joinedOf b.
Proof. unfold joinedOf. apply flat_map_app. Qed.

Section EffectCases.
Context {W : Type} `{Persistence W}.

Lemma leaveCurrentChat_cases sock st w :
  leaveCurrentChat sock st w = ((st, []), w)
  \/ exists c t b st2,
       (b = ([], w) \/ exists s, b = broadcastUserListUpdate s c w)
       /\ leaveCurrentChat sock st w
          = ((st2,
              Leave (sock_id sock) c :: fst b ++
              [Emit (IoTo c) "stop typing"
                 (PStopTyping (sock_userId sock) (mkChatRef t c))]), snd b).
Proof.
  unfold leaveCurrentChat.
  destruct (JsMap.get (sock_id sock) (connectedSockets st)) as [sd|]; [|now left].
  destruct (currentChatId sd) as [c|]; [|now left].
  destruct (currentChatType sd) as [t|]; [|now left].
  destruct (truthy c && truthy t); [|now left].
  right. exists c, t.
  match goal with
  | |- context [let '(e, w1) := ?x in _] =>
      exists x; destruct x as [e w1] eqn:Hx; eexists; split; [|reflexivity]
  end.
  revert Hx. repeat break_match; intros <-; eauto.
Qed.

Lemma joinSocketToChat_cases sock c t n d st w :
  (exists st1 e, joinSocketToChat sock c t n d st w = ((st1, e), w)
                 /\ (e = [] \/ e = [Join (sock_id sock) c]))
  \/ exists b st1 s p,
       b = broadcastUserListUpdate s c w
       /\ joinSocketToChat sock c t n d st w
          = ((st1,
              Join (sock_id sock) c :: fst b ++
              [Emit (SocketTo (sock_id sock) c) "presence update" p]), snd b).
Proof.
  unfold joinSocketToChat.
  destruct (JsMap.get (sock_id sock) (connectedSockets st)) as [sd|]; [|left; eauto].
  destruct (String.eqb t "room"); [|left; eauto].
  right.
  match goal with
  | |- context [let '(e, w1) := ?x in _] =>
      exists x; destruct x as [e w1] eqn:Hx
  end.
  do 3 eexists. split; [symmetry; exact Hx | reflexivity].
Qed.

Lemma joinedOf_broadcastUserListUpdate st room w :
  joinedOf (fst (broadcastUserListUpdate st room w)) = [].
Proof.
  unfold broadcastUserListUpdate.
  repeat (break_match; cbn [fst]; try reflexivity).
Qed.

Lemma joinedOf_leave sock st w :
  joinedOf (snd (fst (leaveCurrentChat sock st w))) = [].
Proof.
  destruct (leaveCurrentChat_cases sock st w)
    as [-> | [c [t [b [st2 [Hb ->]]]]]]; [reflexivity|].
  cbn [fst snd]. change (joinedOf (Leave ?x ?y :: ?l)) with (joinedOf l).
  rewrite joinedOf_app. cbn [joinedOf flat_map app]. rewrite app_nil_r.
  destruct Hb as [-> | [s ->]]; [reflexivity | apply joinedOf_broadcastUserListUpdate].
Qed.

Lemma joinedOf_joinSocketToChat sock c t n d st w :
  joinedOf (snd (fst (joinSocketToChat sock c t n d st w))) = [].
Proof.
  destruct (joinSocketToChat_cases sock c t n d st w)
    as [[st1 [e [-> [-> | ->]]]] | [b [st1 [s [p [-> ->]]]]]]; try reflexivity.
  cbn [fst snd]. change (joinedOf (Join ?x ?y :: ?l)) with (joinedOf l).
  rewrite joinedOf_app. cbn [joinedOf flat_map app]. rewrite app_nil_r.
  apply joinedOf_broadcastUserListUpdate.
Qed.

Lemma joinedOf_getRecentMessages L sid d w :
  joinedOf (snd (fst (getRecentMessages L sid d w))) = [].
Proof.
  unfold getRecentMessages. repeat (break_match; cbn [fst snd]; try reflexivity).
Qed.

Lemma completeJoin_effects L sock t c n a d isNew st pre w :
  exists mid users,
    snd (fst (completeJoin L sock t c n a d isNew st pre w))
    = pre ++ mid ++
      [Emit (SocketEmit (sock_id sock)) "joined chat"
         (PJoined (mkChatRef t c) n a users
            (fst (fst (getRecentMessages L (sock_id sock) d
                         (snd (joinSocketToChat sock c t n d st w))))) isNew)]
    /\ joinedOf mid = [].
Proof.
  unfold completeJoin.
  pose proof (joinedOf_joinSocketToChat sock c t n d st w) as Hj.
  destruct (joinSocketToChat sock c t n d st w) as [[st1 e1] w1].
  pose proof (joinedOf_getRecentMessages L (sock_id sock) d w1) as Hr.
  cbn [fst snd] in *.
  destruct (getRecentMessages L (sock_id sock) d w1) as [[ms e2] w2].
  cbn [fst snd] in *.
  match goal with
  | |- context [let '(u, w3) := ?x in _] => destruct x as [users w3]
  end.
  exists (e1 ++ e2), users. cbn [fst snd]. split.
  - now rewrite <- !app_assoc.
  - now rewrite joinedOf_app, Hj, Hr.
Qed.
End EffectCases.

(** ** Facts about the reference store *)

Section ReadOnly.
Import RefDb.

Lemma refdb_broadcastUserListUpdate_world st room (w : Db) :
  snd (broadcastUserListUpdate st room w) = w.
Proof.
  unfold broadcastUserListUpdate. repeat (break_match; cbn [snd]; try reflexivity).
Qed.

Lemma refdb_leave_world sock st (w : Db) : snd (leaveCurrentChat sock st w) = w.
Proof.
  destruct (leaveCurrentChat_cases sock st w)
    as [-> | [c [t [b [st2 [Hb ->]]]]]]; [reflexivity|].
  cbn [snd]. destruct Hb as [-> | [s ->]];
    [reflexivity | apply refdb_broadcastUserListUpdate_world].
Qed.

Lemma refdb_join_world sock c t n d st (w : Db) :
  snd (joinSocketToChat sock c t n d st w) = w.
Proof.
  destruct (joinSocketToChat_cases sock c t n d st w)
    as [[st1 [e [-> _]]] | [b [st1 [s [p [-> ->]]]]]]; [reflexivity|].
  cbn [snd]. apply refdb_broadcastUserListUpdate_world.
Qed.

Lemma refdb_recent L sid d (w : Db) :
  validObjectId d = true ->
  getRecentMessages L sid d w
  = ((map toClientMessage (rev (recent d L w)), []), w).
Proof.
  intros Hv. unfold getRecentMessages. cbn [isValidObjectId findMessages persistence].
  now rewrite Hv.
Qed.

Lemma refdb_casts_names : CastsNames RefDb.persistence.
Proof.
  intros n w d w' Hf. cbn in Hf. injection Hf as Hf _.
  apply find_some in Hf as [_ Hf]. unfold isPublicNamed in Hf.
  apply andb_true_iff in Hf as [_ Hf]. now apply String.eqb_eq in Hf.
Qed.
End ReadOnly.

(** ** Creating a public room by joining it (socket.on('join chat')) *)

Lemma find_app_last {A} (f : A -> bool) l x :
  find f l = None -> find f (l ++ [x]) = if f x then Some x else None.
Proof.
  induction l as [|y l IH]; cbn; [reflexivity|].
  destruct (f y); [discriminate | exact IH].
Qed.

Lemma validRoomName_truthy name : invalidRoomName name = false -> truthy name = true.
Proof.
  unfold invalidRoomName. destruct name; [discriminate | reflexivity].
Qed.

(** The schema's setters leave a name that passes the handler's check as
    it is. *)
Lemma roomNameChar_plain c :
  isRoomNameChar c = true -> isSpaceChar c = false /\ lowerChar c = c.
Proof.
  destruct c as [[] [] [] [] [] [] [] []]; vm_compute; intros Hc;
    first [discriminate Hc | split; reflexivity].
Qed.

Lemma dropSpaces_plain l :
  Forall (fun c => isSpaceChar c = false) l -> dropSpaces l = l.
Proof. intros Hf. destruct Hf as [|c r Hc _]; cbn; [reflexivity | now rewrite Hc]. Qed.

Lemma schemaName_checked n : invalidRoomName n = false -> schemaName n = n.
Proof.
  unfold invalidRoomName, roomNameMatches. intros Hn.
  apply orb_false_elim in Hn as [_ Hn]. apply negb_false_iff in Hn.
  assert (forallb isRoomNameChar (list_ascii_of_string n) = true) as Hall
    by (destruct (list_ascii_of_string n); [discriminate | exact Hn]).
  rewrite forallb_forall in Hall.
  assert (Forall (fun c => isSpaceChar c = false) (list_ascii_of_string n)) as Hs.
  { apply Forall_forall. intros c Hc. now apply roomNameChar_plain, Hall. }
  unfold schemaName, trimString, toLowerString.
  rewrite (dropSpaces_plain _ Hs).
  rewrite (dropSpaces_plain (rev _)) by now apply Forall_rev.
  rewrite rev_involutive, list_ascii_of_string_of_list_ascii.
  rewrite <- (string_of_list_ascii_of_string n) at 2. f_equal.
  clear Hn Hs.
  induction (list_ascii_of_string n) as [|c r IH]; [reflexivity|]. cbn [map].
  rewrite (proj2 (roomNameChar_plain c (Hall c (or_introl eq_refl)))).
  f_equal. apply IH. intros x Hx. apply Hall. now right.
Qed.

Lemma roomNameChar_upper c :
  isRoomNameChar c = true -> isSpaceChar (toUpperAscii c) = false.
Proof.
  destruct c as [[] [] [] [] [] [] [] []]; vm_compute; intros Hc;
    first [discriminate Hc | reflexivity].
Qed.

Lemma capitalize_plain n :
  invalidRoomName n = false -> trimString (capitalize n) = capitalize n.
Proof.
  unfold invalidRoomName, roomNameMatches. intros Hn.
  apply orb_false_elim in Hn as [_ Hn]. apply negb_false_iff in Hn.
  destruct n as [|c r]; [reflexivity|].
  cbn [list_ascii_of_string forallb] in Hn. apply andb_true_iff in Hn as [Hc Hr].
  rewrite forallb_forall in Hr.
  assert (Forall (fun x => isSpaceChar x = false)
            (list_ascii_of_string (capitalize (String c r)))) as Hs.
  { cbn [capitalize list_ascii_of_string]. constructor; [now apply roomNameChar_upper|].
    apply Forall_forall. intros x Hx. now apply roomNameChar_plain, Hr. }
  unfold trimString. rewrite (dropSpaces_plain _ Hs).
  rewrite (dropSpaces_plain (rev _)) by now apply Forall_rev.
  now rewrite rev_involutive, string_of_list_ascii_of_string.
Qed.

Section RoomRoundTrip.
Import RefDb.
Variable L : nat.
Variables (name : string) (w : Db).
Hypothesis Hname : invalidRoomName name = false.
Hypothesis Hfresh : forall r, In r (db_rooms w) -> room_name r <> name.

Definition createdRoom (owner : string) : RoomDoc :=
  mkRoom (objectIdOf (db_nextId w)) name (capitalize name) "public" owner []
    (db_clock w).

Definition afterCreate (owner : string) : Db :=
  mkDb (db_rooms w ++ [createdRoom owner]) (db_users w) (db_messages w)
    (S (db_clock w)) (S (db_nextId w)).

Lemma room_absent : find (isPublicNamed name) (db_rooms w) = None.
Proof.
  destruct (find (isPublicNamed name) (db_rooms w)) as [r|] eqn:Hf; [|reflexivity].
  apply find_some in Hf as [Hin Hp]. unfold isPublicNamed in Hp.
  apply andb_true_iff in Hp as [_ Hp]. apply String.eqb_eq in Hp.
  now apply Hfresh in Hin.
Qed.

Lemma room_unique owner w' :
  db_rooms w' = db_rooms w -> violatesUnique w' (createdRoom owner) = false.
Proof.
  intros Hr. unfold violatesUnique. rewrite Hr.
  destruct (existsb _ (db_rooms w)) eqn:He; [|reflexivity].
  apply existsb_exists in He as [r [Hin Hp]]. cbn [createdRoom room_name room_type] in Hp.
  change (String.eqb "public" "direct") with false in Hp. cbn [andb] in Hp.
  rewrite orb_false_r in Hp. apply andb_true_iff in Hp as [_ Hp].
  apply String.eqb_eq in Hp. now apply Hfresh in Hin.
Qed.

Lemma room_present owner :
  find (isPublicNamed name) (db_rooms (afterCreate owner)) = Some (createdRoom owner).
Proof.
  cbn [afterCreate db_rooms]. rewrite (find_app_last _ _ _ room_absent).
  unfold isPublicNamed. cbn [createdRoom room_type room_name].
  now rewrite !String.eqb_refl.
Qed.

Lemma first_join sock st :
  onJoinChat L sock (Some (mkJoinData "room" name)) st w
  = completeJoin L sock "room" name (capitalize name) ""
      (objectIdOf (db_nextId w)) true
      (fst (fst (leaveCurrentChat sock st w)))
      (snd (fst (leaveCurrentChat sock st w)))
      (afterCreate (sock_userId sock)).
Proof.
  unfold onJoinChat, joinResume. cbn [jd_type jd_id]. change (truthy "room") with true.
  rewrite (validRoomName_truthy name Hname). cbn [negb orb].
  pose proof (refdb_leave_world sock st w) as Hw.
  destruct (leaveCurrentChat sock st w) as [[st1 e1] w1]. cbn [fst snd] in *. subst w1.
  change (String.eqb "room" "room") with true. cbv iota.
  cbn [findPublicRoom persistence].
  rewrite (schemaName_checked name Hname), room_absent, Hname.
  cbn [newObjectId now saveRoom persistence freshId tick].
  unfold insertRoom.
  rewrite (room_unique (sock_userId sock)) by reflexivity.
  reflexivity.
Qed.

Lemma later_join sock st owner :
  onJoinChat L sock (Some (mkJoinData "room" name)) st (afterCreate owner)
  = completeJoin L sock "room" name (capitalize name) ""
      (objectIdOf (db_nextId w)) false
      (fst (fst (leaveCurrentChat sock st (afterCreate owner))))
      (snd (fst (leaveCurrentChat sock st (afterCreate owner))))
      (afterCreate owner).
Proof.
  unfold onJoinChat, joinResume. cbn [jd_type jd_id]. change (truthy "room") with true.
  rewrite (validRoomName_truthy name Hname). cbn [negb orb].
  pose proof (refdb_leave_world sock st (afterCreate owner)) as Hw.
  destruct (leaveCurrentChat sock st (afterCreate owner)) as [[st1 e1] w1].
  cbn [fst snd] in *. subst w1.
  change (String.eqb "room" "room") with true. cbv iota.
  cbn [findPublicRoom persistence].
  rewrite (schemaName_checked name Hname), room_present. reflexivity.
Qed.
End RoomRoundTrip.

Lemma refdb_completeJoin_world L sock t c n a d isNew st pre (w : RefDb.Db) :
  snd (completeJoin L sock t c n a d isNew st pre w) = w.
Proof.
  unfold completeJoin.
  pose proof (refdb_join_world sock c t n d st w) as Hj.
  destruct (joinSocketToChat sock c t n d st w) as [[st1 e1] w1].
  cbn [snd] in Hj. subst w1.
  unfold getRecentMessages. cbn [isValidObjectId findMessages RefDb.persistence].
  destruct (negb (RefDb.validObjectId d));
    repeat (break_match; cbn [snd]; try reflexivity);
    match goal with
    | Hu : _ = (_, ?d0) |- ?d0 = _ =>
        revert Hu; cbn [findUsers RefDb.persistence];
        repeat break_match; intros [= _ <-]; reflexivity
    end.
Qed.

Lemma joinedOf_completeJoin {W : Type} `{Persistence W}
    L sock t c n a d isNew st pre (w : W) :
  joinedOf pre = [] ->
  joinedOf (snd (fst (completeJoin L sock t c n a d isNew st pre w)))
  = [(sock_id sock, mkChatRef t c, isNew)].
Proof.
  intros Hpre.
  destruct (completeJoin_effects L sock t c n a d isNew st pre w)
    as [mid [users [-> Hmid]]].
  now rewrite !joinedOf_app, Hpre, Hmid.
Qed.

(** C7. On the reference store, joining a public room by a well-formed name
    that no room carries yet creates the room and confirms the join with
    [isNew = true]; the next join with the same name, by whichever socket,
    finds that record, creates nothing and is confirmed with [isNew = false]
    and the same chat id. *)
Theorem join_creates_then_finds_room (L : nat) (sock1 sock2 : Sock) (name : string)
    (st : State) (w : RefDb.Db) :
  invalidRoomName name = false ->
  (forall r, In r (RefDb.db_rooms w) -> room_name r <> name) ->
  let out1 := onJoinChat L sock1 (Some (mkJoinData "room" name)) st w in
  let out2 :=
    onJoinChat L sock2 (Some (mkJoinData "room" name)) (fst (fst out1)) (snd out1) in
  joinedOf (snd (fst out1)) = [(sock_id sock1, mkChatRef "room" name, true)]
  /\ joinedOf (snd (fst out2)) = [(sock_id sock2, mkChatRef "room" name, false)]
  /\ exists doc,
       RefDb.db_rooms (snd out1) = RefDb.db_rooms w ++ [doc]
       /\ room_name doc = name /\ room_type doc = "public"
       /\ find (RefDb.isPublicNamed name) (RefDb.db_rooms (snd out1)) = Some doc
       /\ RefDb.db_rooms (snd out2) = RefDb.db_rooms (snd out1).
Proof.
  intros Hname Hfresh out1 out2. subst out2 out1.
  rewrite (first_join L name w Hname Hfresh sock1 st).
  rewrite refdb_completeJoin_world.
  rewrite (later_join L name w Hname Hfresh sock2 _ (sock_userId sock1)).
  rewrite refdb_completeJoin_world.
  split; [apply joinedOf_completeJoin, joinedOf_leave|].
  split; [apply joinedOf_completeJoin, joinedOf_leave|].
  exists (createdRoom name w (sock_userId sock1)).
  split; [reflexivity|]. split; [reflexivity|]. split; [reflexivity|].
  split; [now apply room_present | reflexivity].
Qed.

(** ** The history delivered on a join (getRecentMessages) *)

Lemma StronglySorted_app_inv {A} (R : A -> A -> Prop) l1 l2 :
  StronglySorted R (l1 ++ l2) ->
  StronglySorted R l1 /\ StronglySorted R l2
  /\ (forall a b, In a l1 -> In b l2 -> R a b).
Proof.
  induction l1 as [|x l1 IH]; cbn.
  - intros Hs. repeat split; [constructor | assumption | contradiction].
  - intros Hs. inversion Hs as [|? ? Hs' Hall]; subst.
    destruct (IH Hs') as [H1 [H2 H12]].
    apply Forall_app in Hall as [Hall1 Hall2].
    repeat split; [now constructor | assumption|].
    intros a b [<-|Ha] Hb; [|now apply H12].
    rewrite Forall_forall in Hall2. now apply Hall2.
Qed.

Lemma StronglySorted_app {A} (R : A -> A -> Prop) l1 l2 :
  StronglySorted R l1 -> StronglySorted R l2 ->
  (forall a b, In a l1 -> In b l2 -> R a b) ->
  StronglySorted R (l1 ++ l2).
Proof.
  induction 1 as [|x l1 Hs IH Hall]; cbn; intros H2 H12; [assumption|].
  constructor.
  - apply IH; [assumption|]. intros a b Ha Hb. apply H12; [now right | assumption].
  - apply Forall_app. split; [assumption|].
    apply Forall_forall. intros b Hb. apply H12; [now left | assumption].
Qed.

Lemma StronglySorted_rev {A} (R : A -> A -> Prop) l :
  StronglySorted R l -> StronglySorted (fun a b => R b a) (rev l).
Proof.
  induction 1 as [|x l Hs IH Hall]; cbn; [constructor|].
  apply StronglySorted_app; [assumption | repeat constructor|].
  intros a b Ha [<-|[]]. apply in_rev in Ha.
  rewrite Forall_forall in Hall. now apply Hall.
Qed.

Lemma StronglySorted_map {A B} (f : A -> B) (R : A -> A -> Prop) (S : B -> B -> Prop) l :
  (forall a b, R a b -> S (f a) (f b)) ->
  StronglySorted R l -> StronglySorted S (map f l).
Proof.
  intros Hf. induction 1 as [|x l Hs IH Hall]; cbn; constructor; [assumption|].
  apply Forall_map. eapply Forall_impl; [|exact Hall]. intros a. apply Hf.
Qed.

Section History.
Import RefDb.

Definition newerFirst (a b : MessageDoc) : Prop := msg_createdAt b <= msg_createdAt a.
Definition olderFirst (a b : MessageDoc) : Prop := msg_createdAt a <= msg_createdAt b.

Lemma insertNewest_perm m l : Permutation (insertNewest m l) (m :: l).
Proof.
  induction l as [|x l IH]; cbn; [reflexivity|].
  destruct (msg_createdAt x <=? msg_createdAt m)%nat; [reflexivity|].
  rewrite IH. apply perm_swap.
Qed.

Lemma newestFirst_perm l : Permutation (newestFirst l) l.
Proof.
  induction l as [|x l IH]; cbn; [reflexivity|].
  rewrite insertNewest_perm. now constructor.
Qed.

Lemma insertNewest_sorted m l :
  StronglySorted newerFirst l -> StronglySorted newerFirst (insertNewest m l).
Proof.
  induction 1 as [|x l Hs IH Hall]; cbn; [repeat constructor|].
  destruct (Nat.leb_spec (msg_createdAt x) (msg_createdAt m)) as [Hle|Hlt].
  - constructor; [now constructor|]. constructor; [exact Hle|].
    eapply Forall_impl; [|exact Hall]. unfold newerFirst. intros a Ha. lia.
  - constructor; [assumption|].
    apply (Permutation_Forall (Permutation_sym (insertNewest_perm m l))).
    constructor; [unfold newerFirst; lia | assumption].
Qed.

Lemma newestFirst_sorted l : StronglySorted newerFirst (newestFirst l).
Proof.
  induction l as [|x l IH]; cbn; [constructor | now apply insertNewest_sorted].
Qed.

Lemma recent_history L d (w : Db) :
  let kept := rev (limit L (newestFirst (messagesOf w d))) in
  rev (recent d L w) = map (populateSender w) kept
  /\ exists older,
       Permutation (older ++ kept) (messagesOf w d)
       /\ List.length kept
          = (if (L =? 0)%nat then List.length (messagesOf w d)
             else Nat.min L (List.length (messagesOf w d)))
       /\ StronglySorted olderFirst kept
       /\ (forall o k, In o older -> In k kept -> olderFirst o k).
Proof.
  intros kept. subst kept. unfold recent. rewrite map_rev. split; [reflexivity|].
  unfold limit.
  set (sorted := newestFirst (messagesOf w d)).
  pose proof (newestFirst_sorted (messagesOf w d)) as Hsorted. fold sorted in Hsorted.
  pose proof (newestFirst_perm (messagesOf w d)) as Hperm. fold sorted in Hperm.
  destruct (L =? 0)%nat.
  - exists []. cbn [app]. repeat split.
    + now rewrite <- Permutation_rev.
    + now rewrite length_rev, (Permutation_length Hperm).
    + now apply (StronglySorted_rev newerFirst).
    + contradiction.
  - rewrite <- (firstn_skipn L sorted) in Hsorted.
    apply StronglySorted_app_inv in Hsorted as [Hfirst [_ Hcross]].
    exists (skipn L sorted). repeat split.
    + rewrite <- (Permutation_rev (firstn L sorted)).
      now rewrite Permutation_app_comm, firstn_skipn.
    + now rewrite length_rev, length_firstn, (Permutation_length Hperm).
    + now apply (StronglySorted_rev newerFirst).
    + intros o k Ho Hk. apply in_rev in Hk. unfold olderFirst.
      now apply (Hcross k o).
Qed.

(** What the client is sent for a stored message: its text, its time and
    its sender as the store knows it by then. *)
Definition deliveredAs (w : Db) (m : MessageDoc) (cm : ClientMessage) : Prop :=
  cm_text cm = msg_text m
  /\ cm_timestamp cm = msg_createdAt m
  /\ cm_sender cm
     = match userById w (msg_sender m) with
       | Some u =>
           mkClientUser (Some (user_id u)) (user_username u)
             (if truthy (user_avatarUrl u) then user_avatarUrl u
              else "/uploads/avatars/default.png")
             (if truthy (user_status u) then user_status u else "offline")
       | None =>
           mkClientUser None "[Deleted User]" "/uploads/avatars/default.png" "offline"
       end.

Lemma deliveredAs_populated w m : deliveredAs w m (toClientMessage (populateSender w m)).
Proof.
  unfold deliveredAs, toClientMessage, populateSender.
  cbn [cm_text cm_timestamp cm_sender msg_text msg_createdAt msg_senderDoc].
  split; [reflexivity|]. split; [reflexivity|].
  now destruct (userById w (msg_sender m)).
Qed.

Lemma deliveredAs_map w l :
  Forall2 (deliveredAs w) l (map toClientMessage (map (populateSender w) l)).
Proof.
  induction l as [|m l IH]; cbn [map]; constructor;
    [apply deliveredAs_populated | exact IH].
Qed.
End History.

(** C8, as the code has it.  On the reference store, the confirmation that
    ends a successful join carries messages of the chat in chronological
    order, oldest first, each with its stored text, its creation time and
    its sender as the store holds that user, or as the deleted-user record
    when the user is gone.  With a positive history limit [L] they are at
    most [L], all of them when the chat has no more than [L], and otherwise
    [L] messages none of which is older than a message left out.  With a
    limit of 0 the whole history of the chat is delivered. *)
Theorem join_delivers_newest_history (L : nat) (sock : Sock)
    (t c n a : string) (d : DbId) (isNew : bool) (st : State) (pre : list Effect)
    (w : RefDb.Db) :
  RefDb.validObjectId d = true ->
  exists mid users delivered kept older,
    snd (fst (completeJoin L sock t c n a d isNew st pre w))
    = pre ++ mid ++
      [Emit (SocketEmit (sock_id sock)) "joined chat"
         (PJoined (mkChatRef t c) n a users delivered isNew)]
    /\ joinedOf mid = []
    /\ Forall2 (deliveredAs w) kept delivered
    /\ Permutation (older ++ kept) (RefDb.messagesOf w d)
    /\ List.length kept
       = (if (L =? 0)%nat then List.length (RefDb.messagesOf w d)
          else Nat.min L (List.length (RefDb.messagesOf w d)))
    /\ StronglySorted olderFirst kept
    /\ (forall o k, In o older -> In k kept -> olderFirst o k).
Proof.
  intros Hd.
  destruct (completeJoin_effects L sock t c n a d isNew st pre w)
    as [mid [users [Heff Hmid]]].
  rewrite refdb_join_world, (refdb_recent L _ d w Hd) in Heff. cbn [fst] in Heff.
  destruct (recent_history L d w) as [Hkept [older [Hperm [Hlen [Hsorted Hcross]]]]].
  rewrite Hkept in Heff.
  exists mid, users,
    (map toClientMessage
       (map (RefDb.populateSender w)
          (rev (RefDb.limit L (RefDb.newestFirst (RefDb.messagesOf w d)))))),
    (rev (RefDb.limit L (RefDb.newestFirst (RefDb.messagesOf w d)))), older.
  split; [exact Heff|]. split; [exact Hmid|].
  split; [apply deliveredAs_map|]. auto.
Qed.

(** ** Concrete runs *)



Module Runs.
Import RefDb Scenario.

Definition L : nat := 50.

(** State and store after a list of events on the booted server. *)
Definition after (evs : list Event) : State * Db :=
  match runTrace L evs boot db0 with
  | Some ((st, _), w) => (st, w)
  | None => (boot, db0)
  end.

(** Outcome of one more event. *)
Definition next (ev : Event) (p : State * Db) : (State * list Effect) * Db :=
  match step L ev (fst p) (snd p) with
  | Some out => out
  | None => ((fst p, []), snd p)
  end.

Lemma Run_after guard evs :
  traceOk L guard evs boot db0 -> Run (W := Db) L guard boot (fst (after evs)).
Proof.
  intros Hok.
  destruct (Run_of_trace L guard boot evs boot db0 Hok (Run_start L guard boot))
    as [st' [e [w' [Hr Hrun]]]].
  unfold after. rewrite Hr. cbn [fst]. exact Hrun.
Qed.

(** The same, for join requests handled in two halves. *)
Definition afterAsync (evs : list AEvent) : Config * Db :=
  match arunTrace L evs (bootConfig general) db0 with
  | Some ((c, _), w) => (c, w)
  | None => (bootConfig general, db0)
  end.

Lemma ARun_after guard evs :
  atraceOk L guard evs (bootConfig general) db0 = true ->
  ARun (W := Db) L guard (bootConfig general) (fst (afterAsync evs)).
Proof.
  intros Hok.
  destruct (ARun_of_trace L guard (bootConfig general) evs (bootConfig general) db0 Hok
              (ARun_start L guard (bootConfig general)))
    as [c' [e [w' [Hr Hrun]]]].
  unfold afterAsync. rewrite Hr. cbn [fst]. exact Hrun.
Qed.

Definition aliceInGeneral : list Event :=
  [Connection "s1" alice; joinRoom "s1" "general"].

Definition bothInGeneral : list Event :=
  [Connection "s1" alice; Connection "s2" bob;
   joinRoom "s1" "general"; joinRoom "s2" "general"].


Definition aliceTwoDevices : list Event :=
  [Connection "s1" alice; Connection "s3" alice;
   joinRoom "s1" "general"; joinRoom "s3" "general"; Disconnect "s1"].



(** The histories carried by the ['joined chat'] confirmations of a log. *)
Definition historyOf (es : list Effect) : list (list ClientMessage) :=
  flat_map
    (fun e =>
       match e with
       | Emit (SocketEmit _) "joined chat" (PJoined _ _ _ _ messages _) => [messages]
       | _ => []
       end) es.

Definition dmId : string := objectIdOf 1.

Definition sockAlice : Sock := mkSock "s1" alice.
Definition sockBob : Sock := mkSock "s2" bob.

Definition hello (sender : string) (t : Time) (id : nat) : MessageDoc :=
  mkMessage (objectIdOf id) (utf16 "hello") sender None (room_id general) t.

Definition dbWithHistory : Db :=
  mkDb [general] [alice; bob] [hello u1 3 10; hello u2 5 11; hello u1 4 12] 6 13.
End Runs.

(** ** The claims on concrete runs *)

Import RefDb Scenario Runs.



(** C2, witness: the save loses a race and the second query finds the room. *)
Lemma findOrCreateDirectMessage_contract_witness :
  u1 <> u2
  /\ isDuplicateKey duplicateKey = true
  /\ (sortPair u2 u1 = [u2; u1] \/ sortPair u2 u1 = [u1; u2])
  /\ (exists x y, sortPair u2 u1 = [x; y] /\ String.ltb y x = false)
  /\ fst (findOrCreateDirectMessage u2 u1
            (Script.start
               [Script.RFind (Ok None); Script.RSave (Err duplicateKey);
                Script.RFind (Ok (Some general))]))
     = Ok (general, false).
Proof.
  assert (u2 <> u1) as Hne by discriminate.
  split; [discriminate|]. split; [reflexivity|].
  destruct (findOrCreateDirectMessage_contract u2 u1
              [Script.RFind (Ok None); Script.RSave (Err duplicateKey);
               Script.RFind (Ok (Some general))]) as [_ Hpair].
  destruct (Hpair Hne) as [[_ [Hcases Hsorted]] [_ [_ [_ [Hdup _]]]]].
  split; [exact Hcases|]. split; [exact Hsorted|].
  destruct (Hdup duplicateKey [Script.RFind (Ok (Some general))] eq_refl eq_refl)
    as [_ [_ [Hfound _]]].
  exact (Hfound general [] eq_refl).
Defined.

(** C3 on the code.  alice and bob, one connection each, share [general];
    alice's only connection closes.  Her status is stored as offline, but
    the recipients are computed after the leave has taken her out of the
    member set of [general]: no presence update is emitted, and bob's
    connection gets none. *)
Lemma last_disconnect_reaches_nobody :
  let p := after bothInGeneral in
  let out := next (Disconnect "s1") p in
  In u1 (membersOf (fst p) "general")
  /\ In u2 (membersOf (fst p) "general")
  /\ JsMap.get u1 (userSockets (fst p)) = Some ["s1"]
  /\ targetSocketsOf (fst p) u2 = ["s2"]
  /\ option_map user_status (userById (snd out) u1) = Some "offline"
  /\ recipients "presence update" (snd (fst out)) = [].
Proof. vm_compute. tauto. Qed.

(** C4, witness: alice, attached to [general], sends to [random]. *)
Lemma send_preconditions_witness :
  sendBlocked sockAlice (utf16 "hi") (mkChatRef "room" "random")
    (fst (after aliceInGeneral))
  /\ exists m,
       onChatMessage sockAlice
         (Some (mkMsgData (Some (utf16 "hi")) (Some (mkChatRef "room" "random"))))
         (fst (after aliceInGeneral)) (snd (after aliceInGeneral))
       = ((fst (after aliceInGeneral), [sendError "s1" m]), snd (after aliceInGeneral)).
Proof.
  assert (sendBlocked sockAlice (utf16 "hi") (mkChatRef "room" "random")
            (fst (after aliceInGeneral))) as Hb.
  { left. vm_compute. discriminate. }
  split; [exact Hb|].
  exact (proj1 (send_preconditions sockAlice
                  (Some (mkMsgData (Some (utf16 "hi")) (Some (mkChatRef "room" "random"))))
                  (fst (after aliceInGeneral)) (snd (after aliceInGeneral)))
           (utf16 "hi") (mkChatRef "room" "random") eq_refl Hb).
Defined.

(** C5, counterexample.  alice is attached to [general] and asks to join
    the malformed, unknown name ["No!"]: she is answered with an error, and
    is no longer attached to [general] nor in its member set. *)
Lemma malformed_join_counterexample :
  let p := after aliceInGeneral in
  let out := next (joinRoom "s1" "No!") p in
  invalidRoomName "No!" = true
  /\ find (isPublicNamed "No!") (db_rooms (snd p)) = None
  /\ recipients "error message" (snd (fst out)) = ["s1"]
  /\ attachment (fst p) "s1" = Some (mkChatRef "room" "general")
  /\ membersOf (fst p) "general" = [u1]
  /\ attachment (fst (fst out)) "s1" = None
  /\ membersOf (fst (fst out)) "general" = []
  /\ fst (fst out) <> fst p.
Proof. vm_compute. repeat split; discriminate. Qed.

(** C5, witness: the same request, through the theorem. *)
Lemma malformed_join_runs_leave_only_witness :
  invalidRoomName "No!" = true
  /\ fst (fst (onJoinChat L sockAlice (Some (mkJoinData "room" "No!"))
                 (fst (after aliceInGeneral)) (snd (after aliceInGeneral))))
     = leaveState sockAlice (fst (after aliceInGeneral)).
Proof.
  assert (invalidRoomName "No!" = true) as Hbad by reflexivity.
  assert (findPublicRoom "No!"
            (snd (leaveCurrentChat sockAlice (fst (after aliceInGeneral))
                    (snd (after aliceInGeneral))))
          = (Ok None, snd (after aliceInGeneral))) as Hfind
    by (vm_compute; reflexivity).
  split; [exact Hbad|].
  exact (proj1 (malformed_join_runs_leave_only L sockAlice "No!"
                  (fst (after aliceInGeneral)) (snd (after aliceInGeneral))
                  (snd (after aliceInGeneral)) Hbad Hfind)).
Defined.

(** C6, witness: alice's status changes while she shares [general] with bob. *)
Lemma presence_broadcast_targets_witness :
  NoDup (JsMap.keys (activeChats (fst (after bothInGeneral))))
  /\ In (Emit (IoTo "s2") "presence update" (PPresence u1 "away" None 7))
        (broadcastPresenceUpdate (fst (after bothInGeneral)) u1 "away" None 7).
Proof.
  assert (NoDup (JsMap.keys (activeChats (fst (after bothInGeneral))))) as Hnd.
  { vm_compute. constructor; [intros [] | constructor]. }
  split; [exact Hnd|].
  apply (proj1 (presence_broadcast_targets (fst (after bothInGeneral)) u1 "away" None 7
                  Hnd) "s2").
  exists u2. split; [discriminate|]. split.
  - exists "general". vm_compute. tauto.
  - vm_compute. tauto.
Defined.

(** C7, witness: alice creates [lobby], bob joins it next. *)
Lemma join_creates_then_finds_room_witness :
  invalidRoomName "lobby" = false
  /\ joinedOf
       (snd (fst (onJoinChat L sockAlice (Some (mkJoinData "room" "lobby")) boot db0)))
     = [("s1", mkChatRef "room" "lobby", true)].
Proof.
  assert (invalidRoomName "lobby" = false) as Hname by reflexivity.
  assert (forall r, In r (db_rooms db0) -> room_name r <> "lobby") as Hfresh.
  { intros r [<- | []]. discriminate. }
  split; [exact Hname|].
  exact (proj1 (join_creates_then_finds_room L sockAlice sockBob "lobby" boot db0
                  Hname Hfresh)).
Defined.

(** C8, counterexample.  With a history limit of 0 the join delivers the
    three stored messages of the chat, oldest first: the list is not bounded
    by the limit. *)
Lemma history_limit_zero_counterexample :
  List.length (messagesOf dbWithHistory (room_id general)) = 3
  /\ map (map cm_timestamp)
       (historyOf
          (snd (fst (completeJoin 0 sockAlice "room" "general" "General" ""
                       (room_id general) false boot [] dbWithHistory))))
     = [[3; 4; 5]].
Proof. vm_compute. split; reflexivity. Qed.

(** C8, witness: three stored messages and a limit of two. *)
Lemma join_delivers_newest_history_witness :
  validObjectId (room_id general) = true
  /\ map (map cm_timestamp)
       (historyOf
          (snd (fst (completeJoin 2 sockAlice "room" "general" "General" ""
                       (room_id general) false boot [] dbWithHistory))))
     = [[4; 5]]
  /\ exists mid users delivered kept older,
       snd (fst (completeJoin 2 sockAlice "room" "general" "General" ""
                   (room_id general) false boot [] dbWithHistory))
       = [] ++ mid ++
         [Emit (SocketEmit "s1") "joined chat"
            (PJoined (mkChatRef "room" "general") "General" "" users delivered false)]
       /\ joinedOf mid = []
       /\ Forall2 (deliveredAs dbWithHistory) kept delivered
       /\ Permutation (older ++ kept) (messagesOf dbWithHistory (room_id general))
       /\ List.length kept
          = Nat.min 2 (List.length (messagesOf dbWithHistory (room_id general)))
       /\ StronglySorted olderFirst kept
       /\ (forall o k, In o older -> In k kept -> olderFirst o k).
Proof.
  assert (validObjectId (room_id general) = true) as Hid by reflexivity.
  split; [exact Hid|]. split; [vm_compute; reflexivity|].
  exact (join_delivers_newest_history 2 sockAlice "room" "general" "General" ""
           (room_id general) false boot [] dbWithHistory Hid).
Defined.

(** C9, witness: alice, the only member of [general], leaves it. *)
Lemma leave_never_evicts_record_witness :
  JsMap.get "general" (activeChats (fst (after aliceInGeneral)))
  = Some (mkChatInfo "General" "room" (room_id general) [u1])
  /\ attachment (fst (after aliceInGeneral)) "s1" = Some (mkChatRef "room" "general")
  /\ (exists ci',
        JsMap.get "general"
          (activeChats
             (fst (fst (leaveCurrentChat sockAlice (fst (after aliceInGeneral))
                          (snd (after aliceInGeneral))))))
        = Some ci'
        /\ chat_name ci' = "General"
        /\ ~ In u1 (members ci'))
  /\ JsMap.keys
       (activeChats
          (fst (fst (leaveCurrentChat sockAlice (fst (after aliceInGeneral))
                       (snd (after aliceInGeneral))))))
     = JsMap.keys (activeChats (fst (after aliceInGeneral))).
Proof.
  assert (JsMap.get "general" (activeChats (fst (after aliceInGeneral)))
          = Some (mkChatInfo "General" "room" (room_id general) [u1])) as Hg
    by (vm_compute; reflexivity).
  assert (attachment (fst (after aliceInGeneral)) "s1"
          = Some (mkChatRef "room" "general")) as Hatt by (vm_compute; reflexivity).
  split; [exact Hg|]. split; [exact Hatt|].
  destruct (leave_never_evicts_record L sockAlice
              (fst (after aliceInGeneral)) (snd (after aliceInGeneral))
              "general" _ Hg) as [[ci' [Hg' [Hn [_ [_ [_ Hout]]]]]] [Hkeys _]].
  split; [|exact Hkeys].
  exists ci'. split; [exact Hg'|]. split; [exact Hn|].
  exact (proj1 (Hout _ Hatt eq_refl)).
Defined.

(** C10, counterexample.  A request whose status is the empty string, a
    value outside the accepted set, is refused with an error: nothing is
    stored and nothing is broadcast. *)
Lemma empty_status_counterexample :
  let p := after aliceInGeneral in
  includes "" validStatuses = false
  /\ onSetStatus sockAlice (Some (mkStatusData "" None)) (fst p) (snd p)
     = ((fst p, [sendError "s1" "Invalid status update data."]), snd p).
Proof. vm_compute. split; reflexivity. Qed.

(** C10, witness: an explicit request for ["offline"] with a status message. *)
Lemma set_status_coerces_to_online_witness :
  truthy "offline" = true
  /\ includes "offline" validStatuses = false
  /\ exists st1 u w2,
       onSetStatus sockAlice
         (Some (mkStatusData "offline" (Some (utf16 "  back soon  "))))
         (fst (after bothInGeneral)) (snd (after bothInGeneral))
       = ((st1,
           broadcastPresenceUpdate st1 u1 "online" (Some (utf16 "back soon"))
             (user_lastSeen u)), w2).
Proof.
  assert (truthy "offline" = true) as Ht by reflexivity.
  assert (includes "offline" validStatuses = false) as Hi by reflexivity.
  split; [exact Ht|]. split; [exact Hi|].
  destruct (set_status_coerces_to_online sockAlice
              (mkStatusData "offline" (Some (utf16 "  back soon  ")))
              (fst (after bothInGeneral)) (snd (after bothInGeneral)) Ht Hi)
    as [_ Hok].
  destruct (Hok (mkUser u1 "alice" "" "online" (utf16 "back soon") 3)
              (snd (next (SetStatus "s1"
                            (Some (mkStatusData "offline"
                                     (Some (utf16 "  back soon  ")))))
                      (after bothInGeneral))))
    as [st1 [Heq _]]; [vm_compute; reflexivity|].
  exists st1. eexists. eexists. exact Heq.
Defined.

(** * Further properties of the handlers *)

(** ** Leaving *)

Lemma attachment_leaveState_cases sock st :
  attachment st (sock_id sock) = None -> leaveState sock st = st.
Proof.
  intros Hn. destruct (leaveState_cases sock st)
    as [[Heq _] | [sd [c [t [Hg [Hc [Ht [Htc [Htt _]]]]]]]]]; [exact Heq|].
  unfold attachment in Hn. rewrite Hg, Hc, Ht, Htc, Htt in Hn. discriminate.
Qed.

Section LeaveTwice.
Context {W : Type} `{Persistence W}.

Lemma leaveCurrentChat_unattached sock st w :
  attachment st (sock_id sock) = None ->
  leaveCurrentChat sock st w = ((st, []), w).
Proof.
  unfold attachment, leaveCurrentChat.
  destruct (JsMap.get (sock_id sock) (connectedSockets st)) as [sd|]; [|reflexivity].
  destruct (currentChatId sd) as [c|]; [|reflexivity].
  destruct (currentChatType sd) as [t|]; [|reflexivity].
  destruct (truthy c && truthy t); [discriminate | reflexivity].
Qed.

(** X1. Leaving is idempotent: once [leaveCurrentChat] has run for a
    socket, running it again changes nothing, emits nothing and asks the
    store nothing. *)
Theorem leave_twice_is_leave_once sock st w w' :
  leaveCurrentChat sock (fst (fst (leaveCurrentChat sock st w))) w'
  = ((fst (fst (leaveCurrentChat sock st w)), []), w').
Proof.
  apply leaveCurrentChat_unattached. rewrite leaveCurrentChat_state.
  apply leaveState_attachment.
Qed.
End LeaveTwice.

(** ** Events that move nobody *)

Definition movesNobody (ev : Event) : Prop :=
  match ev with
  | ChatMessage _ _ | Typing _ _ | StopTyping _ _ | SetStatus _ _ => True
  | _ => False
  end.

Lemma dbIdState_keys c ci d st :
  JsMap.get c (activeChats st) = Some ci ->
  JsMap.keys (activeChats (dbIdState c ci d st)) = JsMap.keys (activeChats st).
Proof.
  intros Hc. unfold dbIdState, set_activeChats. cbn [activeChats].
  eapply JsMap_keys_set_present. exact Hc.
Qed.

(** X2. A message, a typing signal or a status change never moves anybody:
    whatever the payload and whatever the store answers, the handler leaves
    [userSockets], [connectedSockets] (so every attachment), the keys of
    [activeChats] and every member set as they were; a typing signal also
    leaves the whole state and the store untouched. *)
Theorem quiet_events_keep_membership {W : Type} {P : Persistence W}
    (limit : nat) (ev : Event) (st st' : State) (e : list Effect) (w w' : W) :
  movesNobody ev ->
  step limit ev st w = Some ((st', e), w') ->
  userSockets st' = userSockets st
  /\ connectedSockets st' = connectedSockets st
  /\ JsMap.keys (activeChats st') = JsMap.keys (activeChats st)
  /\ (forall X, membersOf st' X = membersOf st X)
  /\ (match ev with
      | Typing _ _ | StopTyping _ _ => st' = st /\ w' = w
      | _ => True
      end).
Proof.
  intros Hquiet Hstep. pose proof (step_shape limit ev st w st' e w' Hstep) as Hs.
  destruct Hs; try contradiction; cbn [movesNobody] in Hquiet.
  - repeat split; auto.
    destruct ev; try exact I; cbn [step] in Hstep; unfold withSock in Hstep;
      destruct (JsMap.get sid (socketUser st)); try discriminate;
      inversion Hstep; auto.
  - repeat split; auto.
    + now apply dbIdState_keys.
    + intros X. now apply membersOf_dbIdState.
  - repeat split; auto.
Qed.

(** ** Connections that are not the first or the last *)

Section RegistryEdges.
Context {W : Type} `{Persistence W}.

Lemma recipients_app ev a b : recipients ev (a ++ b) = recipients ev a ++ recipients ev b.
Proof. unfold recipients. apply flat_map_app. Qed.

Lemma leaveCurrentChat_no_presence sock st w :
  recipients "presence update" (snd (fst (leaveCurrentChat sock st w))) = [].
Proof.
  destruct (leaveCurrentChat_cases sock st w)
    as [-> | [c [t [b [st2 [Hb ->]]]]]]; [reflexivity|].
  cbn [fst snd]. change (recipients ?ev (Leave ?x ?y :: ?l)) with (recipients ev l).
  rewrite recipients_app. cbn [recipients flat_map app]. rewrite app_nil_r.
  destruct Hb as [-> | [s ->]]; [reflexivity|].
  apply broadcastUserListUpdate_no_event. discriminate.
Qed.

Lemma sendInitialData_no_presence sock w :
  recipients "presence update" (fst (sendInitialData sock w)) = [].
Proof.
  unfold sendInitialData. repeat (break_match; cbn [fst]; try reflexivity).
Qed.

(** X3. A disconnection that is not the user's last (another socket id
    stays in the user's set) only runs the leave and drops the socket from
    the registry: the store sees nothing beyond the leave, no status is
    written and no presence update is emitted. *)
Theorem disconnect_with_other_connections sock st w s :
  JsMap.get (sock_userId sock) (userSockets st) = Some s ->
  JsSet.delete (sock_id sock) s <> [] ->
  let out := onDisconnect sock st w in
  snd out = snd (leaveCurrentChat sock st w)
  /\ snd (fst out) = snd (fst (leaveCurrentChat sock st w))
  /\ recipients "presence update" (snd (fst out)) = []
  /\ JsMap.get (sock_userId sock) (userSockets (fst (fst out)))
     = Some (JsSet.delete (sock_id sock) s)
  /\ JsMap.get (sock_id sock) (connectedSockets (fst (fst out))) = None.
Proof.
  intros Hs Hrest out. subst out.
  pose proof (onDisconnect_state sock st w) as Hstate.
  pose proof (leaveCurrentChat_no_presence sock st w) as Hnp.
  pose proof (leaveCurrentChat_state sock st w) as Hleave.
  unfold onDisconnect in *. cbv zeta in *.
  destruct (leaveCurrentChat sock st w) as [[st1 e1] w1]. cbn [fst snd] in *.
  assert (userSockets st1 = userSockets st) as Hus.
  { subst st1. destruct (leaveState_cases sock st)
      as [[-> _] | [sd [c [t [_ [_ [_ [_ [_ ->]]]]]]]]]; reflexivity. }
  rewrite Hus, Hs in *.
  destruct (JsSet.delete (sock_id sock) s) as [|x r] eqn:Hd; [now contradiction Hrest|].
  cbn [JsSet.size List.length Nat.eqb] in *. cbn [fst snd] in *.
  repeat split; auto.
  - cbn [userSockets set_socketUser set_connectedSockets set_userSockets].
    apply JsMap_get_set_same.
  - cbn [connectedSockets set_socketUser set_connectedSockets set_userSockets].
    rewrite JsMap_get_delete. now rewrite String.eqb_refl.
Qed.

(** X4. A connection of a user who already has a live connection, on a
    new socket id, touches no status: the socket is registered unattached,
    the store is only asked for the initial lists and no presence update is
    emitted. *)
Theorem later_connection_is_silent sock st w s :
  JsMap.get (sock_userId sock) (userSockets st) = Some s ->
  s <> [] -> ~ In (sock_id sock) s ->
  let out := onConnection sock st w in
  snd out = snd (sendInitialData sock w)
  /\ snd (fst out) = fst (sendInitialData sock w)
  /\ recipients "presence update" (snd (fst out)) = []
  /\ JsMap.get (sock_userId sock) (userSockets (fst (fst out)))
     = Some (s ++ [sock_id sock])
  /\ attachment (fst (fst out)) (sock_id sock) = None.
Proof.
  intros Hs Hne Hfresh out. subst out. unfold onConnection. cbv zeta.
  unfold JsMap.has. rewrite Hs. cbn [userSockets]. rewrite Hs, JsMap_get_set_same.
  assert (JsSet.add (sock_id sock) s = s ++ [sock_id sock]) as Hadd.
  { unfold JsSet.add. destruct (JsSet.has (sock_id sock) s) eqn:Hh; [|reflexivity].
    apply JsSet_has_In in Hh. contradiction. }
  rewrite Hadd. unfold JsSet.size. rewrite length_app. cbn [List.length].
  assert ((List.length s + 1 =? 1)%nat = false) as ->.
  { apply Nat.eqb_neq. destruct s; [contradiction | cbn; lia]. }
  pose proof (sendInitialData_no_presence sock w) as Hnp.
  destruct (sendInitialData sock w) as [e w1]. cbn [fst snd] in *.
  repeat split; auto.
  - apply JsMap_get_set_same.
  - unfold attachment. cbn [connectedSockets]. now rewrite JsMap_get_set_same.
Qed.
End RegistryEdges.

(** ** Starting a direct chat (socket.on('initiate dm')) *)

Section InitiateDm.
Context {W : Type} `{Persistence W}.
Variable limit : nat.

Lemma joinedOf_dmListNotify targets entry : joinedOf (dmListNotify targets entry) = [].
Proof. induction targets as [|t r IH]; [reflexivity | exact IH]. Qed.

Definition badDmTarget (sock : Sock) (targetUserId : string) : bool :=
  negb (truthy targetUserId) || String.eqb targetUserId (sock_userId sock)
  || negb (isValidObjectId targetUserId).

(** X5. ['initiate dm'] is all or nothing.  Either the request fails, and
    then the shared state is exactly as before (the socket keeps its current
    chat) and the only effect is one error sent to the requesting socket, or
    the requesting socket receives exactly one ['joined chat'] confirmation,
    for a direct chat, and the state is that of leaving the current chat and
    joining the direct one.  An empty target, the requester's own id or a
    malformed id fails without the store being asked anything. *)
Theorem initiate_dm_all_or_nothing sock target st w :
  let out := onInitiateDm limit sock target st w in
  ((fst (fst out) = st /\ exists m, snd (fst out) = [sendError (sock_id sock) m])
   \/ exists c n d isNew,
        joinedOf (snd (fst out)) = [(sock_id sock, mkChatRef "direct" c, isNew)]
        /\ fst (fst out)
           = joinState sock c "direct" n d
               (leaveState sock (dmState (sock_userId sock) target c n d st)))
  /\ (badDmTarget sock target = true ->
      exists m, out = ((st, [sendError (sock_id sock) m]), w)).
Proof.
  intros out. subst out. split.
  - unfold onInitiateDm. cbv zeta.
    destruct (negb (truthy target) || String.eqb target (sock_userId sock));
      [left; split; [reflexivity | eexists; reflexivity]|].
    destruct (negb (isValidObjectId target));
      [left; split; [reflexivity | eexists; reflexivity]|].
    destruct (findUserById target w) as [[[targetUser|]|e] w1];
      try (left; split; [reflexivity | eexists; reflexivity]).
    destruct (findOrCreateDirectMessage (sock_userId sock) target w1)
      as [[[dmRoom isNew]|e] w2];
      [|left; split; [reflexivity | eexists; reflexivity]].
    right.
    match goal with
    | |- context [leaveCurrentChat sock ?s w2] =>
        pose proof (joinedOf_leave sock s w2) as Hl;
        pose proof (leaveCurrentChat_state sock s w2) as Hls;
        destruct (leaveCurrentChat sock s w2) as [[st1 e1] w3]
    end.
    cbn [fst snd] in Hl, Hls.
    match goal with
    | |- context [joinSocketToChat sock ?c ?t ?n ?d st1 w3] =>
        pose proof (joinedOf_joinSocketToChat sock c t n d st1 w3) as Hj;
        pose proof (joinSocketToChat_state sock c t n d st1 w3) as Hjs;
        destruct (joinSocketToChat sock c t n d st1 w3) as [[st2 e2] w4]
    end.
    cbn [fst snd] in Hj, Hjs.
    match goal with
    | |- context [getRecentMessages limit ?i ?d w4] =>
        pose proof (joinedOf_getRecentMessages limit i d w4) as Hr;
        destruct (getRecentMessages limit i d w4) as [[ms e3] w5]
    end.
    cbn [fst snd] in Hr |- *.
    exists (room_id dmRoom), (cu_username (formatUserForClient targetUser)),
      (room_id dmRoom), isNew.
    split.
    + rewrite !joinedOf_app, Hl, Hj, Hr. cbn [app].
      change (joinedOf (?x :: ?l)) with (joinedOf [x] ++ joinedOf l).
      destruct (JsMap.get target (userSockets st2)) as [ts|]; [|reflexivity].
      destruct (0 <? JsSet.size ts)%nat; [|reflexivity].
      now rewrite joinedOf_dmListNotify.
    + subst st2 st1. reflexivity.
  - unfold badDmTarget, onInitiateDm. cbv zeta. intros Hbad.
    destruct (negb (truthy target) || String.eqb target (sock_userId sock));
      [eexists; reflexivity|].
    cbn [orb] in Hbad. rewrite Hbad. eexists; reflexivity.
Qed.
End InitiateDm.

(** ** The summaries pushed after a direct message *)

Lemma dmListNotify_In e targets entry :
  In e (dmListNotify targets entry) ->
  exists socketId, In socketId targets
    /\ e = Emit (IoTo socketId) "dm list update" (PDmListUpdate [entry]).
Proof.
  unfold dmListNotify. intros Hin. apply in_map_iff in Hin as [sid [<- Hsid]].
  now exists sid.
Qed.

Section DmSummaries.
Context {W : Type} `{Persistence W}.

Definition isDmSummary (st : State) (userId chatId : string) (sender : ClientUser)
    (timestamp : Time) (participants : list string) (e : Effect) : Prop :=
  exists participantId socketId other,
    In participantId participants
    /\ In socketId (targetSocketsOf st participantId)
    /\ e = Emit (IoTo socketId) "dm list update"
             (PDmListUpdate
                [mkDmListEntry chatId other timestamp
                   (negb (String.eqb participantId userId))])
    /\ (participantId = userId -> other = Some sender).

Lemma isDmSummary_tail st userId chatId sender timestamp p rest e :
  isDmSummary st userId chatId sender timestamp rest e ->
  isDmSummary st userId chatId sender timestamp (p :: rest) e.
Proof.
  intros [q [sid [other [Hq Hrest]]]]. exists q, sid, other.
  split; [now right | exact Hrest].
Qed.

Lemma isDmSummary_head st userId chatId sender timestamp p rest e ts other :
  JsMap.get p (userSockets st) = Some ts ->
  (p = userId -> other = Some sender) ->
  In e (dmListNotify ts
          (mkDmListEntry chatId other timestamp (negb (String.eqb p userId)))) ->
  isDmSummary st userId chatId sender timestamp (p :: rest) e.
Proof.
  intros Hts Hother Hin. apply dmListNotify_In in Hin as [sid [Hsid ->]].
  exists p, sid, other. unfold targetSocketsOf. rewrite Hts.
  repeat split; auto. now left.
Qed.

(** X6. Every effect of the per-participant push that follows a direct
    message is a ['dm list update'] sent to a live socket of one of the
    room's participants, carrying the chat id and the message's timestamp;
    it is flagged unread exactly when that participant is not the sender,
    and the sender's own sockets get the sender's details as the other
    user. *)
Theorem dm_summaries_flag_recipients_only st userId chatId sender timestamp
    participants w e :
  In e (fst (dmSummaries st userId chatId sender timestamp participants w)) ->
  exists participantId socketId other,
    In participantId participants
    /\ In socketId (targetSocketsOf st participantId)
    /\ e = Emit (IoTo socketId) "dm list update"
             (PDmListUpdate
                [mkDmListEntry chatId other timestamp
                   (negb (String.eqb participantId userId))])
    /\ (participantId = userId -> other = Some sender).
Proof.
  change (In e (fst (dmSummaries st userId chatId sender timestamp participants w)) ->
          isDmSummary st userId chatId sender timestamp participants e).
  revert w. induction participants as [|p rest IH]; intros w; cbn [dmSummaries].
  - intros [].
  - destruct (JsMap.get p (userSockets st)) as [ts|] eqn:Hts.
    + destruct (0 <? JsSet.size ts)%nat.
      * destruct (String.eqb p userId) eqn:Ep.
        -- destruct (dmSummaries st userId chatId sender timestamp rest w)
             as [es w2] eqn:Hrec.
           cbn [fst]. intros Hin. apply in_app_or in Hin as [Hin|Hin].
           ++ apply (isDmSummary_head _ _ _ _ _ _ _ _ ts (Some sender) Hts);
                [reflexivity | now rewrite Ep].
           ++ apply isDmSummary_tail, (IH w). now rewrite Hrec.
        -- destruct (findUserById p w) as [[u|err] w1].
           ++ destruct (dmSummaries st userId chatId sender timestamp rest w1)
                as [es w2] eqn:Hrec.
              cbn [fst]. intros Hin. apply in_app_or in Hin as [Hin|Hin].
              ** apply (isDmSummary_head _ _ _ _ _ _ _ _ ts
                          (option_map formatUserForClient u) Hts);
                   [|now rewrite Ep].
                 intros ->. rewrite String.eqb_refl in Ep. discriminate.
              ** apply isDmSummary_tail, (IH w1). now rewrite Hrec.
           ++ destruct (dmSummaries st userId chatId sender timestamp rest w1)
                as [es w2] eqn:Hrec.
              cbn [fst app]. intros Hin. apply isDmSummary_tail, (IH w1).
              now rewrite Hrec.
      * destruct (dmSummaries st userId chatId sender timestamp rest w)
          as [es w2] eqn:Hrec.
        cbn [fst app]. intros Hin. apply isDmSummary_tail, (IH w). now rewrite Hrec.
    + destruct (dmSummaries st userId chatId sender timestamp rest w)
        as [es w2] eqn:Hrec.
      cbn [fst app]. intros Hin. apply isDmSummary_tail, (IH w). now rewrite Hrec.
Qed.
End DmSummaries.

(** ** The registry, read from [userSockets] *)

(** Every socket id listed for a user is a live connection of that user,
    and no user is listed with an empty set. *)
Definition Listed (st : State) : Prop :=
  forall u s,
    JsMap.get u (userSockets st) = Some s ->
    s <> []
    /\ forall sid, In sid s ->
         exists sd, JsMap.get sid (connectedSockets st) = Some sd /\ sd_userId sd = u.

Lemma Listed_boot room : Listed (bootState room).
Proof. intros u s Hg. discriminate Hg. Qed.

Lemma Listed_update_socket st sid sd sd' ac :
  Listed st ->
  JsMap.get sid (connectedSockets st) = Some sd ->
  sd_userId sd' = sd_userId sd ->
  Listed (mkState (userSockets st) (JsMap.set sid sd' (connectedSockets st)) ac
            (socketUser st)).
Proof.
  intros Li Hsd Hid u s. cbn [userSockets connectedSockets]. intros Hs.
  destruct (Li u s Hs) as [Hne Hall]. split; [assumption|].
  intros sid0 Hin. destruct (Hall sid0 Hin) as [sd0 [Hg0 Ho]].
  rewrite JsMap_get_set. destruct (String.eqb sid sid0) eqn:E; [|eauto].
  apply String.eqb_eq in E. subst sid0. exists sd'. split; [reflexivity|]. congruence.
Qed.

Lemma Listed_leave sock st : Listed st -> Listed (leaveState sock st).
Proof.
  intros Li. destruct (leaveState_cases sock st)
    as [[-> _] | [sd [c [t [Hg [_ [_ [_ [_ ->]]]]]]]]]; [assumption|].
  now apply Listed_update_socket with (sd := sd).
Qed.

Lemma Listed_join sock c t n d st : Listed st -> Listed (joinState sock c t n d st).
Proof.
  intros Li. destruct (joinState_cases sock c t n d st) as [[_ ->] | [sd [Hg ->]]];
    [assumption|].
  now apply Listed_update_socket with (sd := sd).
Qed.

Lemma Listed_connect sock st :
  Registry st -> Listed st ->
  JsMap.get (sock_id sock) (socketUser st) = None ->
  Listed (connectState sock st).
Proof.
  intros R Li Hfresh u s. rewrite connectState_userSockets.
  pose proof (Registry_fresh st (sock_id sock) R Hfresh) as Hnone.
  unfold connectState. cbn [connectedSockets].
  destruct (String.eqb (sock_userId sock) u) eqn:E.
  - apply String.eqb_eq in E. subst u. intros [= <-]. split.
    + intros Hempty.
      assert (In (sock_id sock)
                (JsSet.add (sock_id sock)
                   match JsMap.get (sock_userId sock) (userSockets st) with
                   | Some s => s
                   | None => []
                   end)) as Hin by (apply JsSet_In_add; now left).
      rewrite Hempty in Hin. contradiction.
    + intros sid Hin. apply JsSet_In_add in Hin. rewrite JsMap_get_set.
      destruct (String.eqb (sock_id sock) sid) eqn:Es;
        [eexists; split; reflexivity|].
      apply String.eqb_neq in Es. destruct Hin as [-> | Hin]; [now contradiction Es|].
      destruct (JsMap.get (sock_userId sock) (userSockets st)) as [s0|] eqn:Hs0;
        [|contradiction].
      now apply (Li _ _ Hs0).
  - intros Hs. destruct (Li u s Hs) as [Hne Hall]. split; [assumption|].
    intros sid Hin. destruct (Hall sid Hin) as [sd [Hg Ho]].
    rewrite JsMap_get_set. destruct (String.eqb (sock_id sock) sid) eqn:Es; [|eauto].
    apply String.eqb_eq in Es. subst sid. congruence.
Qed.

Lemma Listed_drop sock st :
  Registry st -> Listed st ->
  JsMap.get (sock_id sock) (socketUser st) = Some (sock_user sock) ->
  Listed (dropState sock st).
Proof.
  intros R Li Hsock u s. unfold dropState. cbn [userSockets connectedSockets].
  assert (forall s0 sid,
            JsMap.get u (userSockets st) = Some s0 -> In sid s0 ->
            sid <> sock_id sock \/ u = sock_userId sock ->
            sid <> sock_id sock ->
            exists sd, JsMap.get sid (JsMap.delete (sock_id sock) (connectedSockets st))
                       = Some sd /\ sd_userId sd = u) as Hkeep.
  { intros s0 sid Hs0 Hin _ Hne. destruct (Li u s0 Hs0) as [_ Hall].
    destruct (Hall sid Hin) as [sd [Hg Ho]]. exists sd. split; [|assumption].
    rewrite JsMap_get_delete.
    destruct (String.eqb (sock_id sock) sid) eqn:E; [|assumption].
    apply String.eqb_eq in E. now contradiction Hne. }
  assert (forall s0 sid,
            u <> sock_userId sock ->
            JsMap.get u (userSockets st) = Some s0 -> In sid s0 ->
            sid <> sock_id sock) as Hother.
  { intros s0 sid Hne Hs0 Hin ->. destruct (Li u s0 Hs0) as [_ Hall].
    destruct (Hall _ Hin) as [sd [Hg Ho]].
    pose proof (Registry_sock st _ _ sd R Hsock Hg) as Hown.
    apply Hne. rewrite <- Ho, Hown. reflexivity. }
  destruct (JsMap.get (sock_userId sock) (userSockets st)) as [mine|] eqn:Hmine.
  - destruct (JsSet.size (JsSet.delete (sock_id sock) mine) =? 0)%nat eqn:Hsize.
    + rewrite JsMap_get_delete.
      destruct (String.eqb (sock_userId sock) u) eqn:E; [discriminate|].
      apply String.eqb_neq in E. intros Hs. destruct (Li u s Hs) as [Hne _].
      split; [assumption|]. intros sid Hin.
      apply (Hkeep s sid Hs Hin); [left|]; apply (Hother s sid); auto.
    + rewrite JsMap_get_set.
      destruct (String.eqb (sock_userId sock) u) eqn:E.
      * apply String.eqb_eq in E. subst u. intros [= <-]. split.
        -- intros Hempty. rewrite Hempty in Hsize. discriminate.
        -- intros sid Hin. apply JsSet_In_delete in Hin as [Hne Hin].
           apply (Hkeep mine sid Hmine Hin); auto.
      * apply String.eqb_neq in E. intros Hs. destruct (Li u s Hs) as [Hne _].
        split; [assumption|]. intros sid Hin.
        apply (Hkeep s sid Hs Hin); [left|]; apply (Hother s sid); auto.
  - intros Hs. destruct (Li u s Hs) as [Hne _]. split; [assumption|].
    intros sid Hin.
    assert (u <> sock_userId sock) as Hu by congruence.
    apply (Hkeep s sid Hs Hin); [left|]; apply (Hother s sid); auto.
Qed.

Section ListedRuns.
Context {W : Type} {P : Persistence W}.

Lemma Listed_shape st ev st' :
  Registry st -> Listed st -> Shape st ev st' -> Listed st'.
Proof.
  intros R Li Hs. destruct Hs.
  - assumption.
  - now apply Listed_connect.
  - now apply Listed_leave.
  - now apply Listed_join, Listed_leave.
  - apply Listed_join, Listed_leave. exact Li.
  - exact Li.
  - exact Li.
  - apply Listed_drop; [now apply Registry_leave | now apply Listed_leave|].
    cbn [sock_id sock_user]. now rewrite leaveState_socketUser.
Qed.

Lemma Listed_run (L : nat) guard room st :
  Run L guard (bootState room) st -> Listed st.
Proof.
  induction 1 as [|st ev w st' e w' Hrun IH _ Hstep].
  - apply Listed_boot.
  - eapply Listed_shape; [eapply Registry_run; exact Hrun | exact IH|].
    eapply step_shape. exact Hstep.
Qed.

(** X7. In every state the server can reach from its boot state, with any
    store, [userSockets] lists exactly the live connections: a socket id is
    in the set stored for a user if and only if [connectedSockets] has an
    entry for it that names this user; no user is kept with an empty set;
    and a socket has an entry in [connectedSockets] exactly when its handlers
    are still registered. *)
Theorem user_sockets_are_live_connections (L : nat) guard room st :
  Run L guard (bootState room) st ->
  (forall u sid,
     (exists s, JsMap.get u (userSockets st) = Some s /\ In sid s)
     <-> (exists sd, JsMap.get sid (connectedSockets st) = Some sd /\ sd_userId sd = u))
  /\ (forall u, JsMap.get u (userSockets st) <> Some [])
  /\ (forall sid,
        JsMap.get sid (connectedSockets st) = None
        <-> JsMap.get sid (socketUser st) = None).
Proof.
  intros Hrun. pose proof (Registry_run L _ _ _ Hrun) as R.
  pose proof (Listed_run L _ _ _ Hrun) as Li. split; [|split].
  - intros u sid. split.
    + intros [s [Hs Hin]]. now apply (Li u s Hs).
    + intros [sd [Hg <-]]. now apply (reg_owner st R).
  - intros u Hs. now destruct (Li u [] Hs).
  - intros sid. split.
    + intros Hn. destruct (JsMap.get sid (socketUser st)) as [u|] eqn:Hg;
        [|reflexivity].
      destruct (reg_data st R sid u Hg) as [sd Hsd]. congruence.
    + now apply Registry_fresh.
Qed.
End ListedRuns.

(** ** [activeChats] is a map *)

Lemma NoDup_keys_set {V} k (v : V) m :
  NoDup (JsMap.keys m) -> NoDup (JsMap.keys (JsMap.set k v m)).
Proof.
  intros Hnd. rewrite JsMap_keys_set. destruct (JsMap.has k m) eqn:Hh; [assumption|].
  apply NoDup_app; [assumption | repeat constructor; intros [] |].
  intros x Hin [<- | []]. apply JsMap_has_keys in Hin. congruence.
Qed.

Lemma NoDup_keys_join sock c t n d st :
  NoDup (JsMap.keys (activeChats st)) ->
  NoDup (JsMap.keys (activeChats (joinState sock c t n d st))).
Proof.
  intros Hnd. destruct (joinState_cases sock c t n d st) as [[_ ->] | [sd [_ ->]]];
    [assumption|].
  cbn [activeChats]. rewrite addMember_keys.
  destruct (JsMap.has c (activeChats st)); [assumption | now apply NoDup_keys_set].
Qed.

Lemma NoDup_keys_dm u target c n d st :
  NoDup (JsMap.keys (activeChats st)) ->
  NoDup (JsMap.keys (activeChats (dmState u target c n d st))).
Proof.
  intros Hnd. unfold dmState, set_activeChats. cbn [activeChats].
  destruct (JsMap.has c (activeChats st)).
  - now rewrite !addMember_keys.
  - now apply NoDup_keys_set.
Qed.

Section ChatRuns.
Context {W : Type} {P : Persistence W}.

Lemma NoDup_keys_shape st ev st' :
  NoDup (JsMap.keys (activeChats st)) -> Shape st ev st' ->
  NoDup (JsMap.keys (activeChats st')).
Proof.
  intros Hnd Hs. destruct Hs.
  - assumption.
  - exact Hnd.
  - now rewrite leaveState_keys.
  - apply NoDup_keys_join. now rewrite leaveState_keys.
  - apply NoDup_keys_join. rewrite leaveState_keys. now apply NoDup_keys_dm.
  - now rewrite (dbIdState_keys c ci d st).
  - exact Hnd.
  - unfold dropState. cbn [activeChats]. now rewrite leaveState_keys.
Qed.

Lemma NoDup_keys_run (L : nat) guard room st :
  Run L guard (bootState room) st -> NoDup (JsMap.keys (activeChats st)).
Proof.
  induction 1 as [|st ev w st' e w' _ IH _ Hstep].
  - cbn. repeat constructor. intros [].
  - eapply NoDup_keys_shape; [exact IH|]. eapply step_shape. exact Hstep.
Qed.
End ChatRuns.

(** ** Disconnection and presence on reachable states *)

Lemma leaveState_userSockets sock st : userSockets (leaveState sock st) = userSockets st.
Proof.
  destruct (leaveState_cases sock st)
    as [[-> _] | [sd [c [t [_ [_ [_ [_ [_ ->]]]]]]]]]; reflexivity.
Qed.

Lemma recipients_presence st u status statusMessage lastSeen s :
  In s (recipients "presence update"
          (broadcastPresenceUpdate st u status statusMessage lastSeen))
  <-> exists v, In v (usersToNotify st u) /\ In s (targetSocketsOf st v).
Proof.
  unfold broadcastPresenceUpdate, recipients. rewrite in_flat_map. split.
  - intros [e [He Hs]]. apply in_flat_map in He as [v [Hv Hin]].
    apply in_map_iff in Hin as [s' [<- Hs']]. cbn in Hs.
    destruct Hs as [<- | []]. now exists v.
  - intros [v [Hv Hs]].
    exists (Emit (IoTo s) "presence update" (PPresence u status statusMessage lastSeen)).
    split; [|cbn; now left].
    apply in_flat_map. exists v. split; [assumption|]. apply in_map_iff. now exists s.
Qed.

Lemma usersToNotify_nonmember st u :
  NoDup (JsMap.keys (activeChats st)) ->
  (forall X, ~ In u (membersOf st X)) -> usersToNotify st u = [].
Proof.
  intros Hnd Hnone. destruct (usersToNotify st u) as [|v r] eqn:Hl; [reflexivity|].
  assert (In v (usersToNotify st u)) as Hin by (rewrite Hl; now left).
  apply (usersToNotify_In st u v Hnd) in Hin as [_ [X [Hu _]]].
  now contradiction (Hnone X).
Qed.

Section ReachablePresence.
Context {W : Type} {P : Persistence W}.
Variable L : nat.

(** X8. After the disconnect handler has run on a reachable state, the
    socket is gone from [connectedSockets], from the registered handlers and
    from every set of [userSockets]; the entries of the other sockets and of
    the other users are as before; and if the user is still listed, the set
    is not empty. *)
Theorem disconnect_forgets_connection guard room st sid w st' e w' :
  Run L guard (bootState room) st ->
  step L (Disconnect sid) st w = Some ((st', e), w') ->
  JsMap.get sid (connectedSockets st') = None
  /\ JsMap.get sid (socketUser st') = None
  /\ (forall u s, JsMap.get u (userSockets st') = Some s -> s <> [] /\ ~ In sid s)
  /\ (forall sid', sid' <> sid ->
        JsMap.get sid' (connectedSockets st') = JsMap.get sid' (connectedSockets st)
        /\ JsMap.get sid' (socketUser st') = JsMap.get sid' (socketUser st))
  /\ (forall owner u,
        JsMap.get sid (socketUser st) = Some owner -> u <> user_id owner ->
        JsMap.get u (userSockets st') = JsMap.get u (userSockets st)).
Proof.
  intros Hrun Hstep. pose proof (Registry_run L _ _ _ Hrun) as R.
  pose proof (Listed_run L _ _ _ Hrun) as Li.
  pose proof (Listed_shape st _ st' R Li (step_shape L _ _ _ _ _ _ Hstep)) as Li'.
  cbn [step] in Hstep. unfold withSock in Hstep.
  destruct (JsMap.get sid (socketUser st)) as [owner|] eqn:Hown; [|discriminate].
  injection Hstep as Hstep.
  pose proof (onDisconnect_state (mkSock sid owner) st w) as Hst.
  rewrite Hstep in Hst. cbn [fst] in Hst. subst st'.
  assert (JsMap.get sid
            (connectedSockets (dropState (mkSock sid owner)
                                 (leaveState (mkSock sid owner) st))) = None) as Hgone.
  { unfold dropState. cbn [connectedSockets sock_id]. rewrite JsMap_get_delete.
    now rewrite String.eqb_refl. }
  split; [exact Hgone|]. split; [|split; [|split]].
  - unfold dropState. cbn [socketUser sock_id]. rewrite JsMap_get_delete.
    now rewrite String.eqb_refl.
  - intros u s Hs. destruct (Li' u s Hs) as [Hne Hall]. split; [assumption|].
    intros Hin. destruct (Hall sid Hin) as [sd [Hsd _]]. congruence.
  - intros sid' Hne. unfold dropState. cbn [connectedSockets socketUser sock_id].
    rewrite !JsMap_get_delete.
    assert (String.eqb sid sid' = false) as -> by (apply String.eqb_neq; congruence).
    split.
    + now apply (leaveState_other_sockets (mkSock sid owner)).
    + now rewrite leaveState_socketUser.
  - intros owner' u [= <-] Hne. unfold dropState. cbn [userSockets sock_id].
    rewrite leaveState_userSockets. change (sock_userId (mkSock sid owner)) with (user_id owner).
    destruct (JsMap.get (user_id owner) (userSockets st)) as [mine|]; [|reflexivity].
    destruct (JsSet.size (JsSet.delete sid mine) =? 0)%nat.
    + rewrite JsMap_get_delete.
      assert (String.eqb (user_id owner) u = false) as ->
          by (apply String.eqb_neq; congruence).
      reflexivity.
    + apply JsMap_get_set_other. congruence.
Qed.

(** X9. On a reachable state, a status change that is accepted and stored
    is sent, as a ['presence update'], to exactly the live connections of the
    other users who are in a member set together with the user; the user's
    own connections receive nothing. *)
Theorem status_change_reaches_live_comembers guard room st sid data w st' e w' u :
  Run L guard (bootState room) st ->
  step L (SetStatus sid data) st w = Some ((st', e), w') ->
  JsMap.get sid (socketUser st) = Some u ->
  recipients "error message" e = [] ->
  forall s,
    In s (recipients "presence update" e)
    <-> exists sd X,
          JsMap.get s (connectedSockets st) = Some sd
          /\ sd_userId sd <> user_id u
          /\ In (user_id u) (membersOf st X) /\ In (sd_userId sd) (membersOf st X).
Proof.
  intros Hrun Hstep Hu Hquiet s.
  pose proof (Registry_run L _ _ _ Hrun) as R.
  pose proof (Listed_run L _ _ _ Hrun) as Li.
  pose proof (NoDup_keys_run L _ _ _ Hrun) as Hnd.
  cbn [step] in Hstep. unfold withSock in Hstep. rewrite Hu in Hstep.
  injection Hstep as Hstep. unfold onSetStatus in Hstep. cbv zeta in Hstep.
  cbn [sock_id sock_user] in Hstep.
  change (sock_userId (mkSock sid u)) with (user_id u) in Hstep.
  destruct data as [d|]; [|injection Hstep as <- <- <-; discriminate Hquiet].
  destruct (negb (truthy (sd_status d)));
    [injection Hstep as <- <- <-; discriminate Hquiet|].
  destruct (now w) as [t w1].
  destruct (updateUserStatus _ _ _ t w1) as [[[updated|]|err] w2];
    try (injection Hstep as <- <- <-; discriminate Hquiet).
  injection Hstep as <- <- <-. rewrite recipients_presence.
  set (st1 := set_socketUser st _).
  assert (forall X, membersOf st1 X = membersOf st X) as Hm by reflexivity.
  assert (forall v, targetSocketsOf st1 v = targetSocketsOf st v) as Ht by reflexivity.
  assert (NoDup (JsMap.keys (activeChats st1))) as Hnd1 by exact Hnd.
  split.
  - intros [v [Hv Hs]]. apply (usersToNotify_In st1 _ v Hnd1) in Hv as [Hne [X [Hx Hy]]].
    rewrite Ht in Hs. unfold targetSocketsOf in Hs.
    destruct (JsMap.get v (userSockets st)) as [vs|] eqn:Hvs; [|contradiction].
    destruct (Li v vs Hvs) as [_ Hall]. destruct (Hall s Hs) as [sd [Hsd Ho]].
    exists sd, X. rewrite Ho. rewrite !Hm in *. auto.
  - intros [sd [X [Hsd [Hne [Hx Hy]]]]]. exists (sd_userId sd). split.
    + apply (usersToNotify_In st1 _ _ Hnd1). split; [assumption|].
      exists X. rewrite !Hm. auto.
    + rewrite Ht. unfold targetSocketsOf.
      destruct (reg_owner st R s sd Hsd) as [vs [-> Hin]]. exact Hin.
Qed.

(** X10. The server is booted and handles any events, join requests being
    handled in two halves or at once, with no ['initiate dm'] and no join
    request of a socket while an earlier one of that socket is waiting.  If
    the user of a new connection has no live connection and is not in the
    member set of the chat with the empty id, the ['online'] broadcast of
    the connection handler, run at once, reaches nobody: the user is in no
    member set, so the set of users to notify is empty. *)
Theorem first_connection_reaches_nobody room c sid user w st' e w' :
  ARun L oneJoinNoDm (bootConfig room) c ->
  JsMap.get (user_id user) (userSockets (cfg_state c)) = None ->
  ~ In (user_id user) (membersOf (cfg_state c) "") ->
  step L (Connection sid user) (cfg_state c) w = Some ((st', e), w') ->
  recipients "presence update" e = [].
Proof.
  intros Hrun Hnew Hempty Hstep.
  pose proof (Registry_arun L _ _ _ Hrun) as R.
  assert (NoDup (JsMap.keys (activeChats (cfg_state c)))) as Hnd.
  { apply (arun_preserves L (fun s => NoDup (JsMap.keys (activeChats s)))
             oneJoinNoDm room c); auto.
    - intros s ev s'. apply NoDup_keys_shape.
    - intros sock x t n d s. apply NoDup_keys_join.
    - cbn. repeat constructor. intros []. }
  destruct (members_attached_run L room c Hrun) as [_ M _].
  set (st := cfg_state c) in *.
  assert (forall X, ~ In (user_id user) (membersOf st X)) as Hnone.
  { intros X Hin. destruct (truthy X) eqn:HX.
    - destruct (M X _ HX Hin) as [s [sd [Hsd [Ho _]]]].
      destruct (reg_owner st R s sd Hsd) as [vs [Hvs _]]. congruence.
    - unfold truthy in HX. apply negb_false_iff, String.eqb_eq in HX. subst X.
      now apply Hempty. }
  cbn [step] in Hstep.
  destruct (JsMap.has sid (socketUser st)); [discriminate|].
  destruct (negb (truthy (user_id user))); [now injection Hstep as <- <- <-|].
  injection Hstep as Hstep. unfold onConnection in Hstep. cbv zeta in Hstep.
  change (sock_userId (mkSock sid user)) with (user_id user) in Hstep.
  match type of Hstep with
  | context [broadcastPresenceUpdate ?s1 _ _ _ _] =>
      assert (forall t, broadcastPresenceUpdate s1 (user_id user) "online" None t = [])
        as Hsilent
  end.
  { intros t. unfold broadcastPresenceUpdate.
    rewrite usersToNotify_nonmember; [reflexivity | exact Hnd | exact Hnone]. }
  destruct (match JsMap.get (user_id user) _ with Some _ => _ | None => false end)
    in Hstep.
  - destruct (now w) as [t w1].
    destruct (updateUserStatus _ _ _ t w1) as [[[updated|]|err] w2].
    + pose proof (sendInitialData_no_presence (mkSock sid user) w2) as Hi.
      destruct (sendInitialData (mkSock sid user) w2) as [ei w3].
      injection Hstep as <- <- <-. rewrite Hsilent. exact Hi.
    + now injection Hstep as <- <- <-.
    + pose proof (sendInitialData_no_presence (mkSock sid user) w2) as Hi.
      destruct (sendInitialData (mkSock sid user) w2) as [ei w3].
      injection Hstep as <- <- <-. exact Hi.
  - pose proof (sendInitialData_no_presence (mkSock sid user) w) as Hi.
    destruct (sendInitialData (mkSock sid user) w) as [ei w3].
    injection Hstep as <- <- <-. exact Hi.
Qed.
End ReachablePresence.

(** ** Joining a chat (socket.on('join chat')) *)

Section JoinOutcome.
Context {W : Type} `{Persistence W}.
Variable L : nat.


End JoinOutcome.

(** ** Joining a direct chat *)

Lemma includes_In x l : includes x l = true <-> In x l.
Proof.
  unfold includes. rewrite existsb_exists. split.
  - intros [y [Hy He]]. apply String.eqb_eq in He. now subst.
  - intros Hin. exists x. split; [assumption | apply String.eqb_refl].
Qed.

Section DirectJoin.
Context {W : Type} {P : Persistence W}.
Variable L : nat.

(** X12. Whatever the store, a join request for a direct chat is confirmed
    only if [ObjectId.isValid] accepts the requested id, the store returns
    for that id a room of type [direct], and the participants the store
    then returns for that id include the requesting user; the confirmation
    names the id of the room the store returned, with [isNew = false].
    Nobody is confirmed in a direct chat whose stored participants do not
    include them. *)
Theorem direct_join_needs_participant sock requestedId st (w : W) :
  let out := onJoinChat L sock (Some (mkJoinData "direct" requestedId)) st w in
  joinedOf (snd (fst out)) <> [] ->
  exists chatDoc others r w2 w3,
    isValidObjectId requestedId = true
    /\ findRoomByIdPopulated requestedId (sock_userId sock)
         (snd (leaveCurrentChat sock st w))
       = (Ok (Some (chatDoc, others)), w2)
    /\ room_type chatDoc = "direct"
    /\ findRoomById requestedId w2 = (Ok (Some r), w3)
    /\ In (sock_userId sock) (room_participants r)
    /\ joinedOf (snd (fst out))
       = [(sock_id sock, mkChatRef "direct" (room_id chatDoc), false)].
Proof.
  intros out. subst out. unfold onJoinChat, joinResume. cbv zeta. cbn [jd_type jd_id].
  change (truthy "direct") with true. cbn [negb orb].
  destruct (truthy requestedId);
    [cbn [negb] | intros Hj; now contradiction Hj].
  pose proof (joinedOf_leave sock st w) as Hl.
  destruct (leaveCurrentChat sock st w) as [[st1 e1] w1]. cbn [fst snd] in Hl |- *.
  change (String.eqb "direct" "room") with false.
  change (String.eqb "direct" "direct") with true. cbv iota.
  assert (forall m (w' : W),
            joinedOf (snd (fst ((st1, e1 ++ [sendError (sock_id sock) m]), w')))
            <> [] -> False) as Hrej.
  { intros m w' Hj. apply Hj. cbn [fst snd]. now rewrite joinedOf_app, Hl. }
  destruct (isValidObjectId requestedId) eqn:Hv; cbn [negb];
    [|intros Hj; now apply Hrej in Hj].
  destruct (findRoomByIdPopulated requestedId (sock_userId sock) w1)
    as [[[[chatDoc others]|]|err] w2] eqn:Hpop;
    try (intros Hj; now apply Hrej in Hj).
  destruct (String.eqb (room_type chatDoc) "direct") eqn:Ht; cbn [negb];
    [|intros Hj; now apply Hrej in Hj].
  destruct (findRoomById requestedId w2) as [[[r|]|err] w3] eqn:Hr;
    try (intros Hj; now apply Hrej in Hj).
  destruct (includes (sock_userId sock) (room_participants r)) eqn:Hp; cbn [negb];
    [|intros Hj; now apply Hrej in Hj].
  apply String.eqb_eq in Ht. apply includes_In in Hp.
  intros Hj. exists chatDoc, others, r, w2, w3.
  do 5 (split; [first [assumption | reflexivity]|]). revert Hj.
  assert (forall other (w' : W),
            joinedOf (snd (fst (completeJoin L sock "direct" (room_id chatDoc)
                                  (cu_username other) (cu_avatarUrl other)
                                  (room_id chatDoc) false st1 e1 w')))
            = [(sock_id sock, mkChatRef "direct" (room_id chatDoc), false)]) as Hok
      by (intros other w'; now apply joinedOf_completeJoin).
  destruct others as [|o os]; [|intros _; apply Hok].
  destruct (find (fun id => negb (String.eqb id (sock_userId sock)))
              (room_participants r)) as [p|];
    [|intros Hj; now apply Hrej in Hj].
  destruct (findUserById p w3) as [[[u|]|err] w4];
    try (intros Hj; now apply Hrej in Hj).
  intros _. apply Hok.
Qed.
End DirectJoin.

(** ** One direct room per user, on the reference store *)

Section DirectRooms.
Import RefDb.

(** [u] is a participant of a stored direct room. *)
Definition inDirectRoom (w : Db) (u : string) : bool :=
  existsb
    (fun r => String.eqb (room_type r) "direct" && includes u (room_participants r))
    (db_rooms w).

Lemma isDirectBetween_pair a b r :
  isDirectBetween (sortPair a b) r = true ->
  room_type r = "direct" /\ In a (room_participants r) /\ In b (room_participants r)
  /\ List.length (room_participants r) = 2.
Proof.
  unfold isDirectBetween. rewrite !andb_true_iff, forallb_forall.
  intros [[Ht Hl] Hall]. apply String.eqb_eq in Ht. apply Nat.eqb_eq in Hl.
  repeat split; try assumption; apply includes_In, Hall;
    destruct (sortPair_cases a b) as [-> | ->]; cbn; auto.
Qed.

Lemma isDirectBetween_new a b id t :
  isDirectBetween (sortPair a b) (mkRoom id "" "" "direct" "" (sortPair a b) t) = true.
Proof.
  unfold isDirectBetween. cbn [room_type room_participants].
  destruct (sortPair_cases a b) as [-> | ->]; cbn; now rewrite !String.eqb_refl, ?orb_true_r.
Qed.

(** The multikey index refuses the new room of a pair exactly when one of
    the two is already in a direct room. *)
Lemma violatesUnique_direct (w : Db) id a b t :
  violatesUnique w (mkRoom id "" "" "direct" "" (sortPair a b) t)
  = inDirectRoom w a || inDirectRoom w b.
Proof.
  unfold violatesUnique, inDirectRoom, sharesParticipant.
  cbn [room_name room_type room_participants].
  change (truthy "") with false. change (String.eqb "direct" "direct") with true.
  cbn [andb orb].
  induction (db_rooms w) as [|r rs IH]; [reflexivity|]. cbn [existsb]. rewrite IH.
  destruct (String.eqb (room_type r) "direct"); cbn [andb orb].
  - destruct (sortPair_cases a b) as [-> | ->]; cbn [existsb];
      destruct (includes a (room_participants r));
      destruct (includes b (room_participants r));
      destruct (existsb _ rs); destruct (existsb _ rs); reflexivity.
  - now destruct (existsb _ rs); destruct (existsb _ rs).
Qed.

Definition newDirectRoom (w : Db) (a b : string) : RoomDoc :=
  mkRoom (objectIdOf (db_nextId w)) "" "" "direct" "" (sortPair a b) (db_clock w).

Definition consumed (w : Db) : Db :=
  mkDb (db_rooms w) (db_users w) (db_messages w) (S (db_clock w)) (S (db_nextId w)).

Definition withDirectRoom (w : Db) (a b : string) : Db :=
  mkDb (db_rooms w ++ [newDirectRoom w a b]) (db_users w) (db_messages w)
    (S (db_clock w)) (S (db_nextId w)).

(** The three outcomes of the resolver on the reference store. *)
Lemma refdb_resolver a b (w : Db) :
  a <> b ->
  findOrCreateDirectMessage a b w
  = match find (isDirectBetween (sortPair a b)) (db_rooms w) with
    | Some r => (Ok (r, false), w)
    | None =>
        if inDirectRoom w a || inDirectRoom w b
        then (Err (wrapDmError inconsistentError), consumed w)
        else (Ok (newDirectRoom w a b, true), withDirectRoom w a b)
    end.
Proof.
  intros Hne. unfold findOrCreateDirectMessage.
  assert (String.eqb a b = false) as -> by now apply String.eqb_neq.
  cbv zeta. cbn [findDirectRoom newObjectId now saveRoom persistence freshId tick].
  destruct (find (isDirectBetween (sortPair a b)) (db_rooms w)) as [r|] eqn:Hf;
    [reflexivity|].
  cbn [db_nextId db_clock]. unfold insertRoom.
  rewrite violatesUnique_direct. unfold inDirectRoom.
  cbn [db_rooms db_users db_messages db_clock db_nextId].
  fold (inDirectRoom w a). fold (inDirectRoom w b).
  destruct (inDirectRoom w a || inDirectRoom w b); [|reflexivity].
  change (isDuplicateKey duplicateKey) with true. cbv iota.
  cbn [findDirectRoom persistence db_rooms]. now rewrite Hf.
Qed.

Lemma refdb_resolver_found a b (w : Db) r :
  a <> b ->
  find (isDirectBetween (sortPair a b)) (db_rooms w) = Some r ->
  findOrCreateDirectMessage a b w = (Ok (r, false), w)
  /\ findOrCreateDirectMessage b a w = (Ok (r, false), w).
Proof.
  intros Hne Hf. split.
  - now rewrite (refdb_resolver a b w Hne), Hf.
  - assert (b <> a) as Hne' by congruence.
    now rewrite (refdb_resolver b a w Hne'), <- (sortPair_comm a b Hne), Hf.
Qed.

(** What a successful call of the resolver says about the store. *)
Lemma refdb_direct_outcome a b (w : Db) room isNew w1 :
  a <> b ->
  findOrCreateDirectMessage a b w = (Ok (room, isNew), w1) ->
  room_type room = "direct"
  /\ In a (room_participants room) /\ In b (room_participants room)
  /\ List.length (room_participants room) = 2
  /\ db_users w1 = db_users w
  /\ find (isDirectBetween (sortPair a b)) (db_rooms w1) = Some room.
Proof.
  intros Hne. rewrite (refdb_resolver a b w Hne).
  destruct (find (isDirectBetween (sortPair a b)) (db_rooms w)) as [r|] eqn:Hf.
  - intros [= <- <- <-]. pose proof (find_some _ _ Hf) as [_ Hp].
    apply isDirectBetween_pair in Hp as [Ht [Ha [Hb Hl]]]. auto 10.
  - destruct (inDirectRoom w a || inDirectRoom w b); [discriminate|].
    intros [= <- <- <-].
    pose proof (isDirectBetween_pair a b _
                  (isDirectBetween_new a b (objectIdOf (db_nextId w)) (db_clock w)))
      as [Ht [Ha [Hb Hl]]].
    repeat (split; [first [assumption | reflexivity]|]).
    cbn [withDirectRoom db_rooms]. rewrite (find_app_last _ _ _ Hf).
    unfold newDirectRoom. now rewrite isDirectBetween_new.
Qed.

(** X13. On the reference store, whose index on the participants of the
    direct rooms holds one key per participant, the resolver called for two
    distinct users does one of three things.  If a direct room of the two is
    stored, it returns that room, not flagged as new, and leaves the store
    as it is.  If none is stored and neither user is in any stored direct
    room, it appends a new direct room of the sorted pair, returns it
    flagged as new, and any later call for the two users, in either order,
    returns this room, not flagged as new, without changing the store.  If
    none is stored and one of the two is already in a direct room, the save
    is refused as a duplicate, the second query finds nothing, and the call
    fails with the could-not-find-or-create error, the stored rooms being as
    before: a user gets at most one direct room. *)
Theorem direct_room_is_shared a b (w : Db) :
  a <> b ->
  let out := findOrCreateDirectMessage a b w in
  (forall r, find (isDirectBetween (sortPair a b)) (db_rooms w) = Some r ->
     out = (Ok (r, false), w)
     /\ room_type r = "direct"
     /\ In a (room_participants r) /\ In b (room_participants r)
     /\ List.length (room_participants r) = 2)
  /\ (find (isDirectBetween (sortPair a b)) (db_rooms w) = None ->
      inDirectRoom w a = false -> inDirectRoom w b = false ->
      exists room w1,
        out = (Ok (room, true), w1)
        /\ room_type room = "direct" /\ room_participants room = sortPair a b
        /\ db_rooms w1 = db_rooms w ++ [room]
        /\ findOrCreateDirectMessage a b w1 = (Ok (room, false), w1)
        /\ findOrCreateDirectMessage b a w1 = (Ok (room, false), w1))
  /\ (find (isDirectBetween (sortPair a b)) (db_rooms w) = None ->
      inDirectRoom w a = true \/ inDirectRoom w b = true ->
      exists w1,
        out = (Err (wrapDmError inconsistentError), w1)
        /\ db_rooms w1 = db_rooms w).
Proof.
  intros Hne out. subst out. rewrite (refdb_resolver a b w Hne).
  split; [|split].
  - intros r Hf. rewrite Hf. split; [reflexivity|].
    pose proof (find_some _ _ Hf) as [_ Hp]. now apply isDirectBetween_pair in Hp.
  - intros Hf Ha Hb. rewrite Hf, Ha, Hb. cbn [orb].
    exists (newDirectRoom w a b), (withDirectRoom w a b).
    split; [reflexivity|]. split; [reflexivity|]. split; [reflexivity|].
    split; [reflexivity|].
    apply refdb_resolver_found; [assumption|].
    cbn [withDirectRoom db_rooms]. rewrite (find_app_last _ _ _ Hf).
    unfold newDirectRoom. now rewrite isDirectBetween_new.
  - intros Hf Hab. rewrite Hf.
    assert (inDirectRoom w a || inDirectRoom w b = true) as ->
        by (apply orb_true_iff; exact Hab).
    exists (consumed w). split; reflexivity.
Qed.
End DirectRooms.

(** ** A message on the reference store *)

Lemma refdb_dmSummaries_world st userId chatId sender timestamp participants (w : Db) :
  snd (dmSummaries st userId chatId sender timestamp participants w) = w.
Proof.
  induction participants as [|p rest IH]; [reflexivity|]. cbn [dmSummaries].
  cbn [findUserById persistence].
  destruct (JsMap.get p (userSockets st)) as [ts|].
  - destruct (0 <? JsSet.size ts)%nat.
    + destruct (String.eqb p userId);
        destruct (dmSummaries st userId chatId sender timestamp rest w) as [es w2];
        cbn [snd] in *; exact IH.
    + destruct (dmSummaries st userId chatId sender timestamp rest w) as [es w2].
      cbn [snd] in *. exact IH.
  - destruct (dmSummaries st userId chatId sender timestamp rest w) as [es w2].
    cbn [snd] in *. exact IH.
Qed.

Lemma newestFirst_latest m l :
  (forall x, In x l -> msg_createdAt x < msg_createdAt m) ->
  newestFirst (l ++ [m]) = m :: newestFirst l.
Proof.
  intros Hold. induction l as [|x l IH]; [reflexivity|].
  cbn [app newestFirst fold_right]. fold (newestFirst (l ++ [m])).
  fold (newestFirst l). rewrite IH by (intros y Hy; apply Hold; now right).
  cbn [insertNewest].
  assert ((msg_createdAt m <=? msg_createdAt x)%nat = false) as ->; [|reflexivity].
  apply Nat.leb_gt, Hold. now left.
Qed.

(** [trim] is idempotent: a trimmed text neither starts nor ends with white
    space. *)
Definition headOk (t : JsText) : Prop :=
  match t with
  | c :: _ => is_js_space c = false
  | [] => True
  end.

Lemma trimStart_headOk t : headOk (trimStart t).
Proof.
  induction t as [|c r IH]; cbn; [exact I|].
  destruct (is_js_space c) eqn:E; [exact IH | exact E].
Qed.

Lemma trimStart_id t : headOk t -> trimStart t = t.
Proof. destruct t as [|c r]; cbn; [reflexivity|]. now intros ->. Qed.

Lemma trimStart_suffix t : exists p, t = p ++ trimStart t.
Proof.
  induction t as [|c r [p Hp]]; cbn; [now exists []|].
  destruct (is_js_space c); [|now exists []].
  exists (c :: p). cbn. now f_equal.
Qed.

Lemma trimEnd_headOk t : headOk t -> headOk (trimEnd t).
Proof.
  intros Ht. unfold trimEnd.
  destruct (trimStart_suffix (rev t)) as [p Hp].
  destruct (rev (trimStart (rev t))) as [|c r] eqn:E; [exact I|].
  assert (t = (c :: r) ++ rev p) as Ht'
      by (rewrite <- E, <- rev_app_distr, <- Hp; now rewrite rev_involutive).
  rewrite Ht' in Ht. exact Ht.
Qed.

Lemma trim_headOk t : headOk (trim t).
Proof. apply trimEnd_headOk, trimStart_headOk. Qed.

Lemma trimEnd_idem t : trimEnd (trimEnd t) = trimEnd t.
Proof.
  unfold trimEnd. rewrite rev_involutive.
  now rewrite (trimStart_id _ (trimStart_headOk (rev t))).
Qed.

Lemma trim_idem t : trim (trim t) = trim t.
Proof.
  unfold trim at 1. rewrite (trimStart_id _ (trim_headOk t)).
  unfold trim. apply trimEnd_idem.
Qed.

Section SendOnStore.
Variables (sock : Sock) (text : JsText) (chat : ChatRef) (ci : ChatInfo).
Variables (st : State) (w : Db).

(** The document [new Message({ text, sender, chat }).save()] stores. *)
Definition sentMessage : MessageDoc :=
  mkMessage (objectIdOf (db_nextId w)) (trim text) (sock_userId sock) None
    (chat_dbId ci) (db_clock w).

(** The store after the message is saved and the room's activity updated. *)
Definition sentDb : Db :=
  mkDb
    (map (fun r =>
            if String.eqb (room_id r) (chat_dbId ci)
            then setLastActivity (db_clock w) r else r)
       (db_rooms w))
    (db_users w) (db_messages w ++ [sentMessage]) (S (db_clock w)) (S (db_nextId w)).

(** The sender as the broadcast shows it. *)
Definition senderOf : ClientUser :=
  formatUserForClient
    (match userById w (sock_userId sock) with
     | Some u => u
     | None => sock_user sock
     end).

Hypothesis Hatt : attachment st (sock_id sock) = Some chat.
Hypothesis Htext : trim text <> [].
Hypothesis Hlen : List.length (trim text) <= MAX_MESSAGE_LENGTH.
Hypothesis Hci : JsMap.get (ref_id chat) (activeChats st) = Some ci.
Hypothesis Hsender : validObjectId (sock_userId sock) = true.
Hypothesis Hid : validObjectId (chat_dbId ci) = true.
Hypothesis Hfresh :
  find (fun m => String.eqb (msg_id m) (objectIdOf (db_nextId w))) (db_messages w) = None.

Lemma send_not_blocked : ~ sendBlocked sock text chat st.
Proof. unfold sendBlocked. intros [Hb | [Hb | Hb]]; [contradiction | contradiction | lia]. Qed.

Lemma validObjectId_truthy s : validObjectId s = true -> truthy s = true.
Proof.
  unfold validObjectId. intros Hv. apply andb_true_iff in Hv as [Hl _].
  destruct s; [discriminate | reflexivity].
Qed.

Lemma refdb_save :
  insertMessage (trim text) (sock_userId sock) (chat_dbId ci) w
  = (Ok sentMessage,
     mkDb (db_rooms w) (db_users w) (db_messages w ++ [sentMessage]) (S (db_clock w))
       (S (db_nextId w))).
Proof.
  unfold insertMessage. cbv zeta. rewrite trim_idem, Hsender, Hid.
  assert ((List.length (trim text) =? 0)%nat = false) as ->.
  { apply Nat.eqb_neq. intros Hz. apply Htext. now apply length_zero_iff_nil. }
  assert ((1000 <? List.length (trim text))%nat = false) as ->.
  { apply Nat.ltb_ge. exact Hlen. }
  reflexivity.
Qed.

Lemma refdb_send :
  onChatMessage sock (Some (mkMsgData (Some text) (Some chat))) st w
  = ((st,
      Emit (IoTo (ref_id chat)) "chat message"
        (PChatMessage senderOf (trim text) (db_clock w) chat)
      :: (if String.eqb (ref_type chat) "direct" then
            match find (fun r => String.eqb (room_id r) (chat_dbId ci))
                    (db_rooms sentDb) with
            | Some r =>
                fst (dmSummaries st (sock_userId sock) (ref_id chat) senderOf
                       (db_clock w) (room_participants r) sentDb)
            | None => []
            end
          else [])),
     sentDb).
Proof.
  rewrite (send_accepted sock text chat st w ci send_not_blocked Hci
             (validObjectId_truthy _ Hid)).
  unfold persistAndBroadcast. cbv zeta.
  cbn [saveMessage touchRoom findMessageById persistence]. rewrite refdb_save.
  unfold sentMessage.
  cbn [touch msg_createdAt msg_id db_rooms db_users db_messages db_clock db_nextId].
  fold sentMessage. rewrite (find_app_last _ _ _ Hfresh).
  cbn [sentMessage msg_id]. rewrite String.eqb_refl. cbn [option_map].
  cbn [populateSender msg_senderDoc msg_text msg_createdAt msg_sender].
  fold sentMessage. fold sentDb.
  change (userById sentDb (msg_sender sentMessage))
    with (userById w (sock_userId sock)).
  change (msg_text sentMessage) with (trim text).
  change (msg_createdAt sentMessage) with (db_clock w).
  fold senderOf. destruct chat as [t c]. cbn [ref_type ref_id].
  destruct (String.eqb t "direct"); [|reflexivity].
  change (db_rooms sentDb)
    with (map (fun r =>
                 if String.eqb (room_id r) (chat_dbId ci)
                 then setLastActivity (db_clock w) r else r)
            (db_rooms w)).
  destruct (find _ (map _ (db_rooms w))) as [r|]; [|reflexivity].
  pose proof (refdb_dmSummaries_world st (sock_userId sock) c senderOf (db_clock w)
                (room_participants r) sentDb) as Hw.
  destruct (dmSummaries st (sock_userId sock) c senderOf (db_clock w)
              (room_participants r) sentDb) as [es w4].
  cbn [fst snd] in *. now subst w4.
Qed.

(** X14. On the reference store, where a message is saved under the
    Message schema ([text] trimmed, required, of at most 1000 code units;
    [sender] and [chat] cast to ObjectIds).  A socket whose user id is a
    well-formed ObjectId sends to the chat it is attached to, whose backing
    id is a well-formed ObjectId, a text of 1 to 1000 code units once
    trimmed, while the next message id is fresh.  Then the message is stored
    once, at the end of the messages, with the trimmed text, the sender's
    id, the backing id of the chat and the current time; the room's last
    activity is set to that time; the shared state is unchanged; and the
    first effect is one ['chat message'] to the chat's channel with the same
    text and time.  Nothing else is emitted unless the chat is direct, where
    the per-participant summaries follow. *)
Theorem send_is_stored_and_broadcast :
  let out := onChatMessage sock (Some (mkMsgData (Some text) (Some chat))) st w in
  fst (fst out) = st
  /\ snd out = sentDb
  /\ db_messages (snd out) = db_messages w ++ [sentMessage]
  /\ (forall r, In r (db_rooms (snd out)) -> room_id r = chat_dbId ci ->
        room_lastActivity r = db_clock w)
  /\ exists summaries,
       snd (fst out)
       = Emit (IoTo (ref_id chat)) "chat message"
           (PChatMessage senderOf (trim text) (db_clock w) chat) :: summaries
       /\ (ref_type chat <> "direct" -> summaries = []).
Proof.
  intros out. subst out. rewrite refdb_send. cbn [fst snd].
  split; [reflexivity|]. split; [reflexivity|]. split; [reflexivity|]. split.
  - intros r Hin Hr. cbn [sentDb db_rooms] in Hin. apply in_map_iff in Hin as [r0 [Heq Hin]].
    destruct (String.eqb (room_id r0) (chat_dbId ci)) eqn:E.
    + now subst r.
    + subst r. apply String.eqb_neq in E. now contradiction E.
  - eexists. split; [reflexivity|]. intros Hnd.
    apply String.eqb_neq in Hnd. now rewrite Hnd.
Qed.

Variable L : nat.
Hypothesis Holder :
  forallb
    (fun x => negb (String.eqb (msg_chat x) (chat_dbId ci))
              || (msg_createdAt x <? db_clock w)%nat)
    (db_messages w) = true.

(** X15. Send, then join.  Under the conditions of X14, if moreover every
    stored message of the chat is older than the store's clock, then the
    history loaded for a socket that joins the chat after the send ends with
    the message just sent: its text is the trimmed text, its time the time
    of the save, and its sender the sending user as stored (id, name, avatar
    or the default avatar, status or [offline]), or the deleted-user record
    if the store does not hold the user.  Before it come the newest earlier
    messages of the chat: [L - 1] of them at most for a positive limit [L],
    all of them for a limit of 0.  Loading the history raises no error and
    leaves the store as the send left it. *)
Theorem sent_message_ends_history socketId :
  exists earlier last,
    getRecentMessages L socketId (chat_dbId ci)
      (snd (onChatMessage sock (Some (mkMsgData (Some text) (Some chat))) st w))
    = ((earlier ++ [last], []), sentDb)
    /\ cm_text last = trim text
    /\ cm_timestamp last = db_clock w
    /\ cm_sender last
       = match userById w (sock_userId sock) with
         | Some u =>
             mkClientUser (Some (user_id u)) (user_username u)
               (if truthy (user_avatarUrl u) then user_avatarUrl u
                else "/uploads/avatars/default.png")
               (if truthy (user_status u) then user_status u else "offline")
         | None =>
             mkClientUser None "[Deleted User]" "/uploads/avatars/default.png" "offline"
         end
    /\ List.length earlier
       = (if (L =? 0)%nat then List.length (messagesOf w (chat_dbId ci))
          else Nat.min (L - 1) (List.length (messagesOf w (chat_dbId ci)))).
Proof.
  rewrite refdb_send. cbn [snd]. rewrite (refdb_recent L socketId _ sentDb Hid).
  unfold recent.
  assert (messagesOf sentDb (chat_dbId ci)
          = messagesOf w (chat_dbId ci) ++ [sentMessage]) as ->.
  { unfold messagesOf. cbn [sentDb db_messages]. rewrite filter_app.
    cbn [filter sentMessage msg_chat]. now rewrite String.eqb_refl. }
  rewrite newestFirst_latest.
  - assert (exists rest,
              limit L (sentMessage :: newestFirst (messagesOf w (chat_dbId ci)))
              = sentMessage :: rest
              /\ List.length rest
                 = (if (L =? 0)%nat then List.length (messagesOf w (chat_dbId ci))
                    else Nat.min (L - 1) (List.length (messagesOf w (chat_dbId ci)))))
      as [rest [-> Hrest]].
    { unfold limit. destruct L as [|k]; cbn [Nat.eqb firstn].
      - eexists. split; [reflexivity|].
        now rewrite (Permutation_length (newestFirst_perm _)).
      - eexists. split; [reflexivity|].
        rewrite length_firstn, (Permutation_length (newestFirst_perm _)).
        f_equal. lia. }
    cbn [map rev]. rewrite map_app. cbn [map].
    exists (map toClientMessage (rev (map (populateSender sentDb) rest))),
      (toClientMessage (populateSender sentDb sentMessage)).
    split; [reflexivity|].
    destruct (deliveredAs_populated sentDb sentMessage) as [Ht [Hc Hs]].
    split; [exact Ht|]. split; [exact Hc|]. split; [exact Hs|].
    now rewrite length_map, length_rev, length_map.
  - intros x Hx. unfold messagesOf in Hx. apply filter_In in Hx as [Hin Hc].
    rewrite forallb_forall in Holder. specialize (Holder x Hin).
    rewrite Hc in Holder. cbn [negb orb] in Holder. apply Nat.ltb_lt in Holder.
    exact Holder.
Qed.
End SendOnStore.

(** * Server start-up (index.js) *)

(** The state maps as they are created, before anything is loaded. *)
Definition emptyState : State := mkState [] [] [] [].

Section Boot.
Context {W : Type} `{Persistence W}.
Variable DEFAULT_ROOM : string.

(** Loading the default room into [activeChats]: a record with an empty
    member set if there is none, and otherwise only a missing [dbId]. *)
Definition loadDefaultRoom (room : RoomDoc) (st : State) : State :=
  match JsMap.get DEFAULT_ROOM (activeChats st) with
  | None =>
      set_activeChats st
        (JsMap.set DEFAULT_ROOM
           (mkChatInfo (room_displayName room) "room" (room_id room) [])
           (activeChats st))
  | Some ci =>
      if negb (truthy (chat_dbId ci)) then
        set_activeChats st
          (JsMap.set DEFAULT_ROOM
             (mkChatInfo (chat_name ci) (chat_type ci) (room_id room) (members ci))
             (activeChats st))
      else st
  end.

(** [ensureDefaultRoom] of index.js; [None] is [process.exit(1)].
    [new Room] runs the schema's setters on the name and on the display
    name it is given; [capitalize] is the capital initial of a well-formed
    name. *)
Definition ensureDefaultRoom (st : State) (w : W) : option State * W :=
  match findPublicRoom DEFAULT_ROOM w with
  | (Err _, w1) => (None, w1)
  | (Ok (Some room), w1) => (Some (loadDefaultRoom room st), w1)
  | (Ok None, w1) =>
      let '(oid, w2) := newObjectId w1 in
      let '(t, w3) := now w2 in
      let room :=
        mkRoom oid (schemaName DEFAULT_ROOM) (trimString (capitalize DEFAULT_ROOM))
          "public" "" [] t in
      match saveRoom room w3 with
      | (Err _, w4) => (None, w4)
      | (Ok _, w4) => (Some (loadDefaultRoom room st), w4)
      end
  end.

Lemma ensureDefaultRoom_cases st w st' w' :
  ensureDefaultRoom st w = (Some st', w') ->
  exists room,
    st' = loadDefaultRoom room st
    /\ ((exists w0, findPublicRoom DEFAULT_ROOM w = (Ok (Some room), w0))
        \/ (room_name room = schemaName DEFAULT_ROOM
            /\ room_displayName room = trimString (capitalize DEFAULT_ROOM)
            /\ room_type room = "public"
            /\ exists w0, saveRoom room w0 = (Ok tt, w'))).
Proof.
  unfold ensureDefaultRoom.
  destruct (findPublicRoom DEFAULT_ROOM w) as [[[room|]|err] w1] eqn:Hf;
    [| |discriminate].
  - intros [= <- <-]. exists room. split; [reflexivity|]. left. now exists w1.
  - destruct (newObjectId w1) as [oid w2]. destruct (now w2) as [t w3].
    destruct (saveRoom _ w3) as [[[]|err] w4] eqn:Hs; [|discriminate].
    intros [= <- <-]. eexists. split; [reflexivity|].
    right. repeat split. now exists w3.
Qed.

Lemma membersOf_loadDefaultRoom room st X :
  membersOf (loadDefaultRoom room st) X = membersOf st X.
Proof.
  unfold loadDefaultRoom, membersOf.
  destruct (JsMap.get DEFAULT_ROOM (activeChats st)) as [ci|] eqn:Hd.
  - destruct (negb (truthy (chat_dbId ci))); [|reflexivity].
    cbn [set_activeChats activeChats]. rewrite JsMap_get_set.
    destruct (String.eqb DEFAULT_ROOM X) eqn:E; [|reflexivity].
    apply String.eqb_eq in E. subst X. now rewrite Hd.
  - cbn [set_activeChats activeChats]. rewrite JsMap_get_set.
    destruct (String.eqb DEFAULT_ROOM X) eqn:E; [|reflexivity].
    apply String.eqb_eq in E. subst X. now rewrite Hd.
Qed.

Lemma keepsRecords_loadDefaultRoom room st : keepsRecords st (loadDefaultRoom room st).
Proof.
  intros X ci Hg. unfold loadDefaultRoom.
  destruct (JsMap.get DEFAULT_ROOM (activeChats st)) as [cd|] eqn:Hd.
  - destruct (negb (truthy (chat_dbId cd))) eqn:Hdb.
    + cbn [set_activeChats activeChats]. rewrite JsMap_get_set.
      destruct (String.eqb DEFAULT_ROOM X) eqn:E.
      * apply String.eqb_eq in E. subst X. eexists. split; [reflexivity|].
        assert (cd = ci) as -> by congruence. repeat split.
        cbn [chat_dbId]. apply negb_true_iff in Hdb. congruence.
      * exists ci. split; [assumption | apply sameRecord_refl].
    + exists ci. split; [assumption | apply sameRecord_refl].
  - cbn [set_activeChats activeChats]. rewrite JsMap_get_set.
    destruct (String.eqb DEFAULT_ROOM X) eqn:E.
    + apply String.eqb_eq in E. subst X. congruence.
    + exists ci. split; [assumption | apply sameRecord_refl].
Qed.

(** X16. When [ensureDefaultRoom] returns (it exits the process on any
    store error), the default room has a record in [activeChats]; the
    registry of connections, every member set and every record already
    loaded (its name, its type, its [dbId] once set) are as before.  If
    moreover the default name is well formed (3 to 20 characters among
    lower-case letters, digits, hyphen and underscore), the store answers a
    lookup by name with a room whose name is the name asked for as the
    schema's setters leave it, and the maps were empty, then the resulting
    state is the boot state of a room named [DEFAULT_ROOM], which the store
    returned or which was just created as a public room displayed with a
    capital initial. *)
Theorem default_room_is_loaded st w st' w' :
  ensureDefaultRoom st w = (Some st', w') ->
  userSockets st' = userSockets st
  /\ connectedSockets st' = connectedSockets st
  /\ socketUser st' = socketUser st
  /\ JsMap.has DEFAULT_ROOM (activeChats st') = true
  /\ (forall X, membersOf st' X = membersOf st X)
  /\ keepsRecords st st'
  /\ (CastsNames H -> invalidRoomName DEFAULT_ROOM = false -> st = emptyState ->
      exists room,
        st' = bootState room /\ room_name room = DEFAULT_ROOM
        /\ ((exists w0, findPublicRoom DEFAULT_ROOM w = (Ok (Some room), w0))
            \/ (room_displayName room = capitalize DEFAULT_ROOM
                /\ room_type room = "public"
                /\ exists w0, saveRoom room w0 = (Ok tt, w')))).
Proof.
  intros Hrun. destruct (ensureDefaultRoom_cases st w st' w' Hrun)
    as [room [-> Horigin]].
  assert (forall s, userSockets (loadDefaultRoom room s) = userSockets s
                    /\ connectedSockets (loadDefaultRoom room s) = connectedSockets s
                    /\ socketUser (loadDefaultRoom room s) = socketUser s) as Hreg.
  { intros s. unfold loadDefaultRoom.
    destruct (JsMap.get DEFAULT_ROOM (activeChats s)) as [ci|];
      [destruct (negb (truthy (chat_dbId ci)))|]; repeat split. }
  destruct (Hreg st) as [Hu [Hc Hs]].
  repeat (split; [assumption|]). split; [|split; [|split]].
  - unfold loadDefaultRoom, JsMap.has.
    destruct (JsMap.get DEFAULT_ROOM (activeChats st)) as [ci|] eqn:Hd.
    + destruct (negb (truthy (chat_dbId ci))).
      * cbn [set_activeChats activeChats]. now rewrite JsMap_get_set_same.
      * now rewrite Hd.
    + cbn [set_activeChats activeChats]. now rewrite JsMap_get_set_same.
  - apply membersOf_loadDefaultRoom.
  - apply keepsRecords_loadDefaultRoom.
  - intros Hcast Hwf ->. exists room.
    assert (room_name room = DEFAULT_ROOM) as Hname.
    { destruct Horigin as [[w0 Hfound] | [Hn _]].
      - rewrite (Hcast _ _ _ _ Hfound). now apply schemaName_checked.
      - rewrite Hn. now apply schemaName_checked. }
    split; [|split].
    + unfold loadDefaultRoom, emptyState, bootState. cbn. now rewrite Hname.
    + exact Hname.
    + destruct Horigin as [Hfound | [_ [Hd Hnew]]]; [now left | right].
      rewrite Hd, (capitalize_plain _ Hwf). split; [reflexivity | exact Hnew].
Qed.
End Boot.

Lemma JsMap_set_same {V} k (v : V) m : JsMap.get k m = Some v -> JsMap.set k v m = m.
Proof.
  induction m as [|[k' v'] r IH]; cbn; [discriminate|].
  destruct (String.eqb k k') eqn:E.
  - apply String.eqb_eq in E. subst k'. now intros [= ->].
  - intros Hg. now rewrite IH.
Qed.

Lemma loadDefaultRoom_idem D room st :
  loadDefaultRoom D room (loadDefaultRoom D room st) = loadDefaultRoom D room st.
Proof.
  assert (forall s ci,
            JsMap.get D (activeChats s) = Some ci ->
            chat_dbId ci = room_id room \/ truthy (chat_dbId ci) = true ->
            loadDefaultRoom D room s = s) as Hfix.
  { intros s ci Hg Hid. unfold loadDefaultRoom. rewrite Hg.
    destruct (negb (truthy (chat_dbId ci))) eqn:Hdb; [|reflexivity].
    destruct Hid as [Hid | Hid];
      [|apply negb_true_iff in Hdb; congruence].
    rewrite JsMap_set_same; [now destruct s|].
    rewrite Hg. destruct ci. cbn in *. now subst. }
  assert (exists ci,
            JsMap.get D (activeChats (loadDefaultRoom D room st)) = Some ci
            /\ (chat_dbId ci = room_id room \/ truthy (chat_dbId ci) = true))
    as [ci [Hg Hid]].
  { unfold loadDefaultRoom.
    destruct (JsMap.get D (activeChats st)) as [ci|] eqn:Hd.
    - destruct (negb (truthy (chat_dbId ci))) eqn:Hdb.
      + cbn [set_activeChats activeChats]. rewrite JsMap_get_set_same.
        eexists. split; [reflexivity | now left].
      + exists ci. split; [assumption|]. right. now apply negb_false_iff in Hdb.
    - cbn [set_activeChats activeChats]. rewrite JsMap_get_set_same.
      eexists. split; [reflexivity | now left]. }
  exact (Hfix _ ci Hg Hid).
Qed.

(** X17. On the reference store and for a well-formed default name (3 to
    20 characters among lower-case letters, digits, hyphen and underscore),
    start-up is idempotent: after a run of [ensureDefaultRoom] that
    returned, the store holds a public room with the default name, which is
    the only change to the store if it had to be created, and a second run
    finds it and changes neither the state nor the store. *)
Theorem ensureDefaultRoom_twice D st (w : Db) st1 w1 :
  invalidRoomName D = false ->
  ensureDefaultRoom D st w = (Some st1, w1) ->
  ensureDefaultRoom D st1 w1 = (Some st1, w1)
  /\ exists room,
       find (isPublicNamed D) (db_rooms w1) = Some room
       /\ (w1 = w
           \/ (find (isPublicNamed D) (db_rooms w) = None
               /\ db_rooms w1 = db_rooms w ++ [room]
               /\ db_users w1 = db_users w /\ db_messages w1 = db_messages w)).
Proof.
  intros Hwf.
  unfold ensureDefaultRoom. cbn [findPublicRoom newObjectId now saveRoom persistence].
  rewrite (schemaName_checked D Hwf).
  destruct (find (isPublicNamed D) (db_rooms w)) as [room|] eqn:Hf.
  - intros [= <- <-]. rewrite Hf, loadDefaultRoom_idem. split; [reflexivity|].
    exists room. split; [reflexivity | now left].
  - cbn [freshId tick db_rooms db_users db_messages db_clock db_nextId].
    unfold insertRoom. destruct (violatesUnique _ _); [discriminate|].
    cbn [db_rooms db_users db_messages db_clock db_nextId].
    intros [= <- <-]. cbn [db_rooms]. rewrite (find_app_last _ _ _ Hf).
    match goal with
    | |- context [isPublicNamed D ?r] =>
        assert (isPublicNamed D r = true) as ->
          by (unfold isPublicNamed; cbn [room_type room_name];
              now rewrite !String.eqb_refl)
    end.
    rewrite loadDefaultRoom_idem.
    split; [reflexivity|]. eexists. split; [reflexivity|]. right. auto.
Qed.

(** ** Switching chats *)





Section SwitchChat.
Context {W : Type} `{Persistence W}.
Variable L : nat.

End SwitchChat.

(** ** A direct chat in the initial data, on the reference store *)

Lemma insertActive_In r x l : In x (insertActive r l) <-> x = r \/ In x l.
Proof.
  induction l as [|y l IH]; cbn; [intuition congruence|].
  destruct (room_lastActivity y <=? room_lastActivity r)%nat; cbn;
    [intuition congruence|].
  rewrite IH. intuition congruence.
Qed.

Lemma sortedActive_In x l : In x (fold_right insertActive [] l) <-> In x l.
Proof.
  induction l as [|y l IH]; cbn; [reflexivity|].
  rewrite insertActive_In, IH. intuition congruence.
Qed.

Lemma pair_of_two (a b : string) l :
  a <> b -> In a l -> In b l -> List.length l = 2 -> l = [a; b] \/ l = [b; a].
Proof.
  intros Hne Ha Hb Hl. destruct l as [|x [|y [|z r]]]; try discriminate.
  cbn in Ha, Hb. intuition congruence.
Qed.

(** X19. On the reference store, once the resolver has returned the direct
    room of two distinct users, the initial data sent to a connecting socket
    of either of them lists that room: the entry carries the room's id, the
    other user's details as stored, the room's last activity and no unread
    flag.  So a direct chat started while the partner was away is in the
    partner's list at the next connection. *)
Theorem started_dm_is_listed a sock (w : Db) other room isNew w1 :
  a <> sock_userId sock ->
  userById w a = Some other ->
  findOrCreateDirectMessage a (sock_userId sock) w = (Ok (room, isNew), w1) ->
  exists rooms dms,
    sendInitialData sock w1
    = ([Emit (SocketEmit (sock_id sock)) "initial data" (PInitialData rooms dms)], w1)
    /\ In (mkDmListEntry (room_id room) (Some (formatUserForClient other))
             (room_lastActivity room) false) dms.
Proof.
  intros Hne Hother Hcall.
  destruct (refdb_direct_outcome a (sock_userId sock) w room isNew w1 Hne Hcall)
    as [Ht [Ha [Hb [Hl [Hu Hf]]]]].
  unfold sendInitialData. cbn [findPublicRooms findUserDMs persistence].
  eexists. eexists. split; [reflexivity|].
  apply in_flat_map.
  exists (room, otherParticipants w1 (sock_userId sock) room). split.
  - apply in_map_iff. exists room. split; [reflexivity|].
    apply sortedActive_In, filter_In. split.
    + exact (proj1 (find_some _ _ Hf)).
    + rewrite Ht, String.eqb_refl. cbn [andb]. now apply includes_In.
  - cbn [fst snd].
    assert (otherParticipants w1 (sock_userId sock) room = [other]) as ->;
      [|now left].
    assert (userById w1 a = Some other) as Hother1
        by (unfold userById in *; now rewrite Hu).
    unfold otherParticipants.
    destruct (pair_of_two a (sock_userId sock) _ Hne Ha Hb Hl) as [-> | ->];
      cbn [flat_map app]; rewrite String.eqb_refl, Hother1;
      assert (String.eqb a (sock_userId sock) = false) as ->
          by (now apply String.eqb_neq); reflexivity.
Qed.

(** * The further properties on concrete runs *)

Module MoreRuns.
Import RefDb Scenario Runs.

Definition bothConnected : list Event := [Connection "s1" alice; Connection "s2" bob].

(** alice joins [general], her request handled in its two halves. *)
Definition aliceJoinsInHalves : list AEvent :=
  [Whole (Connection "s1" alice);
   Begin "s1" (Some (mkJoinData "room" "general"));
   Resume 0].

Definition asyncState (evs : list AEvent) : State * Db :=
  (cfg_state (fst (afterAsync evs)), snd (afterAsync evs)).

Definition u3 : string := "aaaaaaaaaaaaaaaaaaaaaaa3".

Definition twoDevices : list Event :=
  [Connection "s1" alice; Connection "s3" alice; joinRoom "s1" "general"].

Definition dmStarted : list Event :=
  [Connection "s1" alice; Connection "s2" bob; InitiateDm "s1" u2].

(** The outcome of one more event, in the form [step] returns it. *)
Definition outcome (ev : Event) (p : State * Db) : option ((State * list Effect) * Db) :=
  Some ((fst (fst (next ev p)), snd (fst (next ev p))), snd (next ev p)).

Definition sockAlice3 : Sock := mkSock "s3" alice.

Definition generalInfo : ChatInfo := mkChatInfo "General" "room" (room_id general) [u1; u2].

Definition helloText : JsText := utf16 "  hello ".

Definition inGeneral : ChatRef := mkChatRef "room" "general".

Definition noRooms : Db := mkDb [] [alice; bob] [] 1 1.

Definition dmRoom : RoomDoc := mkRoom dmId "" "" "direct" "" [u1; u2] 1.

Definition createdGeneral : RoomDoc :=
  mkRoom (objectIdOf 1) "general" "General" "public" "" [] 1.

Definition afterBoot : Db := mkDb [createdGeneral] [alice; bob] [] 2 2.

Definition afterDm : Db := mkDb [general; dmRoom] [alice; bob] [] 2 2.

End MoreRuns.

Import MoreRuns.

Lemma quiet_events_keep_membership_witness :
  movesNobody (Typing "s1" (Some "general"))
  /\ step L (Typing "s1" (Some "general")) (fst (after bothInGeneral))
       (snd (after bothInGeneral))
     = outcome (Typing "s1" (Some "general")) (after bothInGeneral)
  /\ forall X,
       membersOf (fst (fst (next (Typing "s1" (Some "general")) (after bothInGeneral)))) X
       = membersOf (fst (after bothInGeneral)) X.
Proof.
  assert (movesNobody (Typing "s1" (Some "general"))) as Hq by exact I.
  assert (step L (Typing "s1" (Some "general")) (fst (after bothInGeneral))
            (snd (after bothInGeneral))
          = outcome (Typing "s1" (Some "general")) (after bothInGeneral)) as Hstep
      by (vm_compute; reflexivity).
  split; [exact Hq|]. split; [exact Hstep|].
  exact (proj1 (proj2 (proj2 (proj2
           (quiet_events_keep_membership (P := RefDb.persistence) L _ _ _ _ _ _
              Hq Hstep))))).
Defined.

Lemma disconnect_with_other_connections_witness :
  JsMap.get (sock_userId sockAlice) (userSockets (fst (after twoDevices)))
  = Some ["s1"; "s3"]
  /\ JsSet.delete (sock_id sockAlice) ["s1"; "s3"] <> []
  /\ recipients "presence update"
       (snd (fst (onDisconnect sockAlice (fst (after twoDevices))
                    (snd (after twoDevices))))) = [].
Proof.
  assert (JsMap.get (sock_userId sockAlice) (userSockets (fst (after twoDevices)))
          = Some ["s1"; "s3"]) as Hs by (vm_compute; reflexivity).
  assert (JsSet.delete (sock_id sockAlice) ["s1"; "s3"] <> []) as Hrest
      by (vm_compute; discriminate).
  split; [exact Hs|]. split; [exact Hrest|].
  exact (proj1 (proj2 (proj2
           (disconnect_with_other_connections (H := RefDb.persistence) sockAlice
              (fst (after twoDevices)) (snd (after twoDevices)) ["s1"; "s3"]
              Hs Hrest)))).
Defined.

Lemma later_connection_is_silent_witness :
  JsMap.get (sock_userId sockAlice3) (userSockets (fst (after aliceInGeneral)))
  = Some ["s1"]
  /\ ["s1"] <> ([] : list string)
  /\ ~ In (sock_id sockAlice3) ["s1"]
  /\ recipients "presence update"
       (snd (fst (onConnection sockAlice3 (fst (after aliceInGeneral))
                    (snd (after aliceInGeneral))))) = [].
Proof.
  assert (JsMap.get (sock_userId sockAlice3) (userSockets (fst (after aliceInGeneral)))
          = Some ["s1"]) as Hs by (vm_compute; reflexivity).
  assert (["s1"] <> ([] : list string)) as Hne by discriminate.
  assert (~ In (sock_id sockAlice3) ["s1"]) as Hnew
      by (vm_compute; intros [Heq | []]; discriminate Heq).
  split; [exact Hs|]. split; [exact Hne|]. split; [exact Hnew|].
  exact (proj1 (proj2 (proj2
           (later_connection_is_silent (H := RefDb.persistence) sockAlice3
              (fst (after aliceInGeneral)) (snd (after aliceInGeneral)) ["s1"]
              Hs Hne Hnew)))).
Defined.

Lemma dm_summaries_flag_recipients_only_witness :
  In (Emit (IoTo "s2") "dm list update"
        (PDmListUpdate [mkDmListEntry dmId (Some (formatUserForClient bob)) 5 true]))
     (fst (dmSummaries (fst (after bothConnected)) u1 dmId (formatUserForClient alice) 5
             [u1; u2] db0))
  /\ exists participantId socketId other,
       In participantId [u1; u2]
       /\ In socketId (targetSocketsOf (fst (after bothConnected)) participantId)
       /\ Emit (IoTo "s2") "dm list update"
            (PDmListUpdate [mkDmListEntry dmId (Some (formatUserForClient bob)) 5 true])
          = Emit (IoTo socketId) "dm list update"
              (PDmListUpdate
                 [mkDmListEntry dmId other 5 (negb (String.eqb participantId u1))])
       /\ (participantId = u1 -> other = Some (formatUserForClient alice)).
Proof.
  assert (In (Emit (IoTo "s2") "dm list update"
                (PDmListUpdate
                   [mkDmListEntry dmId (Some (formatUserForClient bob)) 5 true]))
             (fst (dmSummaries (fst (after bothConnected)) u1 dmId
                     (formatUserForClient alice) 5 [u1; u2] db0))) as Hin
      by (vm_compute; right; left; reflexivity).
  split; [exact Hin|].
  exact (dm_summaries_flag_recipients_only (H := RefDb.persistence)
           (fst (after bothConnected)) u1 dmId (formatUserForClient alice) 5
           [u1; u2] db0 _ Hin).
Defined.

Lemma user_sockets_are_live_connections_witness :
  Run (W := Db) L (fun _ _ => True) boot (fst (after aliceTwoDevices))
  /\ forall u, JsMap.get u (userSockets (fst (after aliceTwoDevices))) <> Some [].
Proof.
  assert (Run (W := Db) L (fun _ _ => True) boot (fst (after aliceTwoDevices))) as Hrun.
  { apply Run_after. vm_compute. tauto. }
  split; [exact Hrun|].
  exact (proj1 (proj2
           (user_sockets_are_live_connections (P := RefDb.persistence) L
              (fun _ _ => True) general (fst (after aliceTwoDevices)) Hrun))).
Defined.

Lemma disconnect_forgets_connection_witness :
  Run (W := Db) L (fun _ _ => True) boot (fst (after bothInGeneral))
  /\ step L (Disconnect "s1") (fst (after bothInGeneral)) (snd (after bothInGeneral))
     = outcome (Disconnect "s1") (after bothInGeneral)
  /\ JsMap.get "s1"
       (connectedSockets (fst (fst (next (Disconnect "s1") (after bothInGeneral)))))
     = None.
Proof.
  assert (Run (W := Db) L (fun _ _ => True) boot (fst (after bothInGeneral))) as Hrun.
  { apply Run_after. vm_compute. tauto. }
  assert (step L (Disconnect "s1") (fst (after bothInGeneral))
            (snd (after bothInGeneral))
          = outcome (Disconnect "s1") (after bothInGeneral)) as Hstep
      by (vm_compute; reflexivity).
  split; [exact Hrun|]. split; [exact Hstep|].
  exact (proj1
           (disconnect_forgets_connection (P := RefDb.persistence) L (fun _ _ => True)
              general _ "s1" _ _ _ _ Hrun Hstep)).
Defined.

Lemma status_change_reaches_live_comembers_witness :
  Run (W := Db) L (fun _ _ => True) boot (fst (after bothInGeneral))
  /\ JsMap.get "s1" (socketUser (fst (after bothInGeneral))) = Some alice
  /\ recipients "error message"
       (snd (fst (next (SetStatus "s1" (Some (mkStatusData "away" None)))
                    (after bothInGeneral)))) = []
  /\ forall s,
       In s (recipients "presence update"
               (snd (fst (next (SetStatus "s1" (Some (mkStatusData "away" None)))
                            (after bothInGeneral)))))
       <-> exists sd X,
             JsMap.get s (connectedSockets (fst (after bothInGeneral))) = Some sd
             /\ sd_userId sd <> user_id alice
             /\ In (user_id alice) (membersOf (fst (after bothInGeneral)) X)
             /\ In (sd_userId sd) (membersOf (fst (after bothInGeneral)) X).
Proof.
  assert (Run (W := Db) L (fun _ _ => True) boot (fst (after bothInGeneral))) as Hrun.
  { apply Run_after. vm_compute. tauto. }
  assert (step L (SetStatus "s1" (Some (mkStatusData "away" None)))
            (fst (after bothInGeneral)) (snd (after bothInGeneral))
          = outcome (SetStatus "s1" (Some (mkStatusData "away" None)))
              (after bothInGeneral)) as Hstep
      by (vm_compute; reflexivity).
  assert (JsMap.get "s1" (socketUser (fst (after bothInGeneral))) = Some alice) as Hu
      by (vm_compute; reflexivity).
  assert (recipients "error message"
            (snd (fst (next (SetStatus "s1" (Some (mkStatusData "away" None)))
                         (after bothInGeneral)))) = []) as Hquiet
      by (vm_compute; reflexivity).
  split; [exact Hrun|]. split; [exact Hu|]. split; [exact Hquiet|].
  exact (status_change_reaches_live_comembers (P := RefDb.persistence) L
           (fun _ _ => True) general _ "s1" _ _ _ _ _ alice Hrun Hstep Hu Hquiet).
Defined.

Lemma first_connection_reaches_nobody_witness :
  ARun (W := Db) L oneJoinNoDm (bootConfig general) (fst (afterAsync aliceJoinsInHalves))
  /\ membersOf (fst (asyncState aliceJoinsInHalves)) "general" = [u1]
  /\ JsMap.get (user_id bob) (userSockets (fst (asyncState aliceJoinsInHalves))) = None
  /\ ~ In (user_id bob) (membersOf (fst (asyncState aliceJoinsInHalves)) "")
  /\ step L (Connection "s2" bob) (fst (asyncState aliceJoinsInHalves))
       (snd (asyncState aliceJoinsInHalves))
     = outcome (Connection "s2" bob) (asyncState aliceJoinsInHalves)
  /\ recipients "presence update"
       (snd (fst (next (Connection "s2" bob) (asyncState aliceJoinsInHalves)))) = [].
Proof.
  assert (ARun (W := Db) L oneJoinNoDm (bootConfig general)
            (fst (afterAsync aliceJoinsInHalves))) as Hrun.
  { apply ARun_after. vm_compute. reflexivity. }
  assert (JsMap.get (user_id bob) (userSockets (fst (asyncState aliceJoinsInHalves)))
          = None) as Hnew by (vm_compute; reflexivity).
  assert (~ In (user_id bob) (membersOf (fst (asyncState aliceJoinsInHalves)) ""))
    as Hempty by (vm_compute; tauto).
  assert (step L (Connection "s2" bob) (fst (asyncState aliceJoinsInHalves))
            (snd (asyncState aliceJoinsInHalves))
          = outcome (Connection "s2" bob) (asyncState aliceJoinsInHalves)) as Hstep
      by (vm_compute; reflexivity).
  split; [exact Hrun|]. split; [vm_compute; reflexivity|]. split; [exact Hnew|].
  split; [exact Hempty|]. split; [exact Hstep|].
  exact (first_connection_reaches_nobody (P := RefDb.persistence) L general
           (fst (afterAsync aliceJoinsInHalves)) "s2" bob
           _ _ _ _ Hrun Hnew Hempty Hstep).
Defined.

Lemma direct_join_needs_participant_witness :
  joinedOf
    (snd (fst (onJoinChat L sockBob (Some (mkJoinData "direct" dmId))
                 (fst (after dmStarted)) (snd (after dmStarted))))) <> []
  /\ exists chatDoc others r w2 w3,
       validObjectId dmId = true
       /\ findRoomByIdPopulated dmId (sock_userId sockBob)
            (snd (leaveCurrentChat sockBob (fst (after dmStarted))
                    (snd (after dmStarted))))
          = (Ok (Some (chatDoc, others)), w2)
       /\ room_type chatDoc = "direct"
       /\ findRoomById dmId w2 = (Ok (Some r), w3)
       /\ In (sock_userId sockBob) (room_participants r)
       /\ joinedOf
            (snd (fst (onJoinChat L sockBob (Some (mkJoinData "direct" dmId))
                         (fst (after dmStarted)) (snd (after dmStarted)))))
          = [(sock_id sockBob, mkChatRef "direct" (room_id chatDoc), false)].
Proof.
  assert (joinedOf
            (snd (fst (onJoinChat L sockBob (Some (mkJoinData "direct" dmId))
                         (fst (after dmStarted)) (snd (after dmStarted))))) <> [])
    as Hj by (vm_compute; discriminate).
  split; [exact Hj|].
  exact (direct_join_needs_participant (P := RefDb.persistence) L sockBob dmId
           (fst (after dmStarted)) (snd (after dmStarted)) Hj).
Defined.

(** alice and bob get their direct room; after that, the room alice asks
    for with a third user is refused by the index. *)
Lemma direct_room_is_shared_witness :
  u1 <> u2 /\ u1 <> u3
  /\ find (isDirectBetween (sortPair u1 u2)) (db_rooms db0) = None
  /\ inDirectRoom db0 u1 = false /\ inDirectRoom db0 u2 = false
  /\ (exists room w1,
        findOrCreateDirectMessage u1 u2 db0 = (Ok (room, true), w1)
        /\ room_type room = "direct" /\ room_participants room = sortPair u1 u2
        /\ db_rooms w1 = db_rooms db0 ++ [room]
        /\ findOrCreateDirectMessage u1 u2 w1 = (Ok (room, false), w1)
        /\ findOrCreateDirectMessage u2 u1 w1 = (Ok (room, false), w1))
  /\ find (isDirectBetween (sortPair u1 u3)) (db_rooms afterDm) = None
  /\ inDirectRoom afterDm u1 = true
  /\ (exists w1,
        findOrCreateDirectMessage u1 u3 afterDm
        = (Err (wrapDmError inconsistentError), w1)
        /\ db_rooms w1 = db_rooms afterDm).
Proof.
  assert (u1 <> u2) as Hne by discriminate.
  assert (u1 <> u3) as Hne3 by discriminate.
  assert (find (isDirectBetween (sortPair u1 u2)) (db_rooms db0) = None) as Hf
      by reflexivity.
  assert (inDirectRoom db0 u1 = false) as Ha by reflexivity.
  assert (inDirectRoom db0 u2 = false) as Hb by reflexivity.
  assert (find (isDirectBetween (sortPair u1 u3)) (db_rooms afterDm) = None) as Hf3
      by (vm_compute; reflexivity).
  assert (inDirectRoom afterDm u1 = true) as Ha3 by (vm_compute; reflexivity).
  repeat (split; [assumption|]).
  split; [exact (proj1 (proj2 (direct_room_is_shared u1 u2 db0 Hne)) Hf Ha Hb)|].
  repeat (split; [assumption|]).
  exact (proj2 (proj2 (direct_room_is_shared u1 u3 afterDm Hne3)) Hf3 (or_introl Ha3)).
Defined.

Lemma send_is_stored_and_broadcast_witness :
  attachment (fst (after bothInGeneral)) (sock_id sockAlice) = Some inGeneral
  /\ trim helloText <> []
  /\ List.length (trim helloText) <= MAX_MESSAGE_LENGTH
  /\ JsMap.get (ref_id inGeneral) (activeChats (fst (after bothInGeneral)))
     = Some generalInfo
  /\ validObjectId (sock_userId sockAlice) = true
  /\ validObjectId (chat_dbId generalInfo) = true
  /\ find (fun m => String.eqb (msg_id m)
                      (objectIdOf (db_nextId (snd (after bothInGeneral)))))
       (db_messages (snd (after bothInGeneral))) = None
  /\ db_messages
       (snd (onChatMessage sockAlice
               (Some (mkMsgData (Some helloText) (Some inGeneral)))
               (fst (after bothInGeneral)) (snd (after bothInGeneral))))
     = db_messages (snd (after bothInGeneral))
       ++ [sentMessage sockAlice helloText generalInfo (snd (after bothInGeneral))].
Proof.
  assert (attachment (fst (after bothInGeneral)) (sock_id sockAlice) = Some inGeneral)
    as Hatt by (vm_compute; reflexivity).
  assert (trim helloText <> []) as Htext by (vm_compute; discriminate).
  assert (List.length (trim helloText) <= MAX_MESSAGE_LENGTH) as Hlen
      by (unfold MAX_MESSAGE_LENGTH; cbn; lia).
  assert (JsMap.get (ref_id inGeneral) (activeChats (fst (after bothInGeneral)))
          = Some generalInfo) as Hci by (vm_compute; reflexivity).
  assert (validObjectId (sock_userId sockAlice) = true) as Hsender
      by (vm_compute; reflexivity).
  assert (validObjectId (chat_dbId generalInfo) = true) as Hid
      by (vm_compute; reflexivity).
  assert (find (fun m => String.eqb (msg_id m)
                           (objectIdOf (db_nextId (snd (after bothInGeneral)))))
            (db_messages (snd (after bothInGeneral))) = None) as Hfresh
      by (vm_compute; reflexivity).
  repeat (split; [assumption|]).
  exact (proj1 (proj2 (proj2
           (send_is_stored_and_broadcast sockAlice helloText inGeneral generalInfo
              (fst (after bothInGeneral)) (snd (after bothInGeneral))
              Hatt Htext Hlen Hci Hsender Hid Hfresh)))).
Defined.

Lemma sent_message_ends_history_witness :
  attachment (fst (after bothInGeneral)) (sock_id sockAlice) = Some inGeneral
  /\ trim helloText <> []
  /\ List.length (trim helloText) <= MAX_MESSAGE_LENGTH
  /\ JsMap.get (ref_id inGeneral) (activeChats (fst (after bothInGeneral)))
     = Some generalInfo
  /\ validObjectId (sock_userId sockAlice) = true
  /\ validObjectId (chat_dbId generalInfo) = true
  /\ find (fun m => String.eqb (msg_id m)
                      (objectIdOf (db_nextId (snd (after bothInGeneral)))))
       (db_messages (snd (after bothInGeneral))) = None
  /\ forallb
       (fun x => negb (String.eqb (msg_chat x) (chat_dbId generalInfo))
                 || (msg_createdAt x <? db_clock (snd (after bothInGeneral)))%nat)
       (db_messages (snd (after bothInGeneral))) = true
  /\ exists earlier last,
       getRecentMessages L "s2" (chat_dbId generalInfo)
         (snd (onChatMessage sockAlice
                 (Some (mkMsgData (Some helloText) (Some inGeneral)))
                 (fst (after bothInGeneral)) (snd (after bothInGeneral))))
       = ((earlier ++ [last], []),
          sentDb sockAlice helloText generalInfo (snd (after bothInGeneral)))
       /\ cm_text last = trim helloText
       /\ cm_timestamp last = db_clock (snd (after bothInGeneral))
       /\ cm_sender last
          = mkClientUser (Some u1) "alice" "/uploads/avatars/default.png" "online".
Proof.
  assert (attachment (fst (after bothInGeneral)) (sock_id sockAlice) = Some inGeneral)
    as Hatt by (vm_compute; reflexivity).
  assert (trim helloText <> []) as Htext by (vm_compute; discriminate).
  assert (List.length (trim helloText) <= MAX_MESSAGE_LENGTH) as Hlen
      by (unfold MAX_MESSAGE_LENGTH; cbn; lia).
  assert (JsMap.get (ref_id inGeneral) (activeChats (fst (after bothInGeneral)))
          = Some generalInfo) as Hci by (vm_compute; reflexivity).
  assert (validObjectId (sock_userId sockAlice) = true) as Hsender
      by (vm_compute; reflexivity).
  assert (validObjectId (chat_dbId generalInfo) = true) as Hid
      by (vm_compute; reflexivity).
  assert (find (fun m => String.eqb (msg_id m)
                           (objectIdOf (db_nextId (snd (after bothInGeneral)))))
            (db_messages (snd (after bothInGeneral))) = None) as Hfresh
      by (vm_compute; reflexivity).
  assert (forallb
            (fun x => negb (String.eqb (msg_chat x) (chat_dbId generalInfo))
                      || (msg_createdAt x <? db_clock (snd (after bothInGeneral)))%nat)
            (db_messages (snd (after bothInGeneral))) = true) as Holder
      by (vm_compute; reflexivity).
  repeat (split; [assumption|]).
  destruct (sent_message_ends_history sockAlice helloText inGeneral generalInfo
              (fst (after bothInGeneral)) (snd (after bothInGeneral))
              Hatt Htext Hlen Hci Hsender Hid Hfresh L Holder "s2")
    as [earlier [last [Hload [Ht [Hc [Hs _]]]]]].
  exists earlier, last. split; [exact Hload|]. split; [exact Ht|]. split; [exact Hc|].
  rewrite Hs. vm_compute. reflexivity.
Defined.

Lemma default_room_is_loaded_witness :
  ensureDefaultRoom "general" emptyState db0 = (Some boot, db0)
  /\ JsMap.has "general" (activeChats boot) = true
  /\ (forall X, membersOf boot X = membersOf emptyState X)
  /\ invalidRoomName "general" = false
  /\ exists room, boot = bootState room /\ room_name room = "general".
Proof.
  assert (ensureDefaultRoom "general" emptyState db0 = (Some boot, db0)) as Hrun
      by (vm_compute; reflexivity).
  assert (invalidRoomName "general" = false) as Hwf by reflexivity.
  split; [exact Hrun|].
  pose proof (default_room_is_loaded (H := RefDb.persistence) "general" emptyState db0
                boot db0 Hrun) as Hall.
  split; [exact (proj1 (proj2 (proj2 (proj2 Hall))))|].
  split; [exact (proj1 (proj2 (proj2 (proj2 (proj2 Hall)))))|].
  split; [exact Hwf|].
  destruct (proj2 (proj2 (proj2 (proj2 (proj2 (proj2 Hall))))) refdb_casts_names Hwf
              eq_refl) as [room [Hboot [Hname _]]].
  exists room. split; [exact Hboot | exact Hname].
Defined.

Lemma ensureDefaultRoom_twice_witness :
  invalidRoomName "general" = false
  /\ ensureDefaultRoom "general" emptyState noRooms
     = (Some (bootState createdGeneral), afterBoot)
  /\ ensureDefaultRoom "general" (bootState createdGeneral) afterBoot
     = (Some (bootState createdGeneral), afterBoot).
Proof.
  assert (invalidRoomName "general" = false) as Hwf by reflexivity.
  assert (ensureDefaultRoom "general" emptyState noRooms
          = (Some (bootState createdGeneral), afterBoot)) as Hrun
      by (vm_compute; reflexivity).
  split; [exact Hwf|]. split; [exact Hrun|].
  exact (proj1 (ensureDefaultRoom_twice "general" emptyState noRooms
                  (bootState createdGeneral) afterBoot Hwf Hrun)).
Defined.


Lemma started_dm_is_listed_witness :
  u1 <> sock_userId sockBob
  /\ userById db0 u1 = Some alice
  /\ findOrCreateDirectMessage u1 (sock_userId sockBob) db0 = (Ok (dmRoom, true), afterDm)
  /\ exists rooms dms,
       sendInitialData sockBob afterDm
       = ([Emit (SocketEmit (sock_id sockBob)) "initial data" (PInitialData rooms dms)],
          afterDm)
       /\ In (mkDmListEntry (room_id dmRoom) (Some (formatUserForClient alice))
                (room_lastActivity dmRoom) false) dms.
Proof.
  assert (u1 <> sock_userId sockBob) as Hne by (vm_compute; discriminate).
  assert (userById db0 u1 = Some alice) as Hother by (vm_compute; reflexivity).
  assert (findOrCreateDirectMessage u1 (sock_userId sockBob) db0
          = (Ok (dmRoom, true), afterDm)) as Hcall by (vm_compute; reflexivity).
  split; [exact Hne|]. split; [exact Hother|]. split; [exact Hcall|].
  exact (started_dm_is_listed u1 sockBob db0 alice dmRoom true afterDm
           Hne Hother Hcall).
Defined.

(** ** The member list of a room join, on the reference store *)



Lemma userById_In w id u : userById w id = Some u -> In u (db_users w) /\ user_id u = id.
Proof.
  unfold userById. intros Hf. apply find_some in Hf as [Hin Heq].
  apply String.eqb_eq in Heq. now split.
Qed.

Section RoomJoinList.
Variable L : nat.
Variables (sock : Sock) (c n a : string) (d : DbId) (isNew : bool).
Variables (st : State) (pre : list Effect) (w : Db) (sd : SocketData).

Let st1 := joinState sock c "room" n d st.

Hypothesis Hreg : JsMap.get (sock_id sock) (connectedSockets st) = Some sd.
Hypothesis Hroom :
  forall ci, JsMap.get c (activeChats st) = Some ci -> chat_type ci = "room".
Hypothesis Hvalid : forallb validObjectId (membersOf st1 c) = true.


End RoomJoinList.




(** ** A status change on the reference store *)

Lemma find_user_map (g : UserDoc -> UserDoc) id l :
  (forall u, user_id (g u) = user_id u) ->
  find (fun u => String.eqb (user_id u) id) (map g l)
  = option_map g (find (fun u => String.eqb (user_id u) id) l).
Proof.
  intros Hid. induction l as [|x l IH]; cbn; [reflexivity|].
  rewrite Hid. destruct (String.eqb (user_id x) id); [reflexivity | exact IH].
Qed.

Lemma includes_validStatuses s : includes s validStatuses = true -> In s validStatuses.
Proof. apply includes_In. Qed.

(** X21. On the reference store, a status change by a stored user with a
    non-empty status is always accepted.  The status is one of [online],
    [away], [dnd] (the requested one if it is among them), never
    [offline].  The message that is cached on the socket and broadcast is
    the requested message, trimmed and cut to 60 code units.  The message
    that is stored is that message as the schema's [trim] setter leaves it,
    with the white space at its end removed: the stored and the broadcast
    message are the same whenever the trimmed request has at most 60 code
    units, and can differ only when the cut falls after a blank.  The
    user's document changes in these two fields and in [lastSeen], set to
    the store's clock, which the cache and the broadcast carry too; no other
    user, no room and no message is touched. *)
Theorem status_is_stored_as_broadcast sock d st (w : Db) u0 :
  truthy (sd_status d) = true ->
  userById w (sock_userId sock) = Some u0 ->
  let out := onSetStatus sock (Some d) st w in
  let requested := match sd_statusMessage d with Some t => t | None => [] end in
  exists s m,
    In s validStatuses
    /\ (includes (sd_status d) validStatuses = true -> s = sd_status d)
    /\ m = slice0 60 (trim requested)
    /\ List.length m <= 60
    /\ userById (snd out) (sock_userId sock)
       = Some (mkUser (user_id u0) (user_username u0) (user_avatarUrl u0) s (trimEnd m)
                 (db_clock w))
    /\ (List.length (trim requested) <= 60 -> trimEnd m = m)
    /\ (forall id, id <> sock_userId sock -> userById (snd out) id = userById w id)
    /\ db_rooms (snd out) = db_rooms w /\ db_messages (snd out) = db_messages w
    /\ option_map (fun u => (user_status u, user_statusMessage u, user_lastSeen u))
         (JsMap.get (sock_id sock) (socketUser (fst (fst out))))
       = Some (s, m, db_clock w)
    /\ snd (fst out)
       = broadcastPresenceUpdate (fst (fst out)) (sock_userId sock) s (Some m)
           (db_clock w).
Proof.
  intros Htruthy Hstored out requested. subst out. unfold onSetStatus. rewrite Htruthy.
  cbn [negb]. cbv zeta. cbn [now updateUserStatus persistence tick].
  fold requested.
  set (s := if includes (sd_status d) validStatuses then sd_status d else "online").
  set (m := slice0 60 (trim requested)).
  assert (trim m = trimEnd m) as Htrim.
  { unfold trim. f_equal. apply trimStart_id. subst m. unfold slice0.
    pose proof (trim_headOk requested) as Hh.
    destruct (trim requested) as [|x r]; [exact I | exact Hh]. }
  unfold updateStatus. cbn [db_rooms db_users db_messages db_clock db_nextId].
  set (g := fun u : UserDoc =>
              if String.eqb (user_id u) (sock_userId sock)
              then setStatus s (Some m) (db_clock w) u else u).
  assert (forall u, user_id (g u) = user_id u) as Hg
      by (intros u; unfold g; now destruct (String.eqb (user_id u) (sock_userId sock))).
  pose proof (userById_In w _ u0 Hstored) as [Hin0 Hid0].
  unfold userById in Hstored.
  rewrite (find_user_map g _ _ Hg), Hstored. cbn [option_map].
  assert (g u0 = mkUser (user_id u0) (user_username u0) (user_avatarUrl u0) s (trimEnd m)
                   (db_clock w)) as Hg0.
  { unfold g. destruct (String.eqb (user_id u0) (sock_userId sock)) eqn:E.
    - unfold setStatus. now rewrite Htrim.
    - rewrite Hid0, String.eqb_refl in E. discriminate. }
  exists s, m. cbn [fst snd].
  split; [|split; [|split; [reflexivity|split; [|split; [|split; [|split]]]]]].
  - subst s. destruct (includes (sd_status d) validStatuses) eqn:Hv.
    + now apply includes_validStatuses.
    + cbn. auto.
  - intros Hv. subst s. now rewrite Hv.
  - subst m. unfold slice0. rewrite length_firstn. lia.
  - unfold userById. cbn [db_users]. rewrite (find_user_map g _ _ Hg), Hstored.
    cbn [option_map]. now rewrite Hg0.
  - intros Hfit. rewrite <- Htrim. subst m. unfold slice0.
    rewrite firstn_all2 by exact Hfit. apply trim_idem.
  - intros id Hne. unfold userById. cbn [db_users]. rewrite (find_user_map g _ _ Hg).
    destruct (find (fun u => String.eqb (user_id u) id) (db_users w)) as [u|] eqn:Hf;
      [|reflexivity].
    cbn [option_map]. apply find_some in Hf as [_ Hu]. apply String.eqb_eq in Hu.
    unfold g. assert (String.eqb (user_id u) (sock_userId sock) = false) as ->
        by (apply String.eqb_neq; congruence).
    reflexivity.
  - split; [reflexivity|]. split; [reflexivity|].
    cbn [set_socketUser socketUser]. rewrite JsMap_get_set_same. cbn [option_map].
    rewrite Hg0. cbn [user_status user_statusMessage user_lastSeen]. split; reflexivity.
Qed.

(** A status message of 61 code units whose 60th is a blank. *)
Definition longStatus : JsText := repeat 97%N 59 ++ [32%N; 98%N].

Definition longRequest : StatusData := mkStatusData "dnd" (Some longStatus).

Definition aliceOnline : UserDoc := mkUser u1 "alice" "" "online" [] 1.

Lemma status_is_stored_as_broadcast_witness :
  truthy (sd_status longRequest) = true
  /\ userById (snd (after bothInGeneral)) (sock_userId sockAlice) = Some aliceOnline
  /\ exists s m,
       s = "dnd"
       /\ m = repeat 97%N 59 ++ [32%N]
       /\ userById
            (snd (onSetStatus sockAlice (Some longRequest) (fst (after bothInGeneral))
                    (snd (after bothInGeneral))))
            (sock_userId sockAlice)
          = Some (mkUser u1 "alice" "" s (repeat 97%N 59)
                    (db_clock (snd (after bothInGeneral))))
       /\ option_map (fun u => (user_status u, user_statusMessage u))
            (JsMap.get "s1"
               (socketUser
                  (fst (fst (onSetStatus sockAlice (Some longRequest)
                               (fst (after bothInGeneral))
                               (snd (after bothInGeneral)))))))
          = Some (s, m).
Proof.
  assert (truthy (sd_status longRequest) = true) as Ht by reflexivity.
  assert (userById (snd (after bothInGeneral)) (sock_userId sockAlice)
          = Some aliceOnline) as Hu by (vm_compute; reflexivity).
  split; [exact Ht|]. split; [exact Hu|].
  destruct (status_is_stored_as_broadcast sockAlice longRequest
              (fst (after bothInGeneral)) (snd (after bothInGeneral)) aliceOnline
              Ht Hu)
    as [s [m [_ [Hreq [Hm [_ [Hstored [_ [_ [_ [_ [Hcache _]]]]]]]]]]]].
  assert (s = "dnd") as Hs by (apply Hreq; reflexivity).
  assert (m = repeat 97%N 59 ++ [32%N]) as Hm' by (rewrite Hm; vm_compute; reflexivity).
  exists s, m. split; [exact Hs|]. split; [exact Hm'|]. split.
  - rewrite Hstored. rewrite Hm'. vm_compute. reflexivity.
  - rewrite Hs, Hm'. vm_compute. reflexivity.
Defined.

(** ** The last disconnection on the reference store *)

(** X22. On the reference store, when the last connection of a stored user
    closes, the user's document is set to [offline] with [lastSeen] at the
    store's clock and the status message kept; no other user, no room and no
    message is touched; and the user is no longer listed in
    [userSockets]. *)
Theorem last_disconnect_stores_offline sock st (w : Db) s u0 :
  JsMap.get (sock_userId sock) (userSockets st) = Some s ->
  JsSet.delete (sock_id sock) s = [] ->
  userById w (sock_userId sock) = Some u0 ->
  let out := onDisconnect sock st w in
  userById (snd out) (sock_userId sock)
  = Some (mkUser (user_id u0) (user_username u0) (user_avatarUrl u0) "offline"
            (user_statusMessage u0) (db_clock w))
  /\ (forall id, id <> sock_userId sock -> userById (snd out) id = userById w id)
  /\ db_rooms (snd out) = db_rooms w /\ db_messages (snd out) = db_messages w
  /\ JsMap.get (sock_userId sock) (userSockets (fst (fst out))) = None.
Proof.
  intros Hs Hlast Hstored out. subst out. unfold onDisconnect. cbv zeta.
  pose proof (leaveCurrentChat_state sock st w) as Hst.
  pose proof (refdb_leave_world sock st w) as Hw.
  destruct (leaveCurrentChat sock st w) as [[st1 e1] w1]. cbn [fst snd] in Hst, Hw.
  subst w1. assert (userSockets st1 = userSockets st) as Hus
      by (rewrite Hst; apply leaveState_userSockets).
  rewrite Hus, Hs, Hlast. cbn [JsSet.size List.length Nat.eqb].
  cbn [now updateUserStatus persistence tick]. unfold updateStatus.
  cbn [db_rooms db_users db_messages db_clock db_nextId].
  set (g := fun u : UserDoc =>
              if String.eqb (user_id u) (sock_userId sock)
              then setStatus "offline" None (db_clock w) u else u).
  assert (forall u, user_id (g u) = user_id u) as Hg
      by (intros u; unfold g; now destruct (String.eqb (user_id u) (sock_userId sock))).
  pose proof (userById_In w _ u0 Hstored) as [_ Hid0].
  unfold userById in Hstored.
  rewrite (find_user_map g _ _ Hg), Hstored. cbn [option_map fst snd].
  split; [|split; [|split; [|split]]].
  - unfold userById. cbn [db_users]. rewrite (find_user_map g _ _ Hg), Hstored.
    cbn [option_map]. unfold g.
    destruct (String.eqb (user_id u0) (sock_userId sock)) eqn:E; [reflexivity|].
    rewrite Hid0, String.eqb_refl in E. discriminate.
  - intros id Hne. unfold userById. cbn [db_users]. rewrite (find_user_map g _ _ Hg).
    destruct (find (fun u => String.eqb (user_id u) id) (db_users w)) as [u|] eqn:Hf;
      [|reflexivity].
    cbn [option_map]. apply find_some in Hf as [_ Hu]. apply String.eqb_eq in Hu.
    unfold g. assert (String.eqb (user_id u) (sock_userId sock) = false) as ->
        by (apply String.eqb_neq; congruence).
    reflexivity.
  - reflexivity.
  - reflexivity.
  - cbn [set_socketUser set_connectedSockets set_userSockets userSockets].
    rewrite JsMap_get_delete. now rewrite String.eqb_refl.
Qed.

Lemma last_disconnect_stores_offline_witness :
  JsMap.get (sock_userId sockAlice) (userSockets (fst (after bothInGeneral)))
  = Some ["s1"]
  /\ JsSet.delete (sock_id sockAlice) ["s1"] = []
  /\ userById (snd (after bothInGeneral)) (sock_userId sockAlice) = Some aliceOnline
  /\ userById
       (snd (onDisconnect sockAlice (fst (after bothInGeneral))
               (snd (after bothInGeneral))))
       (sock_userId sockAlice)
     = Some (mkUser (user_id aliceOnline) (user_username aliceOnline)
               (user_avatarUrl aliceOnline) "offline"
               (user_statusMessage aliceOnline)
               (db_clock (snd (after bothInGeneral)))).
Proof.
  assert (JsMap.get (sock_userId sockAlice) (userSockets (fst (after bothInGeneral)))
          = Some ["s1"]) as Hs by (vm_compute; reflexivity).
  assert (JsSet.delete (sock_id sockAlice) ["s1"] = []) as Hlast
      by (vm_compute; reflexivity).
  assert (userById (snd (after bothInGeneral)) (sock_userId sockAlice)
          = Some aliceOnline) as Hu by (vm_compute; reflexivity).
  split; [exact Hs|]. split; [exact Hlast|]. split; [exact Hu|].
  exact (proj1 (last_disconnect_stores_offline sockAlice (fst (after bothInGeneral))
                  (snd (after bothInGeneral)) ["s1"] aliceOnline Hs Hlast Hu)).
Defined.
